(** * PIT ID badge application bot: a shallow embedding of [main.py]

    The bot drives a browser through a login, two navigation clicks, a
    duplicate-check modal and a long form, and then decides from what the
    page shows whether the submission went through.  The Python source is
    embedded as follows.

    - A Python [str] is a list of Unicode code points ([pystr]).  The
      builtins the source relies on ([str.isdigit], [str.strip],
      [str.split], [in], [int]) are written out over code points.
    - Every Playwright call that talks to the page may raise.  What the
      page answers at each call site is given by a [Page] record of
      oracles indexed by call site; the program is deterministic once the
      answers are fixed, so quantifying over [Page] quantifies over every
      behaviour of the portal.  [wait_for_timeout], [print], the lazy
      [page.locator(...).first] constructors and the launching and closing
      of the browser are taken to return.
    - Effects are collected in a writer monad: every page call, every
      progress line, the opening and closing of a browser session and
      every call of the repository are appended to a trace.
    - The only exceptions modelled are subclasses of [Exception], so the
      bare [except:] clauses and [except Exception] coincide. *)

From Stdlib Require Import List String Ascii NArith ZArith Bool Arith Lia.
Import ListNotations.
Local Open Scope N_scope.

(** ** Python strings *)

Module Py.

Definition pystr : Type := list N.

(** A string literal of the program text, as code points. *)
Definition lit (s : string) : pystr :=
  List.map N_of_ascii (list_ascii_of_string s).

Inductive exn : Type :=
| ValueError
| IndexError
| PlaywrightError.

Inductive result (A : Type) : Type :=
| Ret (a : A)
| Raise (e : exn).
Arguments Ret {A} a.
Arguments Raise {A} e.

Definition in_ranges (tbl : list (N * N)) (c : N) : bool :=
  existsb (fun r => (fst r <=? c) && (c <=? snd r)) tbl.

(** Code points of General_Category Nd ([str.isdecimal]); every range is a
    whole number of runs 0..9. *)
Definition decimal_ranges : list (N * N) :=
  [(48, 57); (1632, 1641); (1776, 1785); (1984, 1993); (2406, 2415);
   (2534, 2543); (2662, 2671); (2790, 2799); (2918, 2927); (3046, 3055);
   (3174, 3183); (3302, 3311); (3430, 3439); (3558, 3567); (3664, 3673);
   (3792, 3801); (3872, 3881); (4160, 4169); (4240, 4249); (6112, 6121);
   (6160, 6169); (6470, 6479); (6608, 6617); (6784, 6793); (6800, 6809);
   (6992, 7001); (7088, 7097); (7232, 7241); (7248, 7257); (42528, 42537);
   (43216, 43225); (43264, 43273); (43472, 43481); (43504, 43513);
   (43600, 43609); (44016, 44025); (65296, 65305); (66720, 66729);
   (68912, 68921); (69734, 69743); (69872, 69881); (69942, 69951);
   (70096, 70105); (70384, 70393); (70736, 70745); (70864, 70873);
   (71248, 71257); (71360, 71369); (71472, 71481); (71904, 71913);
   (72016, 72025); (72784, 72793); (73040, 73049); (73120, 73129);
   (92768, 92777); (92864, 92873); (93008, 93017); (120782, 120831);
   (123200, 123209); (123632, 123641); (125264, 125273); (130032, 130041)].

(** Code points with Numeric_Type=Digit that are not decimal: superscripts,
    subscripts, circled and parenthesised digits and the like. *)
Definition other_digit_ranges : list (N * N) :=
  [(178, 179); (185, 185); (4969, 4977); (6618, 6618); (8304, 8304);
   (8308, 8313); (8320, 8329); (9312, 9320); (9332, 9340); (9352, 9360);
   (9450, 9450); (9461, 9469); (9471, 9471); (10102, 10110);
   (10112, 10120); (10122, 10130); (68160, 68163); (69216, 69224);
   (69714, 69722); (127232, 127242)].

(** [str.isspace], which is also the set [str.strip()] removes. *)
Definition space_ranges : list (N * N) :=
  [(9, 13); (28, 32); (133, 133); (160, 160); (5760, 5760); (8192, 8202);
   (8232, 8233); (8239, 8239); (8287, 8287); (12288, 12288)].

Definition isdecimal (c : N) : bool := in_ranges decimal_ranges c.

(** [c.isdigit()]: Numeric_Type is Digit or Decimal. *)
Definition isdigit (c : N) : bool :=
  isdecimal c || in_ranges other_digit_ranges c.

Definition isspace (c : N) : bool := in_ranges space_ranges c.

Fixpoint lstrip (s : pystr) : pystr :=
  match s with
  | [] => []
  | c :: r => if isspace c then lstrip r else s
  end.

(** [s.strip()] *)
Definition strip (s : pystr) : pystr := rev (lstrip (rev (lstrip s))).

Fixpoint starts_with (p s : pystr) : bool :=
  match p, s with
  | [], _ => true
  | _ :: _, [] => false
  | a :: p', b :: s' => (a =? b) && starts_with p' s'
  end.

(** [p in s] for strings. *)
Fixpoint contains (p s : pystr) : bool :=
  starts_with p s ||
  match s with
  | [] => false
  | _ :: s' => contains p s'
  end.

(** [s.split(sep)] for a one-character separator. *)
Fixpoint split (sep : N) (s : pystr) : list pystr :=
  match s with
  | [] => [[]]
  | c :: r =>
      if c =? sep then [] :: split sep r
      else match split sep r with
           | [] => [[c]]
           | p :: ps => (c :: p) :: ps
           end
  end.

(** [xs[i]], raising [IndexError] out of range (non-negative [i]). *)
Definition index {A : Type} (xs : list A) (i : nat) : result A :=
  match nth_error xs i with
  | Some x => Ret x
  | None => Raise IndexError
  end.

(** Whitespace [int] skips at both ends: the ASCII blanks and the
    non-ASCII spaces (U+001C..U+001F are not skipped). *)
Definition int_space (c : N) : bool :=
  isspace c && negb ((28 <=? c) && (c <=? 31)).

Fixpoint int_lstrip (s : pystr) : pystr :=
  match s with
  | [] => []
  | c :: r => if int_space c then int_lstrip r else s
  end.

Definition digit_value (c : N) : option Z :=
  match find (fun r => (fst r <=? c) && (c <=? snd r)) decimal_ranges with
  | Some r => Some (Z.of_N ((c - fst r) mod 10))
  | None => None
  end.

(** Digits with single underscores between them; [prev] tells whether the
    previous character was a digit. *)
Fixpoint int_digits (s : pystr) (prev : bool) (acc : Z) : option Z :=
  match s with
  | [] => if prev then Some acc else None
  | c :: r =>
      if c =? 95 then (if prev then int_digits r false acc else None)
      else match digit_value c with
           | Some d => int_digits r true (10 * acc + d)%Z
           | None => None
           end
  end.

(** [int(s)] in base ten.  The interpreter's cap on the number of digits
    is not modelled. *)
Definition int (s : pystr) : result Z :=
  let body := rev (int_lstrip (rev (int_lstrip s))) in
  let parse (neg : bool) (ds : pystr) :=
    match int_digits ds false 0%Z with
    | Some v => Ret (if neg then (- v)%Z else v)
    | None => Raise ValueError
    end in
  match body with
  | 43 :: ds => parse false ds
  | 45 :: ds => parse true ds
  | ds => parse false ds
  end.

(** Truthiness of a string value that may be [None]. *)
Definition truthy (v : option pystr) : bool :=
  match v with
  | Some (_ :: _) => true
  | _ => false
  end.

(** [v or ""] *)
Definition or_empty (v : option pystr) : pystr :=
  match v with
  | Some s => s
  | None => []
  end.

End Py.
Import Py.

(** ** Data model *)

(** A row of [new_hire_submissions] as the repository returns it: every
    column is present, a value is a string or null. *)
Record Submission : Type := mkSubmission {
  id : pystr;
  first_name : option pystr;
  last_name : option pystr;
  middle_name : option pystr;
  date_of_birth : option pystr;
  ssn_last_4 : option pystr;
  applicant_email : option pystr;
  applicant_phone : option pystr
}.

(** The dictionary [format_applicant_for_bot] builds. *)
Record Applicant : Type := mkApplicant {
  a_first_name : option pystr;
  a_last_name : option pystr;
  a_middle_name : pystr;
  dob : pystr;
  ssn4 : option pystr;
  email : option pystr;
  phone : pystr;
  submission_id : pystr
}.

Definition dash : N := 45.
Definition slash : N := 47.

(** Lines 85-90 of [format_applicant_for_bot]. *)
Definition format_dob (dob_raw : option pystr) : result pystr :=
  match dob_raw with
  | Some d =>
      if truthy dob_raw && contains [dash] d then
        let parts := split dash d in
        match index parts 1 with
        | Raise e => Raise e
        | Ret p1 =>
            match index parts 2 with
            | Raise e => Raise e
            | Ret p2 =>
                match index parts 0 with
                | Raise e => Raise e
                | Ret p0 => Ret (p1 ++ [slash] ++ p2 ++ [slash] ++ p0)
                end
            end
        end
      else Ret (or_empty dob_raw)
  | None => Ret (or_empty dob_raw)
  end.

(** The generator expression of line 93, joined. *)
Fixpoint join_digits (s : pystr) : pystr :=
  match s with
  | [] => []
  | c :: r => if isdigit c then c :: join_digits r else join_digits r
  end.

(** Lines 92-93: [phone_raw] with [or ""], then the digits of it. *)
Definition phone_clean (phone_raw : option pystr) : pystr :=
  join_digits (or_empty phone_raw).

Definition format_applicant_for_bot (record : Submission) : result Applicant :=
  match format_dob (date_of_birth record) with
  | Raise e => Raise e
  | Ret dob_formatted =>
      Ret {| a_first_name := first_name record;
             a_last_name := last_name record;
             a_middle_name := or_empty (middle_name record);
             dob := dob_formatted;
             ssn4 := ssn_last_4 record;
             email := applicant_email record;
             phone := phone_clean (applicant_phone record);
             submission_id := id record |}
  end.

(** ** The page and the trace *)

Inductive login_site : Type :=
| LGoto | LSignIn | LLoad
| LUserWait | LUserFill | LNextVisible | LNextClick | LNextLoad
| LPassWait | LPassFill | LSubmitClick
| LWaitUrl.

Inductive nav_site : Type :=
| NWait | NClick | NLoad
| IVisible (sel : string) | IClick (sel : string) | ILoad (sel : string).

Inductive dup_site : Type :=
| DLoad | DModal (sel : string) | DScript
| DSsnVisible (sel : string) | DSsnFill (sel : string)
| DContinue | DLoadAfter.

Inductive auto_site : Type :=
| AVisible (sel : string)
| AAll | AInnerText (i : nat) | AInnerVisible (i : nat)
| AScroll | AClick | AClear | AType
| AOptions (sel : string)
| AOptVisible (sel : string) (i : nat) | AOptClick (sel : string) (i : nat)
| AArrowDown | AEnter.

Inductive form_site : Type :=
| FHeading
| FVisible (field sel : string) | FClick (field sel : string)
| FFill (field sel : string)
| FScroll (n : nat)
| FAuto (field_name : string) (a : auto_site)
| FBadgeVisible (sel : string) | FBadgeOpen (sel : string)
| FBadgeOption (sel : string)
| FShotBefore
| Cb1Visible | Cb1Scroll | Cb1Click
| Cb2Visible | Cb2Scroll | Cb2Class | Cb2Click
| Cb3Visible | Cb3Scroll | Cb3Click
| Cb4Script
| Cb5Box | Cb5Mouse
| CbVerifyClass | CbShotNotChecked
| FSubmit | FSubmitLoad
| ErrVisible (sel : string) | ErrText (sel : string) | ErrShot (sel : string)
| SucVisible (sel : string) | SucText (sel : string)
| FContent
| FSubmitVisible
| FShotUncertain.

Inductive site : Type :=
| InLogin (s : login_site)
| InNav (s : nav_site)
| InDup (s : dup_site)
| InForm (s : form_site).

(** What the portal answers, call site by call site. *)
Record Page : Type := mkPage {
  act : site -> result unit;            (* clicks, fills, waits, scripts, screenshots *)
  ask : site -> result bool;            (* is_visible, flags returned by scripts, bounding_box is not None *)
  txt : site -> result pystr;           (* inner_text, content *)
  attr : site -> result (option pystr); (* get_attribute *)
  count : site -> result nat;           (* len(locator.all()) *)
  url : pystr                           (* page.url *)
}.

Inductive event : Type :=
| Launch (headless : bool)
| Close
| Call (s : site)
| Log (msg : string).

(** Events of a whole run of [run_apply]: what happens inside the [k]-th
    [run_application] is tagged with [k]. *)
Inductive run_event : Type :=
| Info (msg : string)
| FetchById (application_id : pystr)
| FetchPending
| At (k : nat) (e : event)
| MarkSent (k : nat) (submission_id : pystr)
| Summary (success_count fail_count : nat).

(** ** The effect monad: a result and the events emitted on the way *)

Definition Eff (E A : Type) : Type := (result A * list E)%type.

Definition ret {E A : Type} (a : A) : Eff E A := (Ret a, []).

Definition raise {E A : Type} (e : exn) : Eff E A := (Raise e, []).

Definition lift {E A : Type} (r : result A) : Eff E A := (r, []).

Definition bind {E A B : Type} (m : Eff E A) (k : A -> Eff E B) : Eff E B :=
  match m with
  | (Ret a, t) => let (r, t') := k a in (r, t ++ t')
  | (Raise e, t) => (Raise e, t)
  end.

(** [try: m  except Exception as e: h e] *)
Definition try_ {E A : Type} (m : Eff E A) (h : exn -> Eff E A) : Eff E A :=
  match m with
  | (Ret a, t) => (Ret a, t)
  | (Raise e, t) => let (r, t') := h e in (r, t ++ t')
  end.

(** [try: m  finally: f] *)
Definition finally_ {E A : Type} (m : Eff E A) (f : Eff E unit) : Eff E A :=
  match m, f with
  | (r, t), (Ret _, t') => (r, t ++ t')
  | (_, t), (Raise e, t') => (Raise e, t ++ t')
  end.

Definition emit {E : Type} (e : E) : Eff E unit := (Ret tt, [e]).

Definition run_result {E A : Type} (m : Eff E A) : result A := fst m.
Definition trace {E A : Type} (m : Eff E A) : list E := snd m.

Declare Scope py_scope.
Delimit Scope py_scope with py.
Notation "x <- m ;; k" := (bind m (fun x => k))
  (at level 61, m at next level, right associativity) : py_scope.
Notation "m ;; k" := (bind m (fun _ => k))
  (at level 61, right associativity) : py_scope.
Local Open Scope py_scope.
Local Open Scope string_scope.

(** The loop shape the source uses everywhere:
    [for x in xs: try: body(x) except: continue], where the body returns
    [true] when it leaves the loop ([break], or [return True] in the
    callers that return from inside the loop).  The result tells whether
    the loop was left that way. *)
Fixpoint for_try {E X : Type} (xs : list X) (body : X -> Eff E bool)
  : Eff E bool :=
  match xs with
  | [] => ret false
  | x :: rest =>
      r <- try_ (body x) (fun _ => ret false) ;;
      if (r : bool) then ret true else for_try rest body
  end.

Definition M : Type -> Type := Eff event.
Definition log (msg : string) : M unit := emit (Log msg).

(** Environment variables read by [login]. *)
Record Env : Type := mkEnv {
  PITID_USERNAME : option pystr;
  PITID_PASSWORD : option pystr
}.

Definition checked_marker : pystr := lit "mat-checkbox-checked".

Definition btn_selectors : list string :=
  ["text=Initiate a New Badge Application";
   "text=Initiate a New Badge";
   "a:has-text('Initiate a New Badge')";
   "text=Initiate"].

Definition modal_selectors : list string :=
  ["text=Duplicate Check"; "text=Personal Information";
   "input[placeholder*='MM/DD/YYYY']"].

Definition ssn_selectors : list string :=
  ["input[placeholder*='Last 4']"; "input[placeholder*='SSN']";
   "input[id*='ssn']"].

Definition option_selectors : list string :=
  ["mat-option:has-text('Atlas')"; ".mat-option:has-text('Atlas')"].

Definition error_selectors : list string :=
  ["text=already exists";
   "text=duplicate";
   "text=Email is already";
   "mat-snack-bar-container:has-text('error')";
   "snack-bar-container:has-text('error')";
   ".error-message"].

Definition success_selectors : list string :=
  ["text=successfully";
   "text=submitted";
   "text=Application has been";
   "text=invitation has been sent";
   "mat-snack-bar-container:has-text('success')"].

Section Stages.

Variable pg : Page.

Definition do_act (s : site) : M unit := (act pg s, [Call s]).
Definition do_ask (s : site) : M bool := (ask pg s, [Call s]).
Definition do_txt (s : site) : M pystr := (txt pg s, [Call s]).
Definition do_attr (s : site) : M (option pystr) := (attr pg s, [Call s]).
Definition do_count (s : site) : M nat := (count pg s, [Call s]).

(** *** Login (lines 134-185) *)

Definition login (env : Env) : M bool :=
  let username := PITID_USERNAME env in
  let password := PITID_PASSWORD env in
  if negb (truthy username) || negb (truthy password) then
    raise ValueError
  else
    log "[LOGIN] Navigating to BASE_URL" ;;
    do_act (InLogin LGoto) ;;
    log "[LOGIN] Clicking 'SIGN IN TO MYPITID'" ;;
    do_act (InLogin LSignIn) ;;
    log "[LOGIN] Waiting for login form..." ;;
    do_act (InLogin LLoad) ;;
    try_ (do_act (InLogin LUserWait) ;;
          log "[LOGIN] Entering username" ;;
          do_act (InLogin LUserFill) ;;
          visible <- do_ask (InLogin LNextVisible) ;;
          if (visible : bool) then
            do_act (InLogin LNextClick) ;;
            do_act (InLogin LNextLoad)
          else ret tt)
         (fun _ => log "[LOGIN] Username step error") ;;
    entered <- try_ (do_act (InLogin LPassWait) ;;
                     log "[LOGIN] Entering password" ;;
                     do_act (InLogin LPassFill) ;;
                     do_act (InLogin LSubmitClick) ;;
                     ret true)
                    (fun _ => log "[LOGIN] Password step error" ;; ret false) ;;
    if (entered : bool) then
      log "[LOGIN] Waiting for dashboard..." ;;
      try_ (do_act (InLogin LWaitUrl) ;;
            log "[LOGIN] Successfully logged in!" ;;
            ret true)
           (fun _ =>
              if contains (lit "AlertSelfService") (url pg) then
                log "[LOGIN] Successfully logged in!" ;; ret true
              else ret false)
    else ret false.

(** *** Navigation (lines 192-231) *)

Definition navigate_to_application_management : M bool :=
  log "[NAV] Looking for Application Management tile..." ;;
  try_ (do_act (InNav NWait) ;;
        do_act (InNav NClick) ;;
        do_act (InNav NLoad) ;;
        log "[NAV] Entered Application Management" ;;
        ret true)
       (fun _ => log "[NAV] Error" ;; ret false).

Definition initiate_new_application : M bool :=
  log "[NAV] Looking for 'Initiate a New Badge Application' button..." ;;
  clicked <- for_try btn_selectors (fun selector =>
    visible <- do_ask (InNav (IVisible selector)) ;;
    if (visible : bool) then
      do_act (InNav (IClick selector)) ;;
      log "[NAV] Clicked" ;;
      do_act (InNav (ILoad selector)) ;;
      ret true
    else ret false) ;;
  if (clicked : bool) then ret true
  else log "[NAV] Could not find new application button" ;; ret false.

(** *** Duplicate check (lines 238-307) *)

Definition fill_duplicate_check (dob : pystr) (ssn4 : option pystr)
  : M bool :=
  log "[FORM] Waiting for duplicate check modal..." ;;
  try_ (do_act (InDup DLoad) ;;
        modal_found <- for_try modal_selectors (fun selector =>
          do_act (InDup (DModal selector)) ;;
          log "[FORM] Found modal element" ;;
          ret true) ;;
        if negb modal_found then
          log "[FORM] Could not find duplicate check modal" ;; ret false
        else
          let parts := split slash dob in
          p0 <- lift (index parts 0) ;; month <- lift (Py.int p0) ;;
          p1 <- lift (index parts 1) ;; day <- lift (Py.int p1) ;;
          p2 <- lift (index parts 2) ;; year <- lift (Py.int p2) ;;
          log "[FORM] Parsed date" ;;
          log "[FORM] Setting DOB via JavaScript..." ;;
          success <- do_ask (InDup DScript) ;;
          (if (success : bool) then log "[FORM] Set DOB"
           else log "[FORM] WARNING: DOB JavaScript method may have failed") ;;
          for_try ssn_selectors (fun selector =>
            visible <- do_ask (InDup (DSsnVisible selector)) ;;
            if (visible : bool) then
              do_act (InDup (DSsnFill selector)) ;;
              log "[FORM] Filled SSN4" ;;
              ret true
            else ret false) ;;
          do_act (InDup DContinue) ;;
          do_act (InDup DLoadAfter) ;;
          log "[FORM] Duplicate check submitted" ;;
          ret true)
       (fun _ => log "[FORM] Duplicate check error" ;; ret false).

(** *** Autocomplete fields (lines 310-404) *)

Section Autocomplete.

Variable field_name : string.

Definition auto (a : auto_site) : site := InForm (FAuto field_name a).

(** The scan of all [mat-form-field] containers.  [inp] is the value of
    the variable [inp] (set or [None]) when the iteration starts; it is
    assigned before [is_visible] is asked, so an exception there leaves it
    set. *)
Fixpoint scan_form_fields (labels : list pystr) (n i : nat) (inp : bool)
  : M bool :=
  match n with
  | O => ret inp
  | S n' =>
      r <- try_ (text <- do_txt (auto (AInnerText i)) ;;
                 if existsb (fun l => contains l text) labels then
                   try_ (visible <- do_ask (auto (AInnerVisible i)) ;;
                         if (visible : bool) then ret (true, true)
                         else ret (false, false))
                        (fun _ => ret (false, true))
                 else ret (false, inp))
                (fun _ => ret (false, inp)) ;;
      if fst r then ret true else scan_form_fields labels n' (S i) (snd r)
  end.

(** [for opt in options: if opt.is_visible(): opt.click(); return True] *)
Fixpoint click_first_visible (opt_sel : string) (n i : nat) : M bool :=
  match n with
  | O => ret false
  | S n' =>
      visible <- do_ask (auto (AOptVisible opt_sel i)) ;;
      if (visible : bool) then
        do_act (auto (AOptClick opt_sel i)) ;;
        log "[FORM] Selected Atlas" ;;
        ret true
      else click_first_visible opt_sel n' (S i)
  end.

(** The primary selector of the access and employer fields, then the
    scan. *)
Definition locate_labelled (primary : string) (labels : list pystr)
  : M bool :=
  inp <- try_ (do_ask (auto (AVisible primary))) (fun _ => ret false) ;;
  if (inp : bool) then ret true
  else
    n <- do_count (auto AAll) ;;
    scan_form_fields labels n 0 false.

Definition fill_autocomplete_field (trigger : pystr) : M bool :=
  log "[FORM] === Filling autocomplete field ===" ;;
  try_ (inp <-
          (if field_name =? "sponsor" then
             for_try ["input[placeholder*='list down all relevant Sponsors']";
                      "input[placeholder*='Sponsor']"]
                     (fun sel => do_ask (auto (AVisible sel)))
           else if field_name =? "access" then
             locate_labelled "mat-form-field:has-text('Access') input"
                             [lit "Access"]
           else if field_name =? "employer" then
             locate_labelled "mat-form-field:has-text('Employer') input"
                             [lit "Employer"; lit "Agency"]
           else ret false) ;;
        if negb inp then
          log "[FORM] ERROR: Could not find field" ;; ret false
        else
          do_act (auto AScroll) ;;
          do_act (auto AClick) ;;
          do_act (auto AClear) ;;
          do_act (auto AType) ;;
          selected <- for_try option_selectors (fun opt_sel =>
            n <- do_count (auto (AOptions opt_sel)) ;;
            click_first_visible opt_sel n 0) ;;
          if (selected : bool) then ret true
          else
            do_act (auto AArrowDown) ;;
            do_act (auto AEnter) ;;
            ret true)
       (fun _ => log "[FORM] Autocomplete error" ;; ret false).

End Autocomplete.

(** *** The application form (lines 407-731) *)

(** One text field: the first selector whose element is visible is
    clicked (not for the middle name) and filled. *)
Definition fill_field (field : string) (click_first : bool)
  (sels : list string) : M bool :=
  for_try sels (fun sel =>
    visible <- do_ask (InForm (FVisible field sel)) ;;
    if (visible : bool) then
      (if click_first then do_act (InForm (FClick field sel)) else ret tt) ;;
      do_act (InForm (FFill field sel)) ;;
      log field ;;
      ret true
    else ret false).

(** Lines 412-528: name and contact fields, the three autocomplete
    fields, the badge type, the scroll to the checkbox. *)
Definition fill_form_fields (applicant : Applicant) : M unit :=
  do_act (InForm FHeading) ;;
  log "[FORM] Filling First Name..." ;;
  fill_field "First Name" true
    ["mat-form-field:has-text('First Name') input"; "input[id*='first' i]"] ;;
  log "[FORM] Filling Last Name..." ;;
  fill_field "Last Name" true
    ["mat-form-field:has-text('Last name') input";
     "mat-form-field:has-text('Last Name') input"] ;;
  (if truthy (Some (a_middle_name applicant)) then
     fill_field "Middle Name" false ["mat-form-field:has-text('Middle') input"]
   else ret false) ;;
  log "[FORM] Filling Email..." ;;
  fill_field "Email" true
    ["mat-form-field:has-text('Email') input"; "input[type='email']"] ;;
  log "[FORM] Filling Phone..." ;;
  fill_field "Phone" true
    ["mat-form-field:has-text('Phone') input"; "input[type='tel']"] ;;
  do_act (InForm (FScroll 1)) ;;
  fill_autocomplete_field "sponsor" (lit "**") ;;
  fill_autocomplete_field "access" (lit "**") ;;
  fill_autocomplete_field "employer" (lit "**") ;;
  do_act (InForm (FScroll 2)) ;;
  log "[FORM] Selecting Badge Type: Sterile Area" ;;
  try_ (for_try ["mat-form-field:has-text('Badge Type') mat-select";
                 "mat-select[id*='badge' i]"]
          (fun sel =>
             visible <- do_ask (InForm (FBadgeVisible sel)) ;;
             if (visible : bool) then
               do_act (InForm (FBadgeOpen sel)) ;;
               do_act (InForm (FBadgeOption sel)) ;;
               log "[FORM] Selected 'Sterile Area'" ;;
               ret true
             else ret false))
       (fun _ => ret false) ;;
  log "[FORM] Scrolling to bottom for checkbox..." ;;
  do_act (InForm (FScroll 3)) ;;
  log "[FORM] Looking for certification checkbox..." ;;
  do_act (InForm FShotBefore).

(** Lines 530-619: the five escalating ways of clicking the certification
    checkbox; the result is [checkbox_clicked]. *)
Definition click_checkbox : M bool :=
  checkbox_clicked <-
    try_ (visible <- do_ask (InForm Cb1Visible) ;;
          if (visible : bool) then
            log "[FORM] Found checkbox with 'certify' text" ;;
            do_act (InForm Cb1Scroll) ;;
            do_act (InForm Cb1Click) ;;
            log "[FORM] Clicked certification checkbox" ;;
            ret true
          else ret false)
         (fun _ => log "[FORM] Certify checkbox method failed" ;; ret false) ;;
  checkbox_clicked <-
    (if negb checkbox_clicked then
       try_ (visible <- do_ask (InForm Cb2Visible) ;;
             if (visible : bool) then
               log "[FORM] Found mat-checkbox" ;;
               do_act (InForm Cb2Scroll) ;;
               class_attr <- do_attr (InForm Cb2Class) ;;
               if negb (contains checked_marker (or_empty class_attr)) then
                 do_act (InForm Cb2Click) ;;
                 log "[FORM] Clicked mat-checkbox" ;;
                 ret true
               else
                 log "[FORM] Checkbox already checked" ;;
                 ret true
             else ret false)
            (fun _ => log "[FORM] mat-checkbox click failed" ;; ret false)
     else ret true) ;;
  checkbox_clicked <-
    (if negb checkbox_clicked then
       try_ (visible <- do_ask (InForm Cb3Visible) ;;
             if (visible : bool) then
               log "[FORM] Found checkbox label" ;;
               do_act (InForm Cb3Scroll) ;;
               do_act (InForm Cb3Click) ;;
               log "[FORM] Clicked checkbox label" ;;
               ret true
             else ret false)
            (fun _ => log "[FORM] Label click failed" ;; ret false)
     else ret true) ;;
  checkbox_clicked <-
    (if negb checkbox_clicked then
       try_ (log "[FORM] Trying JavaScript method..." ;;
             do_act (InForm Cb4Script) ;;
             log "[FORM] Used JavaScript to check checkbox" ;;
             ret true)
            (fun _ => log "[FORM] JavaScript checkbox failed" ;; ret false)
     else ret true) ;;
  if negb checkbox_clicked then
    try_ (log "[FORM] Trying coordinate click..." ;;
          box <- do_ask (InForm Cb5Box) ;;
          if (box : bool) then
            do_act (InForm Cb5Mouse) ;;
            log "[FORM] Clicked checkbox by coordinates" ;;
            ret true
          else ret false)
         (fun _ => log "[FORM] Coordinate click failed" ;; ret false)
  else ret true.

Definition msg_checkbox_verified : string :=
  "[FORM] SUCCESS: Checkbox verified as checked".

(** Lines 621-632: the state indicator is read again. *)
Definition verify_checkbox : M unit :=
  try_ (class_attr <- do_attr (InForm CbVerifyClass) ;;
        if contains checked_marker (or_empty class_attr) then
          log msg_checkbox_verified
        else
          log "[FORM] WARNING: Checkbox may not be checked!" ;;
          do_act (InForm CbShotNotChecked))
       (fun _ => ret tt).

(** Lines 644-724: what the page shows after the submit click decides the
    result.  The bodies of the two loops and the two later checks come
    first. *)

(** Lines 656-667: one explicit-error pattern. *)
Definition error_check (err_sel : string) : M bool :=
  visible <- do_ask (InForm (ErrVisible err_sel)) ;;
  if (visible : bool) then
    text <- do_txt (InForm (ErrText err_sel)) ;;
    let error_text := strip text in
    if truthy (Some error_text) && Nat.ltb 5 (List.length error_text) then
      log "[FORM] ERROR DETECTED" ;;
      do_act (InForm (ErrShot err_sel)) ;;
      ret true
    else ret false
  else ret false.

(** Lines 683-692: one explicit-success pattern. *)
Definition success_check (suc_sel : string) : M bool :=
  visible <- do_ask (InForm (SucVisible suc_sel)) ;;
  if (visible : bool) then
    text <- do_txt (InForm (SucText suc_sel)) ;;
    let success_text := strip text in
    if truthy (Some success_text) then
      log "[FORM] SUCCESS" ;; ret true
    else ret false
  else ret false.

(** Lines 696-702: back on the application list. *)
Definition landing_check : M bool :=
  try_ (page_content <- do_txt (InForm FContent) ;;
        if contains (lit "Initiate a New Badge") page_content
           || contains (lit "Application Management") page_content
        then
          log "[FORM] SUCCESS: Redirected back to application list" ;;
          ret true
        else ret false)
       (fun _ => ret false).

(** Lines 706-712: the submit button is gone. *)
Definition submit_gone_check : M bool :=
  try_ (visible <- do_ask (InForm FSubmitVisible) ;;
        if negb visible then
          log "[FORM] SUCCESS: Submit button no longer visible" ;;
          ret true
        else ret false)
       (fun _ => ret false).

(** Lines 714-724: confirmed, or assumed with a screenshot. *)
Definition report_outcome (success_found : bool) : M bool :=
  if success_found then
    log "[FORM] Application submitted successfully!" ;;
    ret true
  else
    log "[FORM] WARNING: Could not confirm submission - checking for errors..." ;;
    do_act (InForm FShotUncertain) ;;
    log "[FORM] No error detected, assuming success" ;;
    ret true.

Definition classify_outcome : M bool :=
  error_found <- for_try error_selectors error_check ;;
  if (error_found : bool) then ret false
  else
    success_found <- for_try success_selectors success_check ;;
    success_found <-
      (if negb success_found then landing_check else ret true) ;;
    success_found <-
      (if negb success_found then submit_gone_check else ret true) ;;
    report_outcome success_found.

(** Lines 637-727: submit and classify, or stop. *)
Definition submit_or_stop (submit : bool) : M bool :=
  if submit then
    log "[FORM] Submitting application..." ;;
    do_act (InForm FSubmit) ;;
    do_act (InForm FSubmitLoad) ;;
    classify_outcome
  else
    log "[FORM] *** SUBMIT DISABLED - Form filled but not submitted ***" ;;
    ret true.

Definition fill_application_form (applicant : Applicant) (submit : bool)
  : M bool :=
  log "[FORM] Filling application form..." ;;
  try_ (fill_form_fields applicant ;;
        click_checkbox ;;
        verify_checkbox ;;
        submit_or_stop submit)
       (fun _ => log "[FORM] Error" ;; ret false).

(** *** One applicant (lines 738-779) *)

Definition run_application (env : Env) (applicant : Applicant)
  (headless submit : bool) : M bool :=
  log "PIT ID Application Bot" ;;
  emit (Launch headless) ;;
  finally_
    (try_ (ok <- login env ;;
           if negb ok then log "[ERROR] Login failed" ;; ret false
           else
           ok <- navigate_to_application_management ;;
           if negb ok then
             log "[ERROR] Could not navigate to Application Management" ;;
             ret false
           else
           ok <- initiate_new_application ;;
           if negb ok then
             log "[ERROR] Could not initiate new application" ;; ret false
           else
           ok <- fill_duplicate_check (dob applicant) (ssn4 applicant) ;;
           if negb ok then log "[ERROR] Duplicate check failed" ;; ret false
           else
           ok <- fill_application_form applicant submit ;;
           if negb ok then log "[ERROR] Form filling failed" ;; ret false
           else
           log "[SUCCESS] Application process completed!" ;;
           ret true)
          (fun _ => log "[ERROR] Unexpected error" ;; ret false))
    (emit Close).

End Stages.

(** ** The whole run (lines 782-829) *)

(** Everything outside the program: the environment variables, the
    applicant repository, and the portal as the [k]-th browser session of
    the run finds it. *)
Record World : Type := mkWorld {
  env : Env;
  get_pending_airport_applications : result (list Submission);
  get_application_by_id : pystr -> result (option Submission);
  mark_result : nat -> result bool;
  page : nat -> Page
}.

Definition R : Type -> Type := Eff run_event.

Definition info (msg : string) : R unit := emit (Info msg).

(** The events of one [run_application], tagged with its position. *)
Definition within {A : Type} (k : nat) (m : M A) : R A :=
  (fst m, List.map (At k) (snd m)).

Section Run.

Variable w : World.
Variables headless submit : bool.

(** [mark_badge_request_sent], the repository's mutation. *)
Definition mark_badge_request_sent (k : nat) (submission_id : pystr)
  : R bool :=
  (mark_result w k, [MarkSent k submission_id]).

(** The batch loop of lines 811-826, from the [k]-th record on. *)
Fixpoint process_records (k : nat) (records : list Submission)
  (success_count fail_count : nat) : R (nat * nat) :=
  match records with
  | [] => ret (success_count, fail_count)
  | record :: rest =>
      applicant <- lift (format_applicant_for_bot record) ;;
      info "Processing" ;;
      success <- within k
        (run_application (page w k) (env w) applicant headless submit) ;;
      if success && submit then
        mark_badge_request_sent k (id record) ;;
        info "[INFO] Marked badge request as sent" ;;
        process_records (S k) rest (S success_count) fail_count
      else if negb success then
        info "[ERROR] Application failed - NOT marking as sent" ;;
        process_records (S k) rest success_count (S fail_count)
      else
        process_records (S k) rest success_count fail_count
  end.

Definition run_apply (application_id : option pystr) (all_pending : bool)
  : R unit :=
  if truthy application_id then
    let application_id := or_empty application_id in
    record <- (get_application_by_id w application_id,
               [FetchById application_id]) ;;
    match record with
    | None => info "[ERROR] Application not found"
    | Some record =>
        applicant <- lift (format_applicant_for_bot record) ;;
        info "[INFO] Processing" ;;
        success <- within 0
          (run_application (page w 0) (env w) applicant headless submit) ;;
        if success && submit then
          mark_badge_request_sent 0 application_id ;;
          info "[INFO] Marked badge request as sent"
        else if negb success then
          info "[ERROR] Application failed - NOT marking as sent"
        else ret tt
    end
  else if all_pending then
    records <- (get_pending_airport_applications w, [FetchPending]) ;;
    info "[INFO] Found pending airport badge applications" ;;
    match records with
    | [] => info "[INFO] No pending applications to process"
    | _ :: _ =>
        counts <- process_records 0 records 0 0 ;;
        emit (Summary (fst counts) (snd counts))
    end
  else ret tt.

End Run.

(** ** Signals of the page after the submit click

    The conditions of lines 655-712, read off the page's answers. *)

(** An explicit-error pattern matches: its first element is visible and
    its trimmed text is longer than five characters. *)
Definition error_signal (pg : Page) (err_sel : string) : bool :=
  match ask pg (InForm (ErrVisible err_sel)),
        txt pg (InForm (ErrText err_sel)) with
  | Ret true, Ret text => Nat.ltb 5 (List.length (strip text))
  | _, _ => false
  end.

(** An explicit-success pattern matches with some text. *)
Definition success_text_signal (pg : Page) (suc_sel : string) : bool :=
  match ask pg (InForm (SucVisible suc_sel)),
        txt pg (InForm (SucText suc_sel)) with
  | Ret true, Ret text => truthy (Some (strip text))
  | _, _ => false
  end.

(** The page content carries a marker of the application list. *)
Definition landing_marker (pg : Page) : bool :=
  match txt pg (InForm FContent) with
  | Ret page_content =>
      contains (lit "Initiate a New Badge") page_content
      || contains (lit "Application Management") page_content
  | Raise _ => false
  end.

(** The submit control is reported as not visible. *)
Definition submit_control_gone (pg : Page) : bool :=
  match ask pg (InForm FSubmitVisible) with
  | Ret visible => negb visible
  | Raise _ => false
  end.

Definition success_signal (pg : Page) : bool :=
  existsb (success_text_signal pg) success_selectors
  || landing_marker pg || submit_control_gone pg.

(** The claim's reading of [normalize]: the decimal digits of the input,
    in order. *)
Definition decimal_digits_of (x : pystr) : pystr := filter isdecimal x.

(** ** Sample pages and worlds *)

(** A portal on which every call returns, everything asked about is
    visible and every text is empty. *)
Definition calm_page : Page :=
  {| act := fun _ => Ret tt;
     ask := fun _ => Ret true;
     txt := fun _ => Ret [];
     attr := fun _ => Ret None;
     count := fun _ => Ret O;
     url := [] |}.

(** After the submit click a success banner is shown. *)
Definition banner_page : Page :=
  {| act := fun _ => Ret tt;
     ask := fun _ => Ret true;
     txt := fun s =>
       match s with
       | InForm (SucText _) => Ret (lit "Application submitted successfully")
       | _ => Ret []
       end;
     attr := fun _ => Ret None;
     count := fun _ => Ret O;
     url := [] |}.

(** After the submit click the portal shows "Applicant already exists" and
    has removed the submit button; taking a screenshot times out. *)
Definition rejected_page_no_screenshot : Page :=
  {| act := fun s =>
       match s with
       | InForm (ErrShot _) => Raise PlaywrightError
       | _ => Ret tt
       end;
     ask := fun s =>
       match s with
       | InForm FSubmitVisible => Ret false
       | InForm (SucVisible _) => Ret false
       | _ => Ret true
       end;
     txt := fun s =>
       match s with
       | InForm (ErrText "text=already exists") =>
           Ret (lit "Applicant already exists")
       | _ => Ret []
       end;
     attr := fun _ => Ret None;
     count := fun _ => Ret O;
     url := [] |}.

(** The same page when the screenshot can be taken. *)
Definition rejected_page : Page :=
  {| act := fun _ => Ret tt;
     ask := ask rejected_page_no_screenshot;
     txt := txt rejected_page_no_screenshot;
     attr := fun _ => Ret None;
     count := fun _ => Ret O;
     url := [] |}.

(** The Application Management tile never shows up. *)
Definition no_tile_page : Page :=
  {| act := fun s =>
       match s with
       | InNav NWait => Raise PlaywrightError
       | _ => Ret tt
       end;
     ask := fun _ => Ret true;
     txt := fun _ => Ret [];
     attr := fun _ => Ret None;
     count := fun _ => Ret O;
     url := [] |}.

(** The portal cannot be reached at all. *)
Definition unreachable_page : Page :=
  {| act := fun s =>
       match s with
       | InLogin LGoto => Raise PlaywrightError
       | _ => Ret tt
       end;
     ask := fun _ => Ret true;
     txt := fun _ => Ret [];
     attr := fun _ => Ret None;
     count := fun _ => Ret O;
     url := [] |}.

(** The login form never appears: neither input becomes visible. *)
Definition no_login_form_page : Page :=
  {| act := fun s =>
       match s with
       | InLogin LUserWait => Raise PlaywrightError
       | InLogin LPassWait => Raise PlaywrightError
       | _ => Ret tt
       end;
     ask := fun _ => Ret true;
     txt := fun _ => Ret [];
     attr := fun _ => Ret None;
     count := fun _ => Ret O;
     url := [] |}.

(** A form without any [mat-checkbox]: nothing is visible, the script of
    the fourth method finds nothing to click and returns, and reading the
    class attribute times out. *)
Definition no_checkbox_page : Page :=
  {| act := fun _ => Ret tt;
     ask := fun s =>
       match s with
       | InForm Cb1Visible | InForm Cb2Visible | InForm Cb3Visible =>
           Ret false
       | _ => Ret true
       end;
     txt := fun _ => Ret [];
     attr := fun s =>
       match s with
       | InForm CbVerifyClass => Raise PlaywrightError
       | _ => Ret None
       end;
     count := fun _ => Ret O;
     url := [] |}.

Definition good_env : Env :=
  {| PITID_USERNAME := Some (lit "badging@example.com");
     PITID_PASSWORD := Some (lit "secret") |}.

Definition no_password_env : Env :=
  {| PITID_USERNAME := Some (lit "badging@example.com");
     PITID_PASSWORD := None |}.

Definition hire (ident dob_raw : string) : Submission :=
  {| id := lit ident;
     first_name := Some (lit "Test");
     last_name := Some (lit "User");
     middle_name := None;
     date_of_birth := Some (lit dob_raw);
     ssn_last_4 := Some (lit "1234");
     applicant_email := Some (lit "test@example.com");
     applicant_phone := Some (lit "(412) 555-1234") |}.

Definition hire_a : Submission := hire "a" "1990-01-15".
Definition hire_b : Submission := hire "b" "1985-7-4".
Definition hire_c : Submission := hire "c" "2001-12-31".
Definition hire_short_dob : Submission := hire "d" "1990-01".

Definition test_applicant : Applicant :=
  {| a_first_name := Some (lit "Test");
     a_last_name := Some (lit "User");
     a_middle_name := [];
     dob := lit "01/15/1990";
     ssn4 := Some (lit "1234");
     email := Some (lit "jchung@atlaswe.com");
     phone := lit "4125551234";
     submission_id := [] |}.

Definition world_of (e : Env) (records : list Submission)
  (pages : nat -> Page) : World :=
  {| env := e;
     get_pending_airport_applications := Ret records;
     get_application_by_id := fun i =>
       Ret (find (fun r => starts_with i (id r) && starts_with (id r) i)
                 records);
     mark_result := fun _ => Ret true;
     page := pages |}.

(** Three pending hires; the second one's session never finds the
    Application Management tile. *)
Definition batch_of_three : World :=
  world_of good_env [hire_a; hire_b; hire_c]
    (fun k => match k with 1%nat => no_tile_page | _ => calm_page end).

(** Two pending hires, the portal password is not configured. *)
Definition batch_without_password : World :=
  world_of no_password_env [hire_a; hire_b] (fun _ => calm_page).

(** One pending hire; the login form never appears. *)
Definition batch_no_login_form : World :=
  world_of good_env [hire_a] (fun _ => no_login_form_page).

(** Three pending hires; the second one's date of birth has no day. *)
Definition batch_short_dob : World :=
  world_of good_env [hire_a; hire_short_dob; hire_c] (fun _ => calm_page).

(** One pending hire whose submission the portal rejects. *)
Definition batch_rejected : World :=
  world_of good_env [hire_a] (fun _ => rejected_page_no_screenshot).

(** ** Vocabulary of the statements *)

(** The computation returns a value: no exception leaves it. *)
Definition returns {E A : Type} (m : Eff E A) : Prop :=
  exists a, run_result m = Ret a.

(** Every event of the trace satisfies [P]. *)
Definition emits {E A : Type} (P : E -> bool) (m : Eff E A) : Prop :=
  forallb P (trace m) = true.

(** Every page call of the trace is at an allowed site. *)
Definition calls_in (allowed : site -> bool) (e : event) : bool :=
  match e with
  | Call s => allowed s
  | _ => true
  end.

Definition login_site_only (s : site) : bool :=
  match s with
  | InLogin _ => true
  | _ => false
  end.

Definition not_submit_click (s : site) : bool :=
  match s with
  | InForm FSubmit => false
  | _ => true
  end.

Definition not_uncertain_shot (s : site) : bool :=
  match s with
  | InForm FShotUncertain => false
  | _ => true
  end.

(** The explicit-error pattern matches and its screenshot is taken. *)
Definition error_flagged (pg : Page) (err_sel : string) : bool :=
  error_signal pg err_sel &&
  match act pg (InForm (ErrShot err_sel)) with
  | Ret _ => true
  | Raise _ => false
  end.

(** The loop body left the loop. *)
Definition returned_true (r : result bool) : bool :=
  match r with
  | Ret true => true
  | _ => false
  end.

(** The pipeline of the record at position [k] returns [True]. *)
Definition succeeded_at (w : World) (headless submit : bool) (k : nat)
  (record : Submission) : bool :=
  match format_applicant_for_bot record with
  | Ret applicant =>
      returned_true
        (run_result (run_application (page w k) (env w) applicant
                       headless submit))
  | Raise _ => false
  end.

(** How many of the records from position [k] on succeed. *)
Fixpoint successes (w : World) (headless submit : bool) (k : nat)
  (records : list Submission) : nat :=
  match records with
  | [] => 0
  | record :: rest =>
      (if succeeded_at w headless submit k record then 1 else 0)
      + successes w headless submit (S k) rest
  end.

(** Events of sessions before the [n]-th only, and no summary. *)
Definition before_session (n : nat) (e : run_event) : bool :=
  match e with
  | At k _ | MarkSent k _ => Nat.ltb k n
  | Summary _ _ => false
  | _ => true
  end.

(** The [k]-th applicant a run works on, with the identifier the run
    would pass to [mark_badge_request_sent]. *)
Definition applicant_of_run (w : World) (application_id : option pystr)
  (all_pending : bool) (k : nat) : option (pystr * Submission) :=
  if truthy application_id then
    match k, get_application_by_id w (or_empty application_id) with
    | O, Ret (Some record) => Some (or_empty application_id, record)
    | _, _ => None
    end
  else if all_pending then
    match get_pending_airport_applications w with
    | Ret records =>
        match nth_error records k with
        | Some record => Some (id record, record)
        | None => None
        end
    | Raise _ => None
    end
  else None.

(** The [k]-th applicant's pipeline ran in this run and succeeded. *)
Definition pipeline_succeeded (w : World) (headless submit : bool)
  (k : nat) (record : Submission) (run_trace : list run_event) : Prop :=
  exists applicant,
    format_applicant_for_bot record = Ret applicant
    /\ In (At k (Launch headless)) run_trace
    /\ run_result (run_application (page w k) (env w) applicant
                     headless submit) = Ret true.

(** ** More vocabulary: the stages outside the claims *)

(** A call returned. *)
Definition returned {A : Type} (r : result A) : bool :=
  match r with
  | Ret _ => true
  | Raise _ => false
  end.

(** How often a character occurs in a string. *)
Definition count_char (c : N) (s : pystr) : nat :=
  List.length (filter (N.eqb c) s).

(** Lines 263-264 of [fill_duplicate_check]: the date the stage parses,
    as month, day and year. *)
Definition parse_dob (dob : pystr) : result (Z * Z * Z) :=
  let parts := split slash dob in
  match index parts 0 with
  | Raise e => Raise e
  | Ret p0 =>
  match Py.int p0 with
  | Raise e => Raise e
  | Ret month =>
  match index parts 1 with
  | Raise e => Raise e
  | Ret p1 =>
  match Py.int p1 with
  | Raise e => Raise e
  | Ret day =>
  match index parts 2 with
  | Raise e => Raise e
  | Ret p2 =>
  match Py.int p2 with
  | Raise e => Raise e
  | Ret year => Ret (month, day, year)
  end end end end end end.

(** Both portal credentials are set and not empty (line 139). *)
Definition credentials_present (e : Env) : bool :=
  truthy (PITID_USERNAME e) && truthy (PITID_PASSWORD e).

(** The three calls of the password step of [login] returned (lines
    165-171). *)
Definition password_entered (pg : Page) : bool :=
  returned (act pg (InLogin LPassWait))
  && returned (act pg (InLogin LPassFill))
  && returned (act pg (InLogin LSubmitClick)).

(** The dashboard counts as reached (lines 177-185): the wait for its URL
    returned, or it did not and the page's URL carries the marker. *)
Definition dashboard_reached (pg : Page) : bool :=
  returned (act pg (InLogin LWaitUrl))
  || contains (lit "AlertSelfService") (url pg).

(** The three calls of [navigate_to_application_management] returned. *)
Definition tile_opened (pg : Page) : bool :=
  returned (act pg (InNav NWait))
  && returned (act pg (InNav NClick))
  && returned (act pg (InNav NLoad)).

(** One candidate of [btn_selectors] is visible, its click returned and so
    did the wait after it. *)
Definition button_opens (pg : Page) (selector : string) : bool :=
  returned_true (ask pg (InNav (IVisible selector)))
  && returned (act pg (InNav (IClick selector)))
  && returned (act pg (InNav (ILoad selector))).

(** One of the markers of the duplicate-check modal showed up. *)
Definition modal_appears (pg : Page) : bool :=
  existsb (fun selector => returned (act pg (InDup (DModal selector))))
          modal_selectors.

(** The calls of lines 412-528 that are not wrapped in a [try] of their
    own: the wait for the form's heading, the three scroll scripts and the
    screenshot before the checkbox. *)
Definition form_scaffold_returned (pg : Page) : bool :=
  returned (act pg (InForm FHeading))
  && returned (act pg (InForm (FScroll 1)))
  && returned (act pg (InForm (FScroll 2)))
  && returned (act pg (InForm (FScroll 3)))
  && returned (act pg (InForm FShotBefore)).

(** Progress lines and page calls at allowed sites, and nothing else: no
    browser is launched or closed. *)
Definition only_calls (allowed : site -> bool) (e : event) : bool :=
  match e with
  | Call s => allowed s
  | Log _ => true
  | Launch _ | Close => false
  end.

Definition tile_site_only (s : site) : bool :=
  match s with
  | InNav NWait | InNav NClick | InNav NLoad => true
  | _ => false
  end.

Definition button_site_only (s : site) : bool :=
  match s with
  | InNav (IVisible _) | InNav (IClick _) | InNav (ILoad _) => true
  | _ => false
  end.

Definition dup_site_only (s : site) : bool :=
  match s with
  | InDup _ => true
  | _ => false
  end.

Definition form_site_only (s : site) : bool :=
  match s with
  | InForm _ => true
  | _ => false
  end.

Definition any_site (s : site) : bool := true.

(** A browser session is opened, or closed, in a run. *)
Definition is_launch (e : run_event) : bool :=
  match e with
  | At _ (Launch _) => true
  | _ => false
  end.

Definition is_close (e : run_event) : bool :=
  match e with
  | At _ Close => true
  | _ => false
  end.

(** A pending hire whose date of birth is null in the repository. *)
Definition hire_without_dob : Submission :=
  {| id := lit "n";
     first_name := Some (lit "Test");
     last_name := Some (lit "User");
     middle_name := None;
     date_of_birth := None;
     ssn_last_4 := Some (lit "1234");
     applicant_email := Some (lit "test@example.com");
     applicant_phone := None |}.

Definition batch_without_dob : World :=
  world_of good_env [hire_without_dob] (fun _ => calm_page).

Definition is_session_event (e : run_event) : bool :=
  is_launch e || is_close e.

(** [n] browser sessions, numbered from [k], each opened and then closed
    before the next one is opened. *)
Definition sessions_in_turn (headless : bool) (k n : nat) : list run_event :=
  flat_map (fun j => [At j (Launch headless); At j Close]) (seq k n).

(** Not a call on the candidate button [selector]. *)
Definition not_on_button (selector : string) (e : event) : bool :=
  match e with
  | Call (InNav (IVisible s)) | Call (InNav (IClick s))
  | Call (InNav (ILoad s)) => negb (String.eqb s selector)
  | _ => true
  end.

(** *** The five methods of [click_checkbox], one by one *)

Section CheckboxMethods.

Variable pg : Page.

(** Lines 533-545. *)
Definition checkbox_method_1 : M bool :=
  try_ (visible <- do_ask pg (InForm Cb1Visible) ;;
        if (visible : bool) then
          log "[FORM] Found checkbox with 'certify' text" ;;
          do_act pg (InForm Cb1Scroll) ;;
          do_act pg (InForm Cb1Click) ;;
          log "[FORM] Clicked certification checkbox" ;;
          ret true
        else ret false)
       (fun _ => log "[FORM] Certify checkbox method failed" ;; ret false).

(** Lines 549-567. *)
Definition checkbox_method_2 : M bool :=
  try_ (visible <- do_ask pg (InForm Cb2Visible) ;;
        if (visible : bool) then
          log "[FORM] Found mat-checkbox" ;;
          do_act pg (InForm Cb2Scroll) ;;
          class_attr <- do_attr pg (InForm Cb2Class) ;;
          if negb (contains checked_marker (or_empty class_attr)) then
            do_act pg (InForm Cb2Click) ;;
            log "[FORM] Clicked mat-checkbox" ;;
            ret true
          else
            log "[FORM] Checkbox already checked" ;;
            ret true
        else ret false)
       (fun _ => log "[FORM] mat-checkbox click failed" ;; ret false).

(** Lines 571-582. *)
Definition checkbox_method_3 : M bool :=
  try_ (visible <- do_ask pg (InForm Cb3Visible) ;;
        if (visible : bool) then
          log "[FORM] Found checkbox label" ;;
          do_act pg (InForm Cb3Scroll) ;;
          do_act pg (InForm Cb3Click) ;;
          log "[FORM] Clicked checkbox label" ;;
          ret true
        else ret false)
       (fun _ => log "[FORM] Label click failed" ;; ret false).

(** Lines 586-604. *)
Definition checkbox_method_4 : M bool :=
  try_ (log "[FORM] Trying JavaScript method..." ;;
        do_act pg (InForm Cb4Script) ;;
        log "[FORM] Used JavaScript to check checkbox" ;;
        ret true)
       (fun _ => log "[FORM] JavaScript checkbox failed" ;; ret false).

(** Lines 608-619. *)
Definition checkbox_method_5 : M bool :=
  try_ (log "[FORM] Trying coordinate click..." ;;
        box <- do_ask pg (InForm Cb5Box) ;;
        if (box : bool) then
          do_act pg (InForm Cb5Mouse) ;;
          log "[FORM] Clicked checkbox by coordinates" ;;
          ret true
        else ret false)
       (fun _ => log "[FORM] Coordinate click failed" ;; ret false).

Definition checkbox_method (k : nat) : M bool :=
  match k with
  | 1 => checkbox_method_1
  | 2 => checkbox_method_2
  | 3 => checkbox_method_3
  | 4 => checkbox_method_4
  | 5 => checkbox_method_5
  | _ => ret false
  end%nat.

(** The [k]-th method sets [checkbox_clicked]. *)
Definition method_succeeded (k : nat) : bool :=
  match k with
  | 1 => returned_true (ask pg (InForm Cb1Visible))
         && returned (act pg (InForm Cb1Scroll))
         && returned (act pg (InForm Cb1Click))
  | 2 => returned_true (ask pg (InForm Cb2Visible))
         && returned (act pg (InForm Cb2Scroll))
         && match attr pg (InForm Cb2Class) with
            | Ret class_attr =>
                contains checked_marker (or_empty class_attr)
                || returned (act pg (InForm Cb2Click))
            | Raise _ => false
            end
  | 3 => returned_true (ask pg (InForm Cb3Visible))
         && returned (act pg (InForm Cb3Scroll))
         && returned (act pg (InForm Cb3Click))
  | 4 => returned (act pg (InForm Cb4Script))
  | 5 => returned_true (ask pg (InForm Cb5Box))
         && returned (act pg (InForm Cb5Mouse))
  | _ => false
  end%nat.

End CheckboxMethods.

(** The method a call site of the checkbox code belongs to (0 for every
    other site). *)
Definition checkbox_method_of (s : site) : nat :=
  match s with
  | InForm Cb1Visible | InForm Cb1Scroll | InForm Cb1Click => 1
  | InForm Cb2Visible | InForm Cb2Scroll | InForm Cb2Class
  | InForm Cb2Click => 2
  | InForm Cb3Visible | InForm Cb3Scroll | InForm Cb3Click => 3
  | InForm Cb4Script => 4
  | InForm Cb5Box | InForm Cb5Mouse => 5
  | _ => 0
  end%nat.

Definition in_method (k : nat) (e : event) : bool :=
  match e with
  | Call s => Nat.eqb (checkbox_method_of s) k
  | _ => true
  end.

(** *** The probes of [classify_outcome], in the order of the code *)

(** The probe a call site of the classifier belongs to: 1 the error
    patterns, 2 the success patterns, 3 the page content, 4 the submit
    button, 5 the screenshot of the unconfirmed case (0 for every other
    site). *)
Definition outcome_probe_of (s : site) : nat :=
  match s with
  | InForm (ErrVisible _) | InForm (ErrText _) | InForm (ErrShot _) => 1
  | InForm (SucVisible _) | InForm (SucText _) => 2
  | InForm FContent => 3
  | InForm FSubmitVisible => 4
  | InForm FShotUncertain => 5
  | _ => 0
  end%nat.

(** Probe [k] decided the outcome. *)
Definition probe_decided (pg : Page) (k : nat) : bool :=
  match k with
  | 1 => existsb (error_flagged pg) error_selectors
  | 2 => existsb (success_text_signal pg) success_selectors
  | 3 => landing_marker pg
  | 4 => submit_control_gone pg
  | _ => false
  end%nat.

Definition in_probe (k : nat) (e : event) : bool :=
  match e with
  | Call s => Nat.eqb (outcome_probe_of s) k
  | _ => true
  end.

(** *** The parts of [fill_autocomplete_field] *)

Section AutocompleteParts.

Variable pg : Page.
Variable field_name : string.

(** Lines 315-366: the search for the input of the field. *)
Definition locate_input : M bool :=
  if field_name =? "sponsor" then
    for_try ["input[placeholder*='list down all relevant Sponsors']";
             "input[placeholder*='Sponsor']"]
            (fun sel => do_ask pg (auto field_name (AVisible sel)))
  else if field_name =? "access" then
    locate_labelled pg field_name
      "mat-form-field:has-text('Access') input" [lit "Access"]
  else if field_name =? "employer" then
    locate_labelled pg field_name
      "mat-form-field:has-text('Employer') input"
      [lit "Employer"; lit "Agency"]
  else ret false.

(** Lines 382-400: the option loop, then the keyboard. *)
Definition choose_option : M bool :=
  selected <- for_try option_selectors (fun opt_sel =>
    n <- do_count pg (auto field_name (AOptions opt_sel)) ;;
    click_first_visible pg field_name opt_sel n 0) ;;
  if (selected : bool) then ret true
  else
    do_act pg (auto field_name AArrowDown) ;;
    do_act pg (auto field_name AEnter) ;;
    ret true.

End AutocompleteParts.

(** Events of the field [field_name] itself. *)
Definition own_field (field_name : string) (e : event) : bool :=
  match e with
  | Call (InForm (FAuto g _)) => String.eqb g field_name
  | Call _ => false
  | _ => true
  end.

(** Events before the choice of an option: neither a click on an option
    nor the first key of the fallback. *)
Definition before_choice (e : event) : bool :=
  match e with
  | Call (InForm (FAuto _ (AOptClick _ _)))
  | Call (InForm (FAuto _ AArrowDown)) => false
  | _ => true
  end.

Definition not_arrow_down (e : event) : bool :=
  match e with
  | Call (InForm (FAuto _ AArrowDown)) => false
  | _ => true
  end.

(** ** The commands (lines 832-875) *)

(** [run_test] runs the pipeline on [test_applicant], the dictionary of
    lines 834-842. *)
Definition run_test (w : World) (headless : bool) : R unit :=
  info "[TEST] Running with test data (submit disabled)" ;;
  within 0 (run_application (page w 0) (env w) test_applicant headless
              false) ;;
  ret tt.

(** What [parser.parse_args()] returns: the sub-command with its
    options. *)
Inductive Args : Type :=
| ApplyArgs (id : option pystr) (all submit visible : bool)
| TestArgs (visible : bool)
| NoCommand.

Definition main (w : World) (args : Args) : R unit :=
  match args with
  | ApplyArgs id all submit visible =>
      run_apply w (negb visible) submit id all
  | TestArgs visible => run_test w (negb visible)
  | NoCommand => info "usage"
  end.

Definition visible_of (args : Args) : bool :=
  match args with
  | ApplyArgs _ _ _ visible | TestArgs visible => visible
  | NoCommand => false
  end.


(** ** The applicant repository (lines 43-127)

    The Supabase service is outside the program: every [execute()] is
    answered by the backend, and may raise.  The functions are modelled
    with the queries they send. *)

Module Repo.

Inductive query : Type :=
| SelectAirport                      (* line 56-58 *)
| SelectById (submission_id : pystr) (* line 77-79 *)
| SelectTaskIds (new_hire_id : pystr) (* line 111-113 *)
| UpdateTask (setup_task_id : pystr). (* line 121-125 *)

Inductive repo_event : Type :=
| Execute (q : query)
| Warn.

(** A row of [new_hire_setup_tasks]; the flag may be [null]. *)
Record Task : Type := mkTask {
  task_id : pystr;
  airport_badge_request_sent : option bool
}.

(** The value of [record.get("new_hire_setup_tasks")]: [None], a list
    or a non-empty dictionary. *)
Inductive SetupTasks : Type :=
| NoTasks
| TaskList (tasks : list Task)
| TaskDict (task : Task).

Record Row : Type := mkRow {
  submission : Submission;
  new_hire_setup_tasks : SetupTasks
}.

Record Backend : Type := mkBackend {
  SUPABASE_URL : option pystr;
  SUPABASE_KEY : option pystr;
  create_client : result unit;
  select_airport : result (list Row);
  select_by_id : pystr -> result (option Row);
  select_task_ids : pystr -> result (list pystr);
  update_task : pystr -> result nat   (* len(update_response.data) *)
}.

Definition Q : Type -> Type := Eff repo_event.

Definition execute {A : Type} (r : result A) (q : query) : Q A :=
  (r, [Execute q]).

(** [not task.get("airport_badge_request_sent")] is false. *)
Definition sent (t : Task) : bool :=
  match airport_badge_request_sent t with
  | Some true => true
  | _ => false
  end.

Section Functions.

Variable b : Backend.

(** Lines 43-49. *)
Definition get_supabase_client : Q unit :=
  if negb (truthy (SUPABASE_URL b)) || negb (truthy (SUPABASE_KEY b)) then
    raise ValueError
  else lift (create_client b).

(** Lines 60-70: one turn of the loop over [response.data]. *)
Definition keep_pending (pending : list Row) (record : Row) : list Row :=
  match new_hire_setup_tasks record with
  | NoTasks | TaskList [] => (pending ++ [record])%list
  | TaskList (first :: _) =>
      if negb (sent first) then (pending ++ [record])%list else pending
  | TaskDict setup_tasks =>
      if negb (sent setup_tasks) then (pending ++ [record])%list
      else pending
  end.

(** Lines 52-71. *)
Definition get_pending_airport_applications : Q (list Row) :=
  get_supabase_client ;;
  data <- execute (select_airport b) SelectAirport ;;
  ret (fold_left keep_pending data []).

(** Lines 74-80. *)
Definition get_application_by_id (submission_id : pystr) : Q (option Row) :=
  get_supabase_client ;;
  execute (select_by_id b submission_id) (SelectById submission_id).

(** Lines 107-127. *)
Definition mark_badge_request_sent (submission_id : pystr) : Q bool :=
  get_supabase_client ;;
  data <- execute (select_task_ids b submission_id)
            (SelectTaskIds submission_id) ;;
  match data with
  | [] => emit Warn ;; ret false
  | setup_task_id :: _ =>
      n <- execute (update_task b setup_task_id)
             (UpdateTask setup_task_id) ;;
      ret (Nat.ltb 0 n)
  end.

End Functions.

(** The record is pending: it has no setup task, or the first one (the
    only one, for a dictionary) does not carry the flag. *)
Definition is_pending (record : Row) : bool :=
  match new_hire_setup_tasks record with
  | NoTasks => true
  | TaskList tasks =>
      match hd_error tasks with
      | None => true
      | Some first => negb (sent first)
      end
  | TaskDict task => negb (sent task)
  end.

Definition credentials (b : Backend) : bool :=
  truthy (SUPABASE_URL b) && truthy (SUPABASE_KEY b).

Definition is_update (e : repo_event) : bool :=
  match e with
  | Execute (UpdateTask _) => true
  | _ => false
  end.

End Repo.

Definition result_map {A B : Type} (f : A -> B) (r : result A) : result B :=
  match r with
  | Ret a => Ret (f a)
  | Raise e => Raise e
  end.

(** The world of a run whose repository is the backend [b]; [ids k] is
    the identifier [mark_badge_request_sent] is called with at position
    [k]. *)
Definition world_over (b : Repo.Backend) (e : Env) (pages : nat -> Page)
  (ids : nat -> pystr) : World :=
  {| env := e;
     get_pending_airport_applications :=
       result_map (List.map Repo.submission)
         (run_result (Repo.get_pending_airport_applications b));
     get_application_by_id := fun i =>
       result_map (option_map Repo.submission)
         (run_result (Repo.get_application_by_id b i));
     mark_result := fun k =>
       run_result (Repo.mark_badge_request_sent b (ids k));
     page := pages |}.

(** A backend without the service key, and one that answers. *)
Definition backend_without_key : Repo.Backend :=
  {| Repo.SUPABASE_URL := Some (lit "https://example.supabase.co");
     Repo.SUPABASE_KEY := None;
     Repo.create_client := Ret tt;
     Repo.select_airport := Ret [];
     Repo.select_by_id := fun _ => Ret None;
     Repo.select_task_ids := fun _ => Ret [];
     Repo.update_task := fun _ => Ret O |}.

Definition flagged_task : Repo.Task :=
  {| Repo.task_id := lit "t1"; Repo.airport_badge_request_sent := Some true |}.

Definition open_task : Repo.Task :=
  {| Repo.task_id := lit "t2"; Repo.airport_badge_request_sent := None |}.

Definition airport_rows : list Repo.Row :=
  [ {| Repo.submission := hire_a;
       Repo.new_hire_setup_tasks := Repo.TaskList [flagged_task; open_task] |};
    {| Repo.submission := hire_b;
       Repo.new_hire_setup_tasks := Repo.TaskList [] |};
    {| Repo.submission := hire_c;
       Repo.new_hire_setup_tasks := Repo.TaskDict open_task |} ].

Definition answering_backend : Repo.Backend :=
  {| Repo.SUPABASE_URL := Some (lit "https://example.supabase.co");
     Repo.SUPABASE_KEY := Some (lit "key");
     Repo.create_client := Ret tt;
     Repo.select_airport := Ret airport_rows;
     Repo.select_by_id := fun _ => Ret None;
     Repo.select_task_ids := fun _ => Ret [lit "t1"; lit "t2"];
     Repo.update_task := fun _ => Ret 1%nat |}.

(** * Properties *)

Local Open Scope N_scope.
Local Open Scope list_scope.

(** ** Strings *)

(** Sanity checks of the string builtins on small inputs. *)
Example int_examples :
  Py.int (lit " 01 ") = Ret 1%Z /\ Py.int (lit "1_0") = Ret 10%Z /\
  Py.int (lit "1__0") = Raise ValueError /\ Py.int (lit "-7") = Ret (-7)%Z /\
  Py.int (lit "") = Raise ValueError /\ Py.int [28; 49] = Raise ValueError /\
  Py.int [1635] = Ret 3%Z /\ Py.int [178] = Raise ValueError.
Proof. repeat split; reflexivity. Qed.

Example strip_split_examples :
  strip (lit "  error  ") = lit "error" /\
  strip [160; 101; 8195] = [101] /\
  split dash (lit "a--b") = [lit "a"; []; lit "b"] /\
  split dash [] = [[]] /\
  contains (lit "AlertSelfService") (lit "https://x/AlertSelfService/home")
  = true.
Proof. repeat split; reflexivity. Qed.

Example format_dob_examples :
  format_dob (Some (lit "1990-01-15")) = Ret (lit "01/15/1990") /\
  format_dob (Some (lit "1990-1-5")) = Ret (lit "1/5/1990") /\
  format_dob (Some (lit "01/15/1990")) = Ret (lit "01/15/1990") /\
  format_dob (Some (lit "1990-01")) = Raise IndexError /\
  format_dob None = Ret [] /\
  phone_clean (Some (lit "(412) 555-1234")) = lit "4125551234".
Proof. repeat split; reflexivity. Qed.

Section StringFacts.

Lemma contains_char (c : N) (s : pystr) :
  contains [c] s = true <-> In c s.
Proof.
  induction s as [|b s IH]; simpl.
  - split; [discriminate | contradiction].
  - rewrite orb_true_iff, andb_true_r, N.eqb_eq, IH. split.
    + intros [H | H]; [left; now symmetry | now right].
    + intros [H | H]; [left; now symmetry | now right].
Qed.

Lemma split_nonempty (sep : N) (s : pystr) : split sep s <> [].
Proof.
  induction s as [|c s IH]; simpl; [discriminate|].
  destruct (c =? sep); [discriminate|].
  destruct (split sep s); discriminate.
Qed.

Lemma split_without_separator (sep : N) (s : pystr) :
  ~ In sep s -> split sep s = [s].
Proof.
  induction s as [|c s IH]; simpl; intros H; [reflexivity|].
  destruct (N.eqb_spec c sep) as [E | E].
  - exfalso. apply H. now left.
  - rewrite IH by (intros F; apply H; now right). reflexivity.
Qed.

Lemma split_at_first_separator (sep : N) (a b : pystr) :
  ~ In sep a -> split sep (a ++ sep :: b) = a :: split sep b.
Proof.
  induction a as [|c a IH]; simpl; intros H.
  - now rewrite N.eqb_refl.
  - destruct (N.eqb_spec c sep) as [E | E].
    + exfalso. apply H. now left.
    + rewrite IH by (intros F; apply H; now right). reflexivity.
Qed.

Lemma split_with_separator_length (sep : N) (s : pystr) :
  In sep s -> (2 <= List.length (split sep s))%nat.
Proof.
  induction s as [|c s IH]; simpl; intros H; [contradiction|].
  destruct (N.eqb_spec c sep) as [E | E].
  - simpl. pose proof (split_nonempty sep s).
    destruct (split sep s); [congruence | simpl; lia].
  - destruct H as [H | H]; [congruence|].
    specialize (IH H).
    destruct (split sep s) as [|p ps]; simpl in *; lia.
Qed.

Lemma join_digits_filter (s : pystr) : join_digits s = filter isdigit s.
Proof.
  induction s as [|c s IH]; simpl; [reflexivity|].
  now rewrite IH.
Qed.

Lemma filter_idempotent {A : Type} (f : A -> bool) (l : list A) :
  filter f (filter f l) = filter f l.
Proof.
  induction l as [|a l IH]; simpl; [reflexivity|].
  destruct (f a) eqn:E; simpl; [rewrite E|]; now rewrite ?IH.
Qed.

Lemma absent_char (c : N) (s : pystr) :
  existsb (N.eqb c) s = false -> ~ In c s.
Proof.
  intros H F. apply Bool.not_true_iff_false in H. apply H.
  apply existsb_exists. exists c. split; [assumption | apply N.eqb_refl].
Qed.

Lemma existsb_pointwise {A : Type} (f g : A -> bool) (l : list A) :
  (forall x, f x = g x) -> existsb f l = existsb g l.
Proof.
  intros H. induction l as [|a l IH]; simpl; [reflexivity|].
  now rewrite H, IH.
Qed.

End StringFacts.

(** C6, as the code has it.  For every string [x], phone normalization
    returns exactly the characters of [x], in order, for which Python's
    [str.isdigit] holds (the decimal digits, and also the superscript and
    other characters of Numeric_Type Digit); every non-digit character is
    stripped, and normalizing again changes nothing. *)
Theorem phone_clean_keeps_isdigit_and_is_idempotent (x : pystr) :
  phone_clean (Some x) = filter isdigit x
  /\ Forall (fun c => isdigit c = true) (phone_clean (Some x))
  /\ (forall c, In c x -> isdigit c = true -> In c (phone_clean (Some x)))
  /\ phone_clean (Some (phone_clean (Some x))) = phone_clean (Some x).
Proof.
  unfold phone_clean; simpl. rewrite !join_digits_filter.
  repeat split.
  - apply Forall_forall. intros c H. now apply filter_In in H.
  - intros c Hin Hd. apply filter_In. now split.
  - apply filter_idempotent.
Qed.

(** C6, as claimed, fails: the phone value "5²" keeps the superscript two
    (U+00B2), which is a digit for [str.isdigit] but not a decimal digit. *)
Lemma phone_clean_keeps_superscript_two :
  phone_clean (Some [53; 178]) = [53; 178]
  /\ decimal_digits_of [53; 178] = [53]
  /\ ~ (forall x, phone_clean (Some x) = decimal_digits_of x).
Proof.
  repeat split; try reflexivity.
  intros H. specialize (H [53; 178]). discriminate H.
Qed.

(** C7.  A date of birth [Y-M-D] with three dash-separated groups is
    turned into [M/D/Y], the groups copied character for character; a
    string without a dash is passed through unchanged. *)
Theorem format_dob_reorders_groups_verbatim (record : Submission) :
  (forall y m d : pystr,
      ~ In dash y -> ~ In dash m -> ~ In dash d ->
      date_of_birth record = Some (y ++ [dash] ++ m ++ [dash] ++ d) ->
      exists a, format_applicant_for_bot record = Ret a
                /\ dob a = m ++ [slash] ++ d ++ [slash] ++ y)
  /\ (forall s : pystr,
      ~ In dash s ->
      date_of_birth record = Some s ->
      exists a, format_applicant_for_bot record = Ret a /\ dob a = s).
Proof.
  split.
  - intros y m d Hy Hm Hd E.
    unfold format_applicant_for_bot, format_dob. rewrite E.
    assert (Hc : contains [dash] (y ++ [dash] ++ m ++ [dash] ++ d) = true).
    { apply contains_char. apply in_or_app. right. now left. }
    assert (Ht : truthy (Some (y ++ [dash] ++ m ++ [dash] ++ d)) = true).
    { destruct y; reflexivity. }
    rewrite Ht, Hc. simpl andb. cbv iota.
    change (y ++ [dash] ++ m ++ [dash] ++ d)
      with (y ++ dash :: (m ++ dash :: d)).
    rewrite (split_at_first_separator dash y (m ++ dash :: d) Hy).
    rewrite (split_at_first_separator dash m d Hm).
    rewrite (split_without_separator dash d Hd).
    simpl. eexists. split; reflexivity.
  - intros s Hs E.
    unfold format_applicant_for_bot, format_dob. rewrite E.
    assert (Hc : contains [dash] s = false).
    { destruct (contains [dash] s) eqn:C; [|reflexivity].
      apply contains_char in C. contradiction. }
    rewrite Hc, andb_false_r. simpl. eexists. split; reflexivity.
Qed.

Lemma format_dob_reorders_groups_witness :
  (exists a, format_applicant_for_bot hire_b = Ret a
             /\ dob a = lit "7/4/1985")
  /\ (exists a, format_applicant_for_bot (hire "e" "01/15/1990") = Ret a
                /\ dob a = lit "01/15/1990").
Proof.
  split.
  - apply (proj1 (format_dob_reorders_groups_verbatim hire_b)
             (lit "1985") (lit "7") (lit "4")).
    + now apply absent_char.
    + now apply absent_char.
    + now apply absent_char.
    + reflexivity.
  - apply (proj2 (format_dob_reorders_groups_verbatim (hire "e" "01/15/1990"))
             (lit "01/15/1990")).
    + now apply absent_char.
    + reflexivity.
Defined.

(** ** The effect monad *)

Section EffFacts.

Context {E : Type}.

Lemma bind_result {A B : Type} (m : Eff E A) (k : A -> Eff E B) :
  run_result (bind m k) =
  match run_result m with
  | Ret a => run_result (k a)
  | Raise e => Raise e
  end.
Proof.
  destruct m as [[a | e] t]; simpl; [|reflexivity].
  now destruct (k a).
Qed.

Lemma bind_ret_l {A B : Type} (a : A) (k : A -> Eff E B) :
  bind (ret a) k = k a.
Proof. unfold bind, ret. now destruct (k a). Qed.

Lemma bind_returned {A B : Type} (a : A) (t : list E) (k : A -> Eff E B) :
  bind (Ret a, t) k = (run_result (k a), t ++ trace (k a)).
Proof. unfold bind. now destruct (k a). Qed.

Lemma bind_trace {A B : Type} (m : Eff E A) (k : A -> Eff E B) :
  trace (bind m k) =
  trace m ++ match run_result m with
             | Ret a => trace (k a)
             | Raise _ => []
             end.
Proof.
  destruct m as [[a | e] t]; simpl.
  - now destruct (k a).
  - now rewrite app_nil_r.
Qed.

Lemma try_result {A : Type} (m : Eff E A) (h : exn -> Eff E A) :
  run_result (try_ m h) =
  match run_result m with
  | Ret a => Ret a
  | Raise e => run_result (h e)
  end.
Proof.
  destruct m as [[a | e] t]; simpl; [reflexivity|].
  now destruct (h e).
Qed.

Lemma try_trace {A : Type} (m : Eff E A) (h : exn -> Eff E A) :
  trace (try_ m h) =
  trace m ++ match run_result m with
             | Ret _ => []
             | Raise e => trace (h e)
             end.
Proof.
  destruct m as [[a | e] t]; simpl.
  - now rewrite app_nil_r.
  - now destruct (h e).
Qed.

Lemma finally_trace {A : Type} (m : Eff E A) (f : Eff E unit) :
  trace (finally_ m f) = trace m ++ trace f.
Proof. destruct m as [r t], f as [[u | e] t']; reflexivity. Qed.

Lemma finally_result {A : Type} (m : Eff E A) (f : Eff E unit) :
  run_result (finally_ m f) =
  match run_result f with
  | Ret _ => run_result m
  | Raise e => Raise e
  end.
Proof. destruct m as [r t], f as [[u | e] t']; reflexivity. Qed.

Lemma in_bind {A B : Type} (m : Eff E A) (k : A -> Eff E B) (x : E) :
  In x (trace (bind m k)) <->
  In x (trace m) \/ exists a, run_result m = Ret a /\ In x (trace (k a)).
Proof.
  rewrite bind_trace, in_app_iff.
  destruct (run_result m) as [a | e]; split; intros [H | H]; auto.
  - right. now exists a.
  - destruct H as (a' & Ha & H). injection Ha as <-. now right.
  - contradiction.
  - destruct H as (a' & Ha & _). discriminate Ha.
Qed.

(** *** Computations that return *)

Lemma returns_ret {A : Type} (a : A) : returns (ret a : Eff E A).
Proof. now exists a. Qed.

Lemma returns_emit (x : E) : returns (emit x).
Proof. now exists tt. Qed.

Lemma returns_bind {A B : Type} (m : Eff E A) (k : A -> Eff E B) :
  returns m -> (forall a, returns (k a)) -> returns (bind m k).
Proof.
  intros [a Ha] Hk. unfold returns. rewrite bind_result, Ha. apply Hk.
Qed.

Lemma returns_try {A : Type} (m : Eff E A) (h : exn -> Eff E A) :
  (forall e, returns (h e)) -> returns (try_ m h).
Proof.
  intros Hh. unfold returns. rewrite try_result.
  destruct (run_result m) as [a | e]; [now exists a | apply Hh].
Qed.

Lemma returns_finally {A : Type} (m : Eff E A) (f : Eff E unit) :
  returns m -> returns f -> returns (finally_ m f).
Proof.
  intros [a Ha] [u Hu]. unfold returns.
  rewrite finally_result, Hu, Ha. now exists a.
Qed.

Lemma returns_for_try {X : Type} (xs : list X) (body : X -> Eff E bool) :
  returns (for_try xs body).
Proof.
  induction xs as [|x xs IH]; simpl; [apply returns_ret|].
  apply returns_bind.
  - apply returns_try. intros _. apply returns_ret.
  - intros [|]; [apply returns_ret | exact IH].
Qed.

(** *** Traces whose events all satisfy a predicate *)

Lemma emits_ret {A : Type} (P : E -> bool) (a : A) :
  emits P (ret a : Eff E A).
Proof. reflexivity. Qed.

Lemma emits_raise {A : Type} (P : E -> bool) (e : exn) :
  emits P (raise e : Eff E A).
Proof. reflexivity. Qed.

Lemma emits_lift {A : Type} (P : E -> bool) (r : result A) :
  emits P (lift r : Eff E A).
Proof. reflexivity. Qed.

Lemma emits_emit (P : E -> bool) (x : E) : P x = true -> emits P (emit x).
Proof. unfold emits; simpl. now intros ->. Qed.

Lemma emits_one {A : Type} (P : E -> bool) (r : result A) (x : E) :
  P x = true -> emits P ((r, [x]) : Eff E A).
Proof. unfold emits; simpl. now intros ->. Qed.

Lemma emits_bind {A B : Type} (P : E -> bool) (m : Eff E A)
  (k : A -> Eff E B) :
  emits P m -> (forall a, emits P (k a)) -> emits P (bind m k).
Proof.
  unfold emits. intros Hm Hk. rewrite bind_trace, forallb_app, Hm.
  destruct (run_result m); [apply Hk | reflexivity].
Qed.

Lemma emits_bind_result {A B : Type} (P : E -> bool) (m : Eff E A)
  (k : A -> Eff E B) :
  emits P m -> (forall a, run_result m = Ret a -> emits P (k a)) ->
  emits P (bind m k).
Proof.
  unfold emits. intros Hm Hk. rewrite bind_trace, forallb_app, Hm.
  destruct (run_result m); [now apply Hk | reflexivity].
Qed.

Lemma emits_try {A : Type} (P : E -> bool) (m : Eff E A)
  (h : exn -> Eff E A) :
  emits P m -> (forall e, emits P (h e)) -> emits P (try_ m h).
Proof.
  unfold emits. intros Hm Hh. rewrite try_trace, forallb_app, Hm.
  destruct (run_result m); [reflexivity | apply Hh].
Qed.

Lemma emits_finally {A : Type} (P : E -> bool) (m : Eff E A)
  (f : Eff E unit) :
  emits P m -> emits P f -> emits P (finally_ m f).
Proof.
  unfold emits. intros Hm Hf. now rewrite finally_trace, forallb_app, Hm, Hf.
Qed.

Lemma emits_for_try {X : Type} (P : E -> bool) (xs : list X)
  (body : X -> Eff E bool) :
  (forall x, emits P (body x)) -> emits P (for_try xs body).
Proof.
  intros Hb. induction xs as [|x xs IH]; simpl; [apply emits_ret|].
  apply emits_bind.
  - apply emits_try; [apply Hb | intros _; apply emits_ret].
  - intros [|]; [apply emits_ret | exact IH].
Qed.

Lemma emits_in {A : Type} (P : E -> bool) (m : Eff E A) (x : E) :
  emits P m -> In x (trace m) -> P x = true.
Proof. unfold emits. rewrite forallb_forall. auto. Qed.

End EffFacts.

(** Stepping through a computation, one construct at a time. *)
Ltac emits_step :=
  lazymatch goal with
  | |- emits _ (bind _ _) => apply emits_bind; [| intros ?]
  | |- emits _ (try_ _ _) => apply emits_try; [| intros ?]
  | |- emits _ (finally_ _ _) => apply emits_finally
  | |- emits _ (for_try _ _) => apply emits_for_try; intros ?
  | |- emits _ (ret _) => apply emits_ret
  | |- emits _ (raise _) => apply emits_raise
  | |- emits _ (lift _) => apply emits_lift
  | |- emits _ (log _) => apply emits_emit; reflexivity
  | |- emits _ (info _) => apply emits_emit; reflexivity
  | |- emits _ (emit _) => apply emits_emit; reflexivity
  | |- emits _ (do_act _ _) => apply emits_one; reflexivity
  | |- emits _ (do_ask _ _) => apply emits_one; reflexivity
  | |- emits _ (do_txt _ _) => apply emits_one; reflexivity
  | |- emits _ (do_attr _ _) => apply emits_one; reflexivity
  | |- emits _ (do_count _ _) => apply emits_one; reflexivity
  | |- emits _ (if ?b then _ else _) => destruct b
  | |- emits _ (match ?x with _ => _ end) => destruct x
  end.

Ltac returns_step :=
  lazymatch goal with
  | |- returns (bind _ _) => apply returns_bind; [| intros ?]
  | |- returns (try_ _ _) => apply returns_try; intros ?
  | |- returns (finally_ _ _) => apply returns_finally
  | |- returns (for_try _ _) => apply returns_for_try
  | |- returns (ret _) => apply returns_ret
  | |- returns (log _) => apply returns_emit
  | |- returns (emit _) => apply returns_emit
  | |- returns (if ?b then _ else _) => destruct b
  end.

Ltac emits_go := repeat (cbv zeta; emits_step).
Ltac returns_go := repeat (cbv zeta; returns_step).

(** ** The stages, one by one *)

Section StageFacts.

Variable pg : Page.

(** The login stage talks to the page at login sites only. *)
Lemma login_emits (e : Env) : emits (calls_in login_site_only) (login pg e).
Proof. unfold login. emits_go. Qed.

Lemma login_no_submit (e : Env) :
  emits (calls_in not_submit_click) (login pg e).
Proof. unfold login. emits_go. Qed.

Lemma navigate_no_submit :
  emits (calls_in not_submit_click) (navigate_to_application_management pg).
Proof. unfold navigate_to_application_management. emits_go. Qed.

Lemma initiate_no_submit :
  emits (calls_in not_submit_click) (initiate_new_application pg).
Proof. unfold initiate_new_application. emits_go. Qed.

Lemma duplicate_check_no_submit (d : pystr) (s : option pystr) :
  emits (calls_in not_submit_click) (fill_duplicate_check pg d s).
Proof. unfold fill_duplicate_check. emits_go. Qed.

Lemma scan_form_fields_no_submit (f : string) (labels : list pystr)
  (n i : nat) (inp : bool) :
  emits (calls_in not_submit_click) (scan_form_fields pg f labels n i inp).
Proof.
  revert i inp. induction n as [|n IH]; intros i inp;
    cbn [scan_form_fields].
  - apply emits_ret.
  - emits_go. apply IH.
Qed.

Lemma click_first_visible_no_submit (f opt_sel : string) (n i : nat) :
  emits (calls_in not_submit_click) (click_first_visible pg f opt_sel n i).
Proof.
  revert i. induction n as [|n IH]; intros i; cbn [click_first_visible].
  - apply emits_ret.
  - emits_go. apply IH.
Qed.

Lemma autocomplete_no_submit (f : string) (trigger : pystr) :
  emits (calls_in not_submit_click) (fill_autocomplete_field pg f trigger).
Proof.
  unfold fill_autocomplete_field, locate_labelled.
  emits_go;
    first [apply scan_form_fields_no_submit
          | apply click_first_visible_no_submit].
Qed.

Lemma autocomplete_returns (f : string) (trigger : pystr) :
  returns (fill_autocomplete_field pg f trigger).
Proof. unfold fill_autocomplete_field. returns_go. Qed.

Lemma form_fields_no_submit (a : Applicant) :
  emits (calls_in not_submit_click) (fill_form_fields pg a).
Proof.
  unfold fill_form_fields, fill_field.
  emits_go; apply autocomplete_no_submit.
Qed.

Lemma click_checkbox_no_submit :
  emits (calls_in not_submit_click) (click_checkbox pg).
Proof. unfold click_checkbox. emits_go. Qed.

Lemma verify_checkbox_no_submit :
  emits (calls_in not_submit_click) (verify_checkbox pg).
Proof. unfold verify_checkbox. emits_go. Qed.

(** The five methods never let an exception out. *)
Lemma click_checkbox_returns : returns (click_checkbox pg).
Proof. unfold click_checkbox. returns_go. Qed.

Lemma verify_checkbox_result : run_result (verify_checkbox pg) = Ret tt.
Proof.
  unfold verify_checkbox. rewrite try_result.
  destruct (run_result _) as [[] | e]; reflexivity.
Qed.

(** Without the submit flag the submit button is never clicked. *)
Lemma form_dry_run_no_submit (a : Applicant) :
  emits (calls_in not_submit_click) (fill_application_form pg a false).
Proof.
  unfold fill_application_form, submit_or_stop.
  emits_go;
    first [apply form_fields_no_submit | apply click_checkbox_no_submit
          | apply verify_checkbox_no_submit].
Qed.

Lemma fill_application_form_returns (a : Applicant) (submit : bool) :
  returns (fill_application_form pg a submit).
Proof. unfold fill_application_form. returns_go. Qed.

Lemma run_application_dry_run_no_submit (e : Env) (a : Applicant)
  (headless : bool) :
  emits (calls_in not_submit_click) (run_application pg e a headless false).
Proof.
  unfold run_application.
  emits_go;
    first [apply login_no_submit | apply navigate_no_submit
          | apply initiate_no_submit | apply duplicate_check_no_submit
          | apply form_dry_run_no_submit].
Qed.

(** [run_application] never raises: the catch-all handler of line 775
    turns every exception of a stage into [False]. *)
Lemma run_application_returns (e : Env) (a : Applicant)
  (headless submit : bool) :
  returns (run_application pg e a headless submit).
Proof. unfold run_application. returns_go. Qed.

(** Every session is opened, whatever happens next. *)
Lemma run_application_launches (e : Env) (a : Applicant)
  (headless submit : bool) :
  In (Launch headless) (trace (run_application pg e a headless submit)).
Proof.
  unfold run_application.
  apply in_bind. right. exists tt. split; [reflexivity|].
  apply in_bind. left. now left.
Qed.

End StageFacts.

(** ** The outcome classifier *)

Lemma for_try_result {E X : Type} (xs : list X) (body : X -> Eff E bool) :
  run_result (for_try xs body) =
  Ret (existsb (fun x => returned_true (run_result (body x))) xs).
Proof.
  induction xs as [|x xs IH]; [reflexivity|].
  cbn [for_try existsb]. rewrite bind_result, try_result.
  destruct (run_result (body x)) as [[|] | e]; simpl; auto.
Qed.

Section ClassifierFacts.

Variable pg : Page.

Lemma error_check_result (sel : string) :
  returned_true (run_result (error_check pg sel)) = error_flagged pg sel.
Proof.
  unfold error_check, error_flagged, error_signal, do_ask, do_txt, do_act.
  destruct (ask pg (InForm (ErrVisible sel))) as [[|] | e]; simpl;
    try reflexivity;
    destruct (txt pg (InForm (ErrText sel))) as [t | e']; simpl;
    try reflexivity.
  destruct (strip t) as [|c r]; simpl; [reflexivity|].
  destruct (Nat.ltb 5 (S (List.length r))); simpl; [|reflexivity].
  destruct (act pg (InForm (ErrShot sel))) as [[] | e]; reflexivity.
Qed.

Lemma success_check_result (sel : string) :
  returned_true (run_result (success_check pg sel))
  = success_text_signal pg sel.
Proof.
  unfold success_check, success_text_signal, do_ask, do_txt.
  destruct (ask pg (InForm (SucVisible sel))) as [[|] | e]; simpl;
    try reflexivity;
    destruct (txt pg (InForm (SucText sel))) as [t | e']; simpl;
    try reflexivity.
  destruct (strip t) as [|c r]; reflexivity.
Qed.

Lemma landing_check_result :
  run_result (landing_check pg) = Ret (landing_marker pg).
Proof.
  unfold landing_check, landing_marker, do_txt.
  destruct (txt pg (InForm FContent)) as [c | e]; simpl; [|reflexivity].
  destruct (_ || _); reflexivity.
Qed.

Lemma submit_gone_check_result :
  run_result (submit_gone_check pg) = Ret (submit_control_gone pg).
Proof.
  unfold submit_gone_check, submit_control_gone, do_ask.
  destruct (ask pg (InForm FSubmitVisible)) as [[|] | e]; reflexivity.
Qed.

Lemma report_outcome_result (b : bool) :
  run_result (report_outcome pg b) =
  if b then Ret true
  else match act pg (InForm FShotUncertain) with
       | Ret _ => Ret true
       | Raise e => Raise e
       end.
Proof.
  unfold report_outcome, do_act. destruct b; [reflexivity|].
  destruct (act pg (InForm FShotUncertain)) as [[] | e]; reflexivity.
Qed.

Lemma report_outcome_shot (b : bool) :
  In (Call (InForm FShotUncertain)) (trace (report_outcome pg b))
  <-> b = false.
Proof.
  unfold report_outcome, do_act. destruct b.
  - simpl. split; [intros [H | []]; discriminate H | discriminate].
  - split; [reflexivity | intros _].
    destruct (act pg (InForm FShotUncertain)) as [[] | e]; simpl; auto.
Qed.

(** What [classify_outcome] returns, in terms of the signals. *)
Lemma classify_outcome_result :
  run_result (classify_outcome pg) =
  if existsb (error_flagged pg) error_selectors then Ret false
  else if success_signal pg then Ret true
  else match act pg (InForm FShotUncertain) with
       | Ret _ => Ret true
       | Raise e => Raise e
       end.
Proof.
  unfold classify_outcome, success_signal.
  rewrite bind_result, for_try_result.
  rewrite (existsb_pointwise _ _ _ error_check_result).
  destruct (existsb (error_flagged pg) error_selectors); [reflexivity|].
  rewrite bind_result, for_try_result.
  rewrite (existsb_pointwise _ _ _ success_check_result).
  destruct (existsb (success_text_signal pg) success_selectors);
    cbn [negb orb].
  - rewrite !bind_ret_l. cbn [negb]. rewrite bind_ret_l.
    apply report_outcome_result.
  - rewrite bind_result, landing_check_result.
    destruct (landing_marker pg); cbn [negb orb].
    + rewrite bind_ret_l. apply report_outcome_result.
    + rewrite bind_result, submit_gone_check_result.
      apply report_outcome_result.
Qed.

Lemma error_loop_no_uncertain_shot :
  emits (calls_in not_uncertain_shot) (for_try error_selectors (error_check pg)).
Proof. unfold error_check. emits_go. Qed.

Lemma success_loop_no_uncertain_shot :
  emits (calls_in not_uncertain_shot)
        (for_try success_selectors (success_check pg)).
Proof. unfold success_check. emits_go. Qed.

Lemma landing_check_no_uncertain_shot :
  emits (calls_in not_uncertain_shot) (landing_check pg).
Proof. unfold landing_check. emits_go. Qed.

Lemma submit_gone_check_no_uncertain_shot :
  emits (calls_in not_uncertain_shot) (submit_gone_check pg).
Proof. unfold submit_gone_check. emits_go. Qed.

(** A step that does not take the screenshot itself passes the question
    on to what follows it. *)
Lemma uncertain_shot_after {A B : Type} (m : M A) (k : A -> M B) (v : A) :
  emits (calls_in not_uncertain_shot) m ->
  run_result m = Ret v ->
  In (Call (InForm FShotUncertain)) (trace (bind m k)) <->
  In (Call (InForm FShotUncertain)) (trace (k v)).
Proof.
  intros He Hv. rewrite in_bind. split.
  - intros [H | (a & Ha & H)].
    + apply (emits_in _ _ _ He) in H. discriminate H.
    + rewrite Hv in Ha. now injection Ha as <-.
  - intros H. right. now exists v.
Qed.

(** The uncertain-outcome screenshot is attempted exactly when neither an
    error was flagged nor a success signal seen. *)
Lemma classify_outcome_uncertain_shot :
  In (Call (InForm FShotUncertain)) (trace (classify_outcome pg)) <->
  existsb (error_flagged pg) error_selectors = false
  /\ success_signal pg = false.
Proof.
  unfold classify_outcome, success_signal.
  rewrite (uncertain_shot_after _ _
             (existsb (error_flagged pg) error_selectors)
             error_loop_no_uncertain_shot).
  2: { now rewrite for_try_result,
         (existsb_pointwise _ _ _ error_check_result). }
  destruct (existsb (error_flagged pg) error_selectors).
  { split; [intros [] | intros [H _]; discriminate H]. }
  rewrite (uncertain_shot_after _ _
             (existsb (success_text_signal pg) success_selectors)
             success_loop_no_uncertain_shot).
  2: { now rewrite for_try_result,
         (existsb_pointwise _ _ _ success_check_result). }
  set (st := existsb (success_text_signal pg) success_selectors).
  rewrite (uncertain_shot_after _ _ (st || landing_marker pg)).
  2: { destruct st; cbn [negb];
         [apply emits_ret | apply landing_check_no_uncertain_shot]. }
  2: { destruct st; cbn [negb orb];
         [reflexivity | apply landing_check_result]. }
  rewrite (uncertain_shot_after _ _
             (st || landing_marker pg || submit_control_gone pg)).
  2: { destruct (st || landing_marker pg); cbn [negb];
         [apply emits_ret | apply submit_gone_check_no_uncertain_shot]. }
  2: { destruct (st || landing_marker pg); cbn [negb orb];
         [reflexivity | apply submit_gone_check_result]. }
  rewrite report_outcome_shot. tauto.
Qed.

End ClassifierFacts.

(** ** The form as a whole *)

Section FormFacts.

Variable pg : Page.

(** What [fill_application_form] returns: the fields may fail it, the
    checkbox steps never do, and after them the submit step decides. *)
Lemma fill_application_form_result (a : Applicant) (submit : bool) :
  run_result (fill_application_form pg a submit) =
  match run_result (fill_form_fields pg a) with
  | Ret _ =>
      match run_result (submit_or_stop pg submit) with
      | Ret b => Ret b
      | Raise _ => Ret false
      end
  | Raise _ => Ret false
  end.
Proof.
  unfold fill_application_form.
  rewrite bind_result. cbn [run_result log emit fst].
  rewrite try_result, bind_result.
  destruct (run_result (fill_form_fields pg a)) as [[] | e]; [|reflexivity].
  rewrite bind_result.
  destruct (click_checkbox_returns pg) as [c ->].
  rewrite bind_result, verify_checkbox_result.
  destruct (run_result (submit_or_stop pg submit)); reflexivity.
Qed.

Lemma submit_or_stop_result_submit :
  run_result (submit_or_stop pg true) =
  match act pg (InForm FSubmit), act pg (InForm FSubmitLoad) with
  | Ret _, Ret _ => run_result (classify_outcome pg)
  | Ret _, Raise e => Raise e
  | Raise e, _ => Raise e
  end.
Proof.
  unfold submit_or_stop, do_act.
  rewrite bind_result. cbn [run_result log emit fst].
  rewrite bind_result. cbn [run_result fst].
  destruct (act pg (InForm FSubmit)) as [[] | e]; [|reflexivity].
  rewrite bind_result. cbn [run_result fst].
  destruct (act pg (InForm FSubmitLoad)) as [[] | e]; reflexivity.
Qed.

(** An error that is flagged wins over every success heuristic: whatever
    the success patterns, the page content and the submit button show,
    the classifier and the form report failure. *)
Lemma flagged_error_overrides_success :
  (exists sel, In sel error_selectors /\ error_flagged pg sel = true) ->
  run_result (classify_outcome pg) = Ret false
  /\ forall a, run_result (fill_application_form pg a true) = Ret false.
Proof.
  intros H.
  assert (C : run_result (classify_outcome pg) = Ret false).
  { rewrite classify_outcome_result.
    apply existsb_exists in H. now rewrite H. }
  split; [exact C|]. intros a.
  rewrite fill_application_form_result, submit_or_stop_result_submit, C.
  destruct (run_result (fill_form_fields pg a)); [|reflexivity].
  destruct (act pg (InForm FSubmit)); [|reflexivity].
  destruct (act pg (InForm FSubmitLoad)); reflexivity.
Qed.

End FormFacts.

(** C1, where the code departs from it.  The portal shows "Applicant
    already exists" (visible, 24 characters), so an explicit-error pattern
    matches; the screenshot of line 663 raises inside the loop's bare
    [except], the flag of line 664 is never set, and the vanished submit
    button then counts as success: the classifier logs the error and
    returns [True], the form stage reports success, and the repository is
    told the request was sent. *)
Theorem error_detected_yet_reported_submitted :
  error_signal rejected_page_no_screenshot "text=already exists" = true
  /\ In (Log "[FORM] ERROR DETECTED")
        (trace (classify_outcome rejected_page_no_screenshot))
  /\ run_result (classify_outcome rejected_page_no_screenshot) = Ret true
  /\ run_result (fill_application_form rejected_page_no_screenshot
                   test_applicant true) = Ret true
  /\ In (MarkSent 0 (lit "a"))
        (trace (run_apply batch_rejected true true None true))
  /\ run_result (classify_outcome rejected_page) = Ret false.
Proof.
  repeat split; try reflexivity;
    vm_compute; repeat first [left; reflexivity | right].
Qed.

Lemma no_signal_no_flag (pg : Page) :
  existsb (error_signal pg) error_selectors = false ->
  existsb (error_flagged pg) error_selectors = false.
Proof.
  intros H. apply Bool.not_true_iff_false. intros F.
  apply existsb_exists in F as (sel & Hin & F).
  apply Bool.not_true_iff_false in H. apply H.
  apply existsb_exists. exists sel. split; [assumption|].
  unfold error_flagged in F. now apply andb_true_iff in F.
Qed.

(** C5, as the code has it.  When no explicit error signal and no success
    signal is seen, the classifier attempts the screenshot
    [submit_uncertain.png] and, when that call returns, returns [True]
    (when the call raises, the handler of the form stage reports
    failure); when a success signal is seen it returns the same [True]
    and attempts no such screenshot.  The returned value is the same in
    both cases. *)
Theorem ambiguous_outcome_is_screenshot_and_plain_true (pg : Page) :
  existsb (error_signal pg) error_selectors = false ->
  success_signal pg = false ->
  In (Call (InForm FShotUncertain)) (trace (classify_outcome pg))
  /\ run_result (classify_outcome pg) =
     match act pg (InForm FShotUncertain) with
     | Ret _ => Ret true
     | Raise e => Raise e
     end
  /\ (forall a,
        returns (fill_form_fields pg a) ->
        returns (do_act pg (InForm FSubmit)) ->
        returns (do_act pg (InForm FSubmitLoad)) ->
        run_result (fill_application_form pg a true) =
        match act pg (InForm FShotUncertain) with
        | Ret _ => Ret true
        | Raise _ => Ret false
        end)
  /\ forall confirmed : Page,
       existsb (error_signal confirmed) error_selectors = false ->
       success_signal confirmed = true ->
       run_result (classify_outcome confirmed) = Ret true
       /\ ~ In (Call (InForm FShotUncertain))
              (trace (classify_outcome confirmed)).
Proof.
  intros He Hs. apply no_signal_no_flag in He.
  assert (C : run_result (classify_outcome pg) =
              match act pg (InForm FShotUncertain) with
              | Ret _ => Ret true
              | Raise e => Raise e
              end).
  { now rewrite classify_outcome_result, He, Hs. }
  split; [|split; [exact C | split]].
  - apply classify_outcome_uncertain_shot. now split.
  - intros a [[] Hf] [[] H1] [[] H2]. cbn in H1, H2.
    rewrite fill_application_form_result, Hf, submit_or_stop_result_submit.
    rewrite H1, H2, C.
    destruct (act pg (InForm FShotUncertain)); reflexivity.
  - intros confirmed Hce Hcs. apply no_signal_no_flag in Hce. split.
    + now rewrite classify_outcome_result, Hce, Hcs.
    + intros F. apply classify_outcome_uncertain_shot in F as [_ F].
      congruence.
Qed.

Lemma ambiguous_outcome_witness :
  In (Call (InForm FShotUncertain)) (trace (classify_outcome calm_page))
  /\ run_result (classify_outcome calm_page) = Ret true
  /\ run_result (fill_application_form calm_page test_applicant true)
     = Ret true
  /\ run_result (classify_outcome banner_page) = Ret true
  /\ ~ In (Call (InForm FShotUncertain))
         (trace (classify_outcome banner_page)).
Proof.
  destruct (ambiguous_outcome_is_screenshot_and_plain_true calm_page
              eq_refl eq_refl) as (H1 & H2 & H3 & H4).
  destruct (H4 banner_page eq_refl eq_refl) as (H5 & H6).
  split; [exact H1|]. split; [exact H2|]. split; [|split; assumption].
  apply (H3 test_applicant); exists tt; reflexivity.
Defined.

(** C5, as claimed, fails: an assumed success and a confirmed one are the
    same result, so no caller can tell them apart by it.  On the calm page
    nothing confirms the submission, on the banner page the success text
    does; the classifier, the form stage and the whole pipeline return the
    same value on both, and the repository is marked on both. *)
Lemma assumed_success_equals_confirmed_success :
  success_signal calm_page = false
  /\ success_signal banner_page = true
  /\ run_result (classify_outcome calm_page)
     = run_result (classify_outcome banner_page)
  /\ run_result (run_application calm_page good_env test_applicant true true)
     = run_result (run_application banner_page good_env test_applicant
                     true true)
  /\ ~ (forall assumed confirmed : Page,
           existsb (error_signal assumed) error_selectors = false ->
           existsb (error_signal confirmed) error_selectors = false ->
           success_signal assumed = false ->
           success_signal confirmed = true ->
           run_result (classify_outcome assumed)
           <> run_result (classify_outcome confirmed)).
Proof.
  repeat split; try reflexivity.
  intros H.
  apply (H calm_page banner_page); reflexivity.
Qed.

(** ** The certification checkbox *)

Section CheckboxFacts.

Variable pg : Page.

Lemma verify_checkbox_trace :
  trace (verify_checkbox pg) =
  Call (InForm CbVerifyClass) ::
  match attr pg (InForm CbVerifyClass) with
  | Ret c =>
      if contains checked_marker (or_empty c) then
        [Log msg_checkbox_verified]
      else
        [Log "[FORM] WARNING: Checkbox may not be checked!";
         Call (InForm CbShotNotChecked)]
  | Raise _ => []
  end.
Proof.
  unfold verify_checkbox, do_attr, do_act.
  destruct (attr pg (InForm CbVerifyClass)) as [c | e]; [|reflexivity].
  rewrite bind_returned.
  destruct (contains checked_marker (or_empty c)); [reflexivity|].
  destruct (act pg (InForm CbShotNotChecked)) as [[] | e]; reflexivity.
Qed.

Lemma verify_checkbox_verified_iff :
  In (Log msg_checkbox_verified) (trace (verify_checkbox pg)) <->
  exists c, attr pg (InForm CbVerifyClass) = Ret c
            /\ contains checked_marker (or_empty c) = true.
Proof.
  rewrite verify_checkbox_trace.
  destruct (attr pg (InForm CbVerifyClass)) as [c | e].
  - destruct (contains checked_marker (or_empty c)) eqn:C; split.
    + intros _. now exists c.
    + intros _. right. now left.
    + intros H.
      repeat (destruct H as [H | H]; [discriminate H|]). contradiction.
    + intros (c' & Hc' & Hm). injection Hc' as <-. congruence.
  - split.
    + intros [H | []]. discriminate H.
    + intros (c & Hc & _). discriminate Hc.
Qed.

Lemma checkbox_steps_leave_the_result (a : Applicant) (submit : bool) :
  returns (fill_form_fields pg a) ->
  run_result (fill_application_form pg a submit)
  = run_result (try_ (submit_or_stop pg submit) (fun _ => ret false)).
Proof.
  intros [[] Hf].
  rewrite fill_application_form_result, Hf, try_result.
  destruct (run_result (submit_or_stop pg submit)); reflexivity.
Qed.

End CheckboxFacts.

(** C8, as the code has it.  The five methods and the check after them
    never raise.  The check reports the checkbox as verified exactly when
    the class attribute was read and carries the checked marker; when the
    attribute was read and lacks the marker, a screenshot is attempted;
    when the attribute cannot be read, nothing is reported and nothing is
    captured.  In every case the form goes on, and what it returns is
    decided by the fields before and the submit step after. *)
Theorem checkbox_check_reports_and_never_fails (pg : Page) :
  returns (click_checkbox pg)
  /\ run_result (verify_checkbox pg) = Ret tt
  /\ (In (Log msg_checkbox_verified) (trace (verify_checkbox pg)) <->
      exists c, attr pg (InForm CbVerifyClass) = Ret c
                /\ contains checked_marker (or_empty c) = true)
  /\ (forall c, attr pg (InForm CbVerifyClass) = Ret c ->
                contains checked_marker (or_empty c) = false ->
                In (Call (InForm CbShotNotChecked))
                   (trace (verify_checkbox pg)))
  /\ (forall e, attr pg (InForm CbVerifyClass) = Raise e ->
                trace (verify_checkbox pg) = [Call (InForm CbVerifyClass)])
  /\ (forall a submit,
        returns (fill_form_fields pg a) ->
        run_result (fill_application_form pg a submit)
        = run_result (try_ (submit_or_stop pg submit)
                           (fun _ => ret false))).
Proof.
  split; [apply click_checkbox_returns|].
  split; [apply verify_checkbox_result|].
  split; [apply verify_checkbox_verified_iff|].
  split; [|split].
  - intros c Hc Hm. rewrite verify_checkbox_trace, Hc, Hm.
    right. right. now left.
  - intros e He. now rewrite verify_checkbox_trace, He.
  - apply checkbox_steps_leave_the_result.
Qed.

Lemma checkbox_check_witness :
  In (Call (InForm CbShotNotChecked)) (trace (verify_checkbox calm_page))
  /\ trace (verify_checkbox no_checkbox_page) = [Call (InForm CbVerifyClass)]
  /\ run_result (fill_application_form no_checkbox_page test_applicant false)
     = Ret true.
Proof.
  destruct (checkbox_check_reports_and_never_fails calm_page)
    as (_ & _ & _ & H4 & _ & _).
  destruct (checkbox_check_reports_and_never_fails no_checkbox_page)
    as (_ & _ & _ & _ & H5 & H6).
  split; [apply (H4 None); reflexivity|].
  split; [apply (H5 PlaywrightError); reflexivity|].
  rewrite (H6 test_applicant false); [reflexivity|].
  exists tt. reflexivity.
Defined.

(** C8, as claimed, fails: on a form without any checkbox element the
    fourth method "succeeds" without clicking anything, reading the class
    attribute then fails, and the check is left silently: the checkbox is
    not verified, yet no screenshot is captured. *)
Lemma unreadable_checkbox_leaves_no_screenshot :
  ~ In (Log msg_checkbox_verified) (trace (verify_checkbox no_checkbox_page))
  /\ ~ In (Call (InForm CbShotNotChecked))
         (trace (fill_application_form no_checkbox_page test_applicant true))
  /\ ~ (forall pg : Page,
          ~ In (Log msg_checkbox_verified) (trace (verify_checkbox pg)) ->
          In (Call (InForm CbShotNotChecked)) (trace (verify_checkbox pg))).
Proof.
  assert (V : ~ In (Log msg_checkbox_verified)
                (trace (verify_checkbox no_checkbox_page))).
  { simpl. intros [H | []]. discriminate H. }
  repeat split.
  - exact V.
  - intros H. vm_compute in H.
    repeat (destruct H as [H | H]; [discriminate H|]). contradiction.
  - intros H. specialize (H no_checkbox_page V). simpl in H.
    destruct H as [H | []]. discriminate H.
Qed.

(** ** The batch loop *)

Section RunFacts.

Variable w : World.
Variables headless submit : bool.

(** One turn of the loop of lines 811-826, written out. *)
Lemma process_records_cons (k : nat) (r : Submission)
  (rest : list Submission) (s f : nat) :
  process_records w headless submit k (r :: rest) s f =
  match format_applicant_for_bot r with
  | Raise e => (Raise e, [])
  | Ret a =>
      let m := run_application (page w k) (env w) a headless submit in
      let head := Info "Processing" :: List.map (At k) (trace m) in
      match run_result m with
      | Raise e => (Raise e, head)
      | Ret success =>
          if success && submit then
            match mark_result w k with
            | Raise e => (Raise e, head ++ [MarkSent k (id r)])
            | Ret _ =>
                let next :=
                  process_records w headless submit (S k) rest (S s) f in
                (run_result next,
                 head ++ MarkSent k (id r)
                      :: Info "[INFO] Marked badge request as sent"
                      :: trace next)
            end
          else if negb success then
            let next :=
              process_records w headless submit (S k) rest s (S f) in
            (run_result next,
             head ++ Info "[ERROR] Application failed - NOT marking as sent"
                  :: trace next)
          else
            let next := process_records w headless submit (S k) rest s f in
            (run_result next, head ++ trace next)
      end
  end.
Proof.
  cbn [process_records].
  unfold lift, within, info, emit, mark_badge_request_sent.
  destruct (format_applicant_for_bot r) as [a | e]; [|reflexivity].
  cbv zeta.
  change ((Ret a, []) : R Applicant) with (ret a : R Applicant).
  rewrite bind_ret_l.
  destruct (run_application (page w k) (env w) a headless submit)
    as [[success | e] t]; [|reflexivity].
  cbn [fst snd run_result trace].
  rewrite !bind_returned.
  destruct (success && submit).
  - destruct (mark_result w k) as [b | e]; [|reflexivity].
    rewrite !bind_returned. reflexivity.
  - destruct (negb success).
    + reflexivity.
    + reflexivity.
Qed.

Lemma in_session_events (k j : nat) (t : list event) (e : event) :
  In (At k e) (Info "Processing" :: List.map (At j) t) -> k = j /\ In e t.
Proof.
  intros [H | H]; [discriminate H|].
  apply in_map_iff in H as (e' & He' & Hin).
  injection He' as <- <-. now split.
Qed.

Lemma no_mark_in_session_events (k j : nat) (i : pystr) (t : list event) :
  ~ In (MarkSent k i) (Info "Processing" :: List.map (At j) t).
Proof.
  intros [H | H]; [discriminate H|].
  apply in_map_iff in H as (e' & He' & _). discriminate He'.
Qed.

(** [mark_badge_request_sent] is called for the applicant at position [k]
    exactly when that applicant's pipeline ran and succeeded and the
    submit flag is set. *)
Lemma process_records_mark_sent (records : list Submission) :
  forall (k0 s f k : nat) (i : pystr),
    In (MarkSent k i)
       (trace (process_records w headless submit k0 records s f)) <->
    exists j r,
      k = (k0 + j)%nat /\ nth_error records j = Some r /\ i = id r
      /\ submit = true
      /\ pipeline_succeeded w headless submit k r
           (trace (process_records w headless submit k0 records s f)).
Proof.
  induction records as [|r0 rest IH]; intros k0 s f k i.
  { split; [intros [] | intros (j & r & _ & H & _)].
    destruct j; discriminate H. }
  rewrite process_records_cons.
  destruct (format_applicant_for_bot r0) as [a0 | e0] eqn:F.
  2: { split; [intros [] | intros (j & r & _ & _ & _ & _ & a & _ & [] & _)]. }
  cbv zeta.
  pose proof (run_application_launches (page w k0) (env w) a0
                headless submit) as L.
  destruct (run_application_returns (page w k0) (env w) a0 headless submit)
    as [success R].
  rewrite R.
  set (t := trace (run_application (page w k0) (env w) a0 headless submit))
    in *.
  set (head := Info "Processing" :: List.map (At k0) t).
  assert (HL : In (At k0 (Launch headless)) head).
  { right. now apply in_map. }
  (* what a later position contributes *)
  assert (Later : forall s' f' tail,
    (forall x, In x tail ->
       In x (trace (process_records w headless submit (S k0) rest s' f'))
       \/ x = MarkSent k0 (id r0) /\ success && submit = true
       \/ exists msg, x = Info msg) ->
    (forall x, In x (trace (process_records w headless submit (S k0) rest
                              s' f')) -> In x tail) ->
    (success && submit = true -> In (MarkSent k0 (id r0)) tail) ->
    In (MarkSent k i) (head ++ tail) <->
    exists j r,
      k = (k0 + j)%nat /\ nth_error (r0 :: rest) j = Some r /\ i = id r
      /\ submit = true
      /\ pipeline_succeeded w headless submit k r (head ++ tail)).
  { intros s' f' tail Hsub Hsup Hmark. split.
    - intros H. apply in_app_iff in H as [H | H].
      { now apply no_mark_in_session_events in H. }
      apply Hsub in H as [H | [[H Hb] | [msg H]]]; [| |discriminate H].
      + apply IH in H as (j & r & -> & Hn & -> & Hs & a & Fa & La & Ra).
        exists (S j), r. rewrite Nat.add_succ_r.
        repeat split; try assumption.
        exists a. repeat split; try assumption.
        apply in_app_iff. right. now apply Hsup.
      + injection H as -> ->.
        apply andb_true_iff in Hb as [-> ->].
        exists O, r0. rewrite Nat.add_0_r. repeat split.
        exists a0. repeat split; try assumption.
        apply in_app_iff. now left.
    - intros (j & r & -> & Hn & -> & Hs & a & Fa & La & Ra).
      apply in_app_iff. right. destruct j as [|j].
      + rewrite Nat.add_0_r in *. injection Hn as <-.
        rewrite F in Fa. injection Fa as <-.
        apply Hmark. unfold t in *. rewrite R in Ra. injection Ra as ->.
        now rewrite Hs.
      + cbn [nth_error] in Hn. rewrite Nat.add_succ_r in *.
        apply Hsup. apply IH. exists j, r. repeat split; try assumption.
        exists a. repeat split; try assumption.
        apply in_app_iff in La as [La | La].
        * apply in_session_events in La as [La _]. lia.
        * apply Hsub in La as [La | [[La _] | [msg La]]];
            [assumption | discriminate La | discriminate La]. }
  destruct (success && submit) eqn:B.
  - destruct (mark_result w k0) as [b | e].
    + cbn [trace snd].
      apply (Later (S s) f).
      * intros x [<- | [<- | H]]; eauto.
      * intros x H. right. now right.
      * intros _. now left.
    + cbn [trace snd]. split.
      * intros H. apply in_app_iff in H as [H | H].
        { now apply no_mark_in_session_events in H. }
        destruct H as [H | []]. injection H as <- <-.
        apply andb_true_iff in B as [-> ->].
        exists O, r0. rewrite Nat.add_0_r. repeat split.
        exists a0. repeat split; try assumption.
        apply in_app_iff. now left.
      * intros (j & r & -> & Hn & -> & Hs & a & Fa & La & Ra).
        apply in_app_iff. right. destruct j as [|j].
        { rewrite Nat.add_0_r. injection Hn as <-. now left. }
        exfalso. apply in_app_iff in La as [La | La].
        { apply in_session_events in La as [La _]. lia. }
        destruct La as [La | []]. discriminate La.
  - destruct (negb success) eqn:Ns; cbn [trace snd].
    + apply (Later s (S f)).
      * intros x [<- | H]; eauto.
      * intros x H. now right.
      * discriminate.
    + apply (Later s f).
      * intros x H. now left.
      * intros x H. assumption.
      * discriminate.
Qed.

End RunFacts.

(** With the submit flag unset, no session clicks the submit button. *)
Lemma process_records_dry_run (w : World) (headless : bool)
  (records : list Submission) :
  forall (k0 s f k : nat),
    ~ In (At k (Call (InForm FSubmit)))
        (trace (process_records w headless false k0 records s f)).
Proof.
  induction records as [|r0 rest IH]; intros k0 s f k; [intros []|].
  rewrite process_records_cons.
  destruct (format_applicant_for_bot r0) as [a0 | e0]; [|intros []].
  cbv zeta.
  destruct (run_application_returns (page w k0) (env w) a0 headless false)
    as [success ->].
  rewrite andb_false_r.
  assert (Hh : ~ In (At k (Call (InForm FSubmit)))
                 (Info "Processing"
                  :: List.map (At k0)
                       (trace (run_application (page w k0) (env w) a0
                                 headless false)))).
  { intros H. apply in_session_events in H as [_ H].
    apply (emits_in _ _ _
             (run_application_dry_run_no_submit (page w k0) (env w) a0
                headless)) in H.
    discriminate H. }
  destruct (negb success); cbn [trace snd]; intros H;
    apply in_app_iff in H as [H | H]; try contradiction.
  - destruct H as [H | H]; [discriminate H | now apply IH in H].
  - now apply IH in H.
Qed.

(** ** A whole run *)

Section ApplyFacts.

Variable w : World.
Variables headless submit : bool.

(** The trace of a run for one application id. *)
Lemma run_apply_by_id_trace (application_id : option pystr)
  (all_pending : bool) :
  truthy application_id = true ->
  trace (run_apply w headless submit application_id all_pending) =
  FetchById (or_empty application_id) ::
  match get_application_by_id w (or_empty application_id) with
  | Raise _ => []
  | Ret None => [Info "[ERROR] Application not found"]
  | Ret (Some r) =>
      match format_applicant_for_bot r with
      | Raise _ => []
      | Ret a =>
          let m := run_application (page w 0) (env w) a headless submit in
          Info "[INFO] Processing" :: List.map (At 0%nat) (trace m) ++
          if returned_true (run_result m) && submit then
            MarkSent 0 (or_empty application_id) ::
            match mark_result w 0 with
            | Ret _ => [Info "[INFO] Marked badge request as sent"]
            | Raise _ => []
            end
          else if returned_true (run_result m) then []
          else [Info "[ERROR] Application failed - NOT marking as sent"]
      end
  end.
Proof.
  intros TA. unfold run_apply. rewrite TA. cbv zeta.
  destruct (get_application_by_id w (or_empty application_id))
    as [[r |] | e]; [| reflexivity | reflexivity].
  rewrite bind_returned. cbn [trace snd app]. f_equal.
  unfold lift, info, emit, within, mark_badge_request_sent.
  destruct (format_applicant_for_bot r) as [a | e]; [|reflexivity].
  change ((Ret a, []) : R Applicant) with (ret a : R Applicant).
  rewrite bind_ret_l. cbv zeta.
  destruct (run_application_returns (page w 0) (env w) a headless submit)
    as [success R].
  destruct (run_application (page w 0) (env w) a headless submit)
    as [rr t]. cbn [run_result fst] in R. subst rr.
  cbn [fst snd run_result trace].
  rewrite !bind_returned. cbn [trace snd app]. f_equal. f_equal.
  destruct success, submit; cbn [andb negb returned_true];
    try reflexivity.
  destruct (mark_result w 0); reflexivity.
Qed.

(** The trace of a batch run. *)
Lemma run_apply_all_trace (application_id : option pystr)
  (records : list Submission) :
  truthy application_id = false ->
  get_pending_airport_applications w = Ret records ->
  trace (run_apply w headless submit application_id true) =
  FetchPending :: Info "[INFO] Found pending airport badge applications" ::
  match records with
  | [] => [Info "[INFO] No pending applications to process"]
  | _ :: _ =>
      let loop := process_records w headless submit 0 records 0 0 in
      trace loop ++
      match run_result loop with
      | Ret counts => [Summary (fst counts) (snd counts)]
      | Raise _ => []
      end
  end.
Proof.
  intros TA G. unfold run_apply. rewrite TA, G.
  rewrite bind_returned. cbn [trace snd app]. f_equal.
  unfold info, emit. rewrite bind_returned. cbn [trace snd app]. f_equal.
  destruct records as [|r rest]; [reflexivity|].
  now rewrite bind_trace.
Qed.

End ApplyFacts.

Lemma session_event_in_batch (x : run_event) (l : list run_event)
  (r : result (nat * nat)) :
  (forall msg, x <> Info msg) -> x <> FetchPending ->
  (forall s f, x <> Summary s f) ->
  In x (FetchPending
        :: Info "[INFO] Found pending airport badge applications"
        :: l ++ match r with
                | Ret counts => [Summary (fst counts) (snd counts)]
                | Raise _ => []
                end)
  <-> In x l.
Proof.
  intros HI HF HS. split.
  - intros [H | [H | H]]; [now symmetry in H | now symmetry in H; apply HI in H|].
    apply in_app_iff in H as [H | H]; [assumption|].
    destruct r as [c | e]; [|contradiction].
    destruct H as [H | []]. symmetry in H. now apply HS in H.
  - intros H. right. right. apply in_app_iff. now left.
Qed.

(** When the repository is told that a request was sent. *)
Lemma mark_sent_characterisation
  (w : World) (headless submit : bool) (application_id : option pystr)
  (all_pending : bool) (k : nat) (i : pystr) :
  let T := trace (run_apply w headless submit application_id all_pending) in
  (In (MarkSent k i) T <->
   submit = true
   /\ exists r,
        applicant_of_run w application_id all_pending k = Some (i, r)
        /\ pipeline_succeeded w headless submit k r T)
  /\ (submit = false -> ~ In (At k (Call (InForm FSubmit))) T).
Proof.
  cbv zeta. unfold applicant_of_run.
  destruct (truthy application_id) eqn:TA.
  - (* one application id *)
    rewrite (run_apply_by_id_trace w headless submit _ all_pending TA).
    set (aid := or_empty application_id).
    destruct (get_application_by_id w aid) as [[r |] | e].
    2: { split; [split|].
         - intros [H | [H | []]]; discriminate H.
         - intros (_ & r & H & _). destruct k; discriminate H.
         - intros _ [H | [H | []]]; discriminate H. }
    2: { split; [split|].
         - intros [H | []]; discriminate H.
         - intros (_ & r & H & _). destruct k; discriminate H.
         - intros _ [H | []]; discriminate H. }
    destruct (format_applicant_for_bot r) as [a | e] eqn:F.
    2: { split; [split|].
         - intros [H | []]; discriminate H.
         - intros (_ & r' & H & a & Fa & _).
           destruct k; [|discriminate H]. injection H as _ <-. congruence.
         - intros _ [H | []]; discriminate H. }
    cbv zeta.
    pose proof (run_application_launches (page w 0) (env w) a
                  headless submit) as L.
    destruct (run_application_returns (page w 0) (env w) a headless submit)
      as [success R].
    rewrite R. cbn [returned_true].
    set (t := trace (run_application (page w 0) (env w) a headless submit))
      in *.
    split; [split|].
    + intros [H | [H | H]]; [discriminate H | discriminate H|].
      apply in_app_iff in H as [H | H].
      { apply in_map_iff in H as (e & He & _). discriminate He. }
      destruct success, submit; cbn [andb] in H;
        try (destruct H as [H | []]; discriminate H); try contradiction.
      destruct H as [H | H].
      * injection H as <- <-. split; [reflexivity|].
        exists r. split; [reflexivity|].
        exists a. repeat split; try assumption.
        right. right. apply in_app_iff. left. now apply in_map.
      * destruct (mark_result w 0); [|contradiction].
        destruct H as [H | []]. discriminate H.
    + intros (-> & r' & H & a' & Fa & La & Ra).
      destruct k; [|discriminate H]. injection H as <- <-.
      rewrite F in Fa. injection Fa as <-.
      unfold t in *. rewrite R in Ra. injection Ra as ->.
      right. right. apply in_app_iff. right. now left.
    + intros -> [H | [H | H]]; [discriminate H | discriminate H|].
      apply in_app_iff in H as [H | H].
      * apply in_map_iff in H as (e & He & Hin). injection He as _ ->.
        apply (emits_in _ _ _
                 (run_application_dry_run_no_submit (page w 0) (env w) a
                    headless)) in Hin.
        discriminate Hin.
      * rewrite andb_false_r in H.
        destruct success; [contradiction|].
        destruct H as [H | []]. discriminate H.
  - destruct all_pending.
    2: { unfold run_apply. rewrite TA. split; [split|].
         - intros [].
         - intros (_ & r & H & _). discriminate H.
         - intros _ []. }
    destruct (get_pending_airport_applications w) as [records | e] eqn:G.
    2: { unfold run_apply. rewrite TA, G. split; [split|].
         - intros [H | []]; discriminate H.
         - intros (_ & r & H & _). discriminate H.
         - intros _ [H | []]; discriminate H. }
    rewrite (run_apply_all_trace w headless submit _ records TA G).
    destruct records as [|r0 rest].
    { split; [split|].
      - intros [H | [H | [H | []]]]; discriminate H.
      - intros (_ & r & H & _). destruct k; discriminate H.
      - intros _ [H | [H | [H | []]]]; discriminate H. }
    cbv zeta.
    set (records := r0 :: rest) in *.
    set (loop := process_records w headless submit 0 records 0 0).
    assert (Hat : forall e,
      In (At k e)
         (FetchPending
          :: Info "[INFO] Found pending airport badge applications"
          :: trace loop ++
             match run_result loop with
             | Ret counts => [Summary (fst counts) (snd counts)]
             | Raise _ => []
             end)
      <-> In (At k e) (trace loop)).
    { intros e. apply session_event_in_batch; discriminate. }
    split; [split|].
    + intros H. apply session_event_in_batch in H; try discriminate.
      apply process_records_mark_sent in H
        as (j & r & -> & Hn & -> & Hs & a & Fa & La & Ra).
      split; [assumption|]. exists r. cbn [Nat.add]. rewrite Hn.
      split; [reflexivity|].
      exists a. repeat split; try assumption. now apply Hat.
    + intros (Hs & r & H & a & Fa & La & Ra).
      apply session_event_in_batch; try discriminate.
      destruct (nth_error records k) as [r' |] eqn:Hn; [|discriminate H].
      injection H as <- <-.
      apply process_records_mark_sent. exists k, r'.
      repeat split; try assumption.
      exists a. repeat split; try assumption. now apply Hat.
    + intros -> H. apply Hat in H.
      now apply process_records_dry_run in H.
Qed.



(** ** Login failures and missing credentials *)

Section LoginFacts.

Variable pg : Page.
Variable e : Env.

(** When login does not return [True], whether it returned [False] or
    raised, the run of this applicant ends there: [run_application]
    returns [False] and has talked to the page at login sites only. *)
Lemma run_application_after_failed_login (a : Applicant)
  (headless submit : bool) :
  run_result (login pg e) <> Ret true ->
  run_result (run_application pg e a headless submit) = Ret false
  /\ emits (calls_in login_site_only) (run_application pg e a headless submit).
Proof.
  intros H. unfold run_application. split.
  - rewrite !bind_result. cbn [run_result log emit fst].
    rewrite finally_result. cbn [run_result emit fst].
    rewrite try_result, bind_result.
    destruct (run_result (login pg e)) as [[|] | x]; try reflexivity.
    congruence.
  - emits_step; [emits_step|]. emits_step; [emits_step|].
    apply emits_finally; [|emits_step].
    apply emits_try; [|intros x; emits_go].
    apply emits_bind_result; [apply login_emits|].
    intros [|] Hb; [congruence|]. cbn [negb]. emits_go.
Qed.

(** A missing credential is raised by [login], that is after the browser
    was launched, and is caught by the handler of line 775 like any other
    exception. *)
Lemma missing_credential_is_caught (a : Applicant) (headless submit : bool) :
  truthy (PITID_USERNAME e) && truthy (PITID_PASSWORD e) = false ->
  run_result (login pg e) = Raise ValueError
  /\ run_application pg e a headless submit
     = (Ret false,
        [Log "PIT ID Application Bot"; Launch headless;
         Log "[ERROR] Unexpected error"; Close]).
Proof.
  intros H.
  assert (L : login pg e = raise ValueError).
  { unfold login. cbv zeta.
    destruct (truthy (PITID_USERNAME e)), (truthy (PITID_PASSWORD e));
      try reflexivity. discriminate H. }
  split; [now rewrite L|].
  unfold run_application. rewrite L. reflexivity.
Qed.

End LoginFacts.

(** C9, as the code has it.  With both credentials present, whenever the
    login stage does not return [True] (it returned [False], or an
    exception left it), [run_application] returns [False] without raising,
    no page call of a later stage is made, and the repository is not told
    that this applicant's request was sent. *)
Theorem login_failure_stops_the_pipeline
  (w : World) (headless submit : bool) (application_id : option pystr)
  (all_pending : bool) (k : nat) :
  truthy (PITID_USERNAME (env w)) = true ->
  truthy (PITID_PASSWORD (env w)) = true ->
  run_result (login (page w k) (env w)) <> Ret true ->
  (forall a,
      run_result (run_application (page w k) (env w) a headless submit)
      = Ret false
      /\ forall s,
           In (Call s)
              (trace (run_application (page w k) (env w) a headless submit))
           -> login_site_only s = true)
  /\ forall i,
       ~ In (MarkSent k i)
           (trace (run_apply w headless submit application_id all_pending)).
Proof.
  intros _ _ H. split.
  - intros a.
    destruct (run_application_after_failed_login (page w k) (env w) a
                headless submit H) as [R T].
    split; [exact R|]. intros s Hs.
    apply (emits_in _ _ _ T) in Hs. exact Hs.
  - intros i F.
    apply mark_sent_characterisation in F as (_ & r & _ & a & _ & _ & Ra).
    destruct (run_application_after_failed_login (page w k) (env w) a
                headless submit H) as [R _].
    congruence.
Qed.

Lemma login_failure_witness :
  run_result (run_application no_login_form_page good_env test_applicant
                true true) = Ret false
  /\ ~ In (MarkSent 0 (lit "a"))
         (trace (run_apply batch_no_login_form true true None true)).
Proof.
  destruct (login_failure_stops_the_pipeline batch_no_login_form true true
              None true 0 eq_refl eq_refl) as [H1 H2].
  - vm_compute. discriminate.
  - split; [apply (H1 test_applicant) | apply H2].
Defined.

(** C9, as claimed, fails: when the portal cannot be reached the very
    first call of [login] raises outside any [try] of the login stage, so
    the exception does leave the stage (it is [run_application] that
    catches it). *)
Lemma login_exception_leaves_the_stage :
  run_result (login unreachable_page good_env) = Raise PlaywrightError
  /\ run_result (run_application unreachable_page good_env test_applicant
                   true true) = Ret false
  /\ ~ (forall (pg : Page) (e : Env),
          truthy (PITID_USERNAME e) = true ->
          truthy (PITID_PASSWORD e) = true ->
          returns (login pg e)).
Proof.
  repeat split.
  intros H. destruct (H unreachable_page good_env eq_refl eq_refl) as [b Hb].
  discriminate Hb.
Qed.

(** C2, where the code departs from it.  With the portal password missing
    from the environment, [login] raises [ValueError] only after the
    browser of the session was launched, the handler of line 775 turns it
    into a failed applicant, and a batch of two goes on to open a second
    session: the run ends normally with the summary "0 success, 2
    failed". *)
Theorem missing_password_fails_each_applicant_after_launch :
  PITID_PASSWORD (env batch_without_password) = None
  /\ run_result (login calm_page no_password_env) = Raise ValueError
  /\ run_application calm_page no_password_env test_applicant true true
     = (Ret false,
        [Log "PIT ID Application Bot"; Launch true;
         Log "[ERROR] Unexpected error"; Close])
  /\ run_apply batch_without_password true true None true
     = (Ret tt,
        [FetchPending;
         Info "[INFO] Found pending airport badge applications";
         Info "Processing";
         At 0 (Log "PIT ID Application Bot"); At 0 (Launch true);
         At 0 (Log "[ERROR] Unexpected error"); At 0 Close;
         Info "[ERROR] Application failed - NOT marking as sent";
         Info "Processing";
         At 1 (Log "PIT ID Application Bot"); At 1 (Launch true);
         At 1 (Log "[ERROR] Unexpected error"); At 1 Close;
         Info "[ERROR] Application failed - NOT marking as sent";
         Summary 0 2]).
Proof. repeat split. Qed.

(** ** The summary of a batch *)

(** What the loop counts when it runs to its end: the failed count moves
    by the number of failed pipelines, with or without the submit flag;
    the success count moves by the number of successful pipelines only
    when the submit flag is set (line 823 sits inside the branch of line
    820), and not at all without it. *)
Lemma batch_counts (w : World) (headless submit : bool)
  (records : list Submission) :
  forall (k0 s f s' f' : nat),
    run_result (process_records w headless submit k0 records s f)
    = Ret (s', f') ->
    s' = (s + if submit then successes w headless submit k0 records
              else 0)%nat
    /\ (f' + successes w headless submit k0 records
        = f + List.length records)%nat.
Proof.
  induction records as [|r rest IH]; intros k0 s f s' f' H.
  { injection H as <- <-. cbn. destruct submit; lia. }
  rewrite process_records_cons in H. cbn [successes List.length].
  unfold succeeded_at.
  destruct (format_applicant_for_bot r) as [a | e]; [|discriminate H].
  cbv zeta in H.
  destruct (run_application_returns (page w k0) (env w) a headless submit)
    as [success R].
  rewrite R in *. cbn [returned_true].
  destruct success, submit; cbn [andb negb] in H.
  - destruct (mark_result w k0); [|discriminate H].
    apply IH in H. lia.
  - apply IH in H. lia.
  - apply IH in H. lia.
  - apply IH in H. lia.
Qed.

(** C3, where the code departs from it.  A batch of three whose second
    applicant fails at navigation, run without the submit flag: the first
    and third pipelines succeed, the second fails, and the summary reads
    "0 success, 1 failed" (two applicants are counted nowhere).  With the
    submit flag the same batch is summarised as "2 success, 1 failed". *)
Theorem dry_run_summary_counts_no_success :
  successes batch_of_three true false 0 [hire_a; hire_b; hire_c] = 2%nat
  /\ succeeded_at batch_of_three true false 1 hire_b = false
  /\ In (Summary 0 1) (trace (run_apply batch_of_three true false None true))
  /\ run_result (run_apply batch_of_three true false None true) = Ret tt
  /\ In (Summary 2 1) (trace (run_apply batch_of_three true true None true)).
Proof.
  repeat split; vm_compute; repeat first [left; reflexivity | right].
Qed.

(** ** A record that cannot be formatted *)

(** The loop stops at the first record whose formatting raises: nothing
    happens for it or for any record after it. *)
Lemma process_records_aborts (w : World) (headless submit : bool)
  (bad : Submission) (e0 : exn) (rest : list Submission) :
  format_applicant_for_bot bad = Raise e0 ->
  forall (before : list Submission) (k0 s f : nat),
    (exists e,
        run_result (process_records w headless submit k0
                      (before ++ bad :: rest) s f) = Raise e)
    /\ (before = [] ->
        run_result (process_records w headless submit k0
                      (before ++ bad :: rest) s f) = Raise e0)
    /\ emits (before_session (k0 + List.length before))
             (process_records w headless submit k0
                (before ++ bad :: rest) s f).
Proof.
  intros F. induction before as [|r before IH]; intros k0 s f.
  { cbn [app]. rewrite process_records_cons, F. repeat split.
    now exists e0. }
  cbn [app List.length]. rewrite process_records_cons.
  destruct (format_applicant_for_bot r) as [a | e].
  2: { repeat split; [now exists e | discriminate]. }
  cbv zeta.
  destruct (run_application_returns (page w k0) (env w) a headless submit)
    as [success ->].
  assert (Hh : forall tail,
    forallb (before_session (k0 + S (List.length before))) tail = true ->
    forallb (before_session (k0 + S (List.length before)))
      ((Info "Processing"
        :: List.map (At k0)
             (trace (run_application (page w k0) (env w) a headless submit)))
       ++ tail) = true).
  { intros tail Ht. rewrite forallb_app, Ht, andb_true_r.
    cbn [forallb before_session andb].
    apply forallb_forall. intros x Hx.
    apply in_map_iff in Hx as (ev & <- & _). cbn [before_session].
    apply Nat.ltb_lt. lia. }
  assert (Hk : Nat.ltb k0 (k0 + S (List.length before)) = true).
  { apply Nat.ltb_lt. lia. }
  assert (Hn : forall s1 f1,
    (exists e,
        run_result (process_records w headless submit (S k0)
                      (before ++ bad :: rest) s1 f1) = Raise e)
    /\ forallb (before_session (k0 + S (List.length before)))
         (trace (process_records w headless submit (S k0)
                   (before ++ bad :: rest) s1 f1)) = true).
  { intros s1 f1. destruct (IH (S k0) s1 f1) as (H1 & _ & H3).
    split; [exact H1|]. unfold emits in H3.
    now rewrite Nat.add_succ_r. }
  destruct (success && submit).
  - destruct (mark_result w k0) as [b | e].
    + destruct (Hn (S s) f) as [H1 H3]. repeat split;
        [exact H1 | discriminate|].
      apply Hh. cbn [forallb before_session]. now rewrite Hk, H3.
    + repeat split; [now exists e | discriminate|].
      apply Hh. cbn [forallb before_session]. now rewrite Hk.
  - destruct (negb success).
    + destruct (Hn s (S f)) as [H1 H3]. repeat split;
        [exact H1 | discriminate|].
      apply Hh. cbn [forallb before_session]. exact H3.
    + destruct (Hn s f) as [H1 H3]. repeat split;
        [exact H1 | discriminate|].
      apply Hh. exact H3.
Qed.

(** C10.  A record whose date of birth contains a dash but fewer than
    three dash-separated groups makes [format_applicant_for_bot] raise
    [IndexError].  In a batch the exception leaves [run_apply]: no browser
    session is opened for this record or for any record after it, the
    repository is not touched for them, and no summary is printed. *)
Theorem short_date_of_birth_aborts_the_run
  (w : World) (headless submit : bool) (record : Submission) (d : pystr)
  (before rest : list Submission) :
  date_of_birth record = Some d ->
  In dash d ->
  (List.length (split dash d) < 3)%nat ->
  get_pending_airport_applications w = Ret (before ++ record :: rest) ->
  let run := run_apply w headless submit None true in
  format_applicant_for_bot record = Raise IndexError
  /\ (exists e, run_result run = Raise e)
  /\ (before = [] -> run_result run = Raise IndexError)
  /\ (forall k, (List.length before <= k)%nat ->
        (forall ev, ~ In (At k ev) (trace run))
        /\ (forall i, ~ In (MarkSent k i) (trace run)))
  /\ (forall s f, ~ In (Summary s f) (trace run)).
Proof.
  intros Hd Hin Hlen G. cbv zeta.
  assert (F : format_applicant_for_bot record = Raise IndexError).
  { unfold format_applicant_for_bot, format_dob. rewrite Hd.
    assert (T : truthy (Some d) = true) by (destruct d; [contradiction | reflexivity]).
    apply contains_char in Hin as C. rewrite T, C. cbn [andb].
    pose proof (split_with_separator_length dash d Hin) as L2.
    destruct (split dash d) as [|p0 [|p1 [|p2 ps]]]; cbn in *; try lia.
    reflexivity. }
  split; [exact F|].
  destruct (process_records_aborts w headless submit record IndexError rest F
              before 0 0 0) as ((e & He) & H0 & Hem).
  assert (Shape : run_apply w headless submit None true
          = (Raise e,
             FetchPending
             :: Info "[INFO] Found pending airport badge applications"
             :: trace (process_records w headless submit 0
                         (before ++ record :: rest) 0 0))).
  { unfold run_apply. cbn [truthy]. rewrite G.
    rewrite bind_returned. unfold info, emit. rewrite bind_returned.
    destruct (before ++ record :: rest) as [|r0 l] eqn:E.
    { destruct before; discriminate E. }
    rewrite bind_result, bind_trace, He.
    cbn [run_result trace fst snd app]. now rewrite app_nil_r. }
  rewrite Shape. cbn [run_result trace fst snd].
  split; [now exists e|].
  split; [intros Hb; specialize (H0 Hb); congruence|].
  unfold emits in Hem. rewrite forallb_forall in Hem.
  split.
  - intros k Hk. split.
    + intros ev [H | [H | H]]; [discriminate H | discriminate H|].
      apply Hem in H. cbn in H. apply Nat.ltb_lt in H. lia.
    + intros i [H | [H | H]]; [discriminate H | discriminate H|].
      apply Hem in H. cbn in H. apply Nat.ltb_lt in H. lia.
  - intros s f [H | [H | H]]; [discriminate H | discriminate H|].
    apply Hem in H. discriminate H.
Qed.

Lemma short_date_of_birth_witness :
  format_applicant_for_bot hire_short_dob = Raise IndexError
  /\ (forall ev,
        ~ In (At 2 ev) (trace (run_apply batch_short_dob true true None true)))
  /\ (forall s f,
        ~ In (Summary s f)
            (trace (run_apply batch_short_dob true true None true))).
Proof.
  destruct (short_date_of_birth_aborts_the_run batch_short_dob true true
              hire_short_dob (lit "1990-01") [hire_a] [hire_c])
    as (H1 & _ & _ & H4 & H5).
  - reflexivity.
  - right. right. right. right. now left.
  - vm_compute. lia.
  - reflexivity.
  - split; [exact H1|]. split; [|exact H5].
    apply (H4 2%nat). cbn. lia.
Defined.

(** * Beyond the claims *)

(** ** Dates of birth *)

Section DateFacts.

Lemma count_char_zero (c : N) (s : pystr) :
  count_char c s = 0%nat <-> ~ In c s.
Proof.
  unfold count_char. induction s as [|b s IH]; simpl.
  - split; [intros _ [] | reflexivity].
  - destruct (N.eqb_spec c b) as [E | E]; simpl.
    + split; [discriminate | intros H; exfalso; apply H; now left].
    + rewrite IH. split.
      * intros H [F | F]; [now symmetry in F | contradiction].
      * intros H F. apply H. now right.
Qed.

Lemma split_length (sep : N) (s : pystr) :
  List.length (split sep s) = S (count_char sep s).
Proof.
  unfold count_char. induction s as [|c s IH]; [reflexivity|].
  cbn [split filter]. rewrite (N.eqb_sym sep c).
  destruct (c =? sep); cbn [List.length].
  - now rewrite IH.
  - pose proof (split_nonempty sep s) as NE.
    destruct (split sep s) as [|p ps]; [contradiction|].
    cbn [List.length] in *. exact IH.
Qed.

End DateFacts.

(** X1 (format_applicant_for_bot).  [format_applicant_for_bot] raises
    exactly on a date of birth with one single dash, and then it is an
    [IndexError]: a date without a dash is passed on, a date with two or
    more dashes is reordered. *)
Theorem format_raises_iff_single_dash (record : Submission) (e : exn) :
  format_applicant_for_bot record = Raise e <->
  e = IndexError
  /\ exists d, date_of_birth record = Some d /\ count_char dash d = 1%nat.
Proof.
  unfold format_applicant_for_bot, format_dob.
  destruct (date_of_birth record) as [d |]; cbn [or_empty].
  2: { split; [discriminate | intros (_ & d & H & _); discriminate H]. }
  destruct (contains [dash] d) eqn:C.
  - apply contains_char in C.
    assert (T : truthy (Some d) = true).
    { destruct d; [contradiction | reflexivity]. }
    rewrite T. cbn [andb].
    pose proof (split_length dash d) as L.
    assert (P : count_char dash d <> 0%nat).
    { intros Z. apply count_char_zero in Z. contradiction. }
    destruct (split dash d) as [|p0 [|p1 [|p2 ps]]]; cbn in L |- *;
      try lia.
    + split.
      * intros H. injection H as <-. split; [reflexivity|].
        exists d. split; [reflexivity | lia].
      * intros (-> & _). reflexivity.
    + split; [discriminate|].
      intros (_ & d' & H & H1). injection H as <-. lia.
  - rewrite andb_false_r. split; [discriminate|].
    intros (_ & d' & H & H1). injection H as <-.
    assert (Z : count_char dash d = 0%nat).
    { apply count_char_zero. intros F. apply contains_char in F. congruence. }
    lia.
Qed.

(** X2 (format_applicant_for_bot).  Only the first three dash-separated
    groups of a date of birth are used: whatever follows a third dash (the
    offset of a timestamp, say) is dropped without notice. *)
Theorem format_drops_groups_after_the_third
  (record : Submission) (y m d rest : pystr) :
  ~ In dash y -> ~ In dash m -> ~ In dash d ->
  date_of_birth record = Some (y ++ dash :: m ++ dash :: d ++ dash :: rest) ->
  exists a, format_applicant_for_bot record = Ret a
            /\ dob a = m ++ [slash] ++ d ++ [slash] ++ y.
Proof.
  intros Hy Hm Hd E.
  unfold format_applicant_for_bot, format_dob. rewrite E.
  assert (Hc : contains [dash] (y ++ dash :: m ++ dash :: d ++ dash :: rest)
               = true).
  { apply contains_char. apply in_or_app. right. now left. }
  assert (Ht : truthy (Some (y ++ dash :: m ++ dash :: d ++ dash :: rest))
               = true).
  { destruct y; reflexivity. }
  rewrite Ht, Hc. cbn [andb].
  rewrite (split_at_first_separator dash y _ Hy).
  rewrite (split_at_first_separator dash m _ Hm).
  rewrite (split_at_first_separator dash d _ Hd).
  cbn. eexists. split; reflexivity.
Qed.

Lemma format_drops_groups_witness :
  exists a, format_applicant_for_bot (hire "t" "1990-01-15T00:00:00-05:00")
            = Ret a
            /\ dob a = lit "01/15T00:00:00/1990".
Proof.
  apply (format_drops_groups_after_the_third
           (hire "t" "1990-01-15T00:00:00-05:00")
           (lit "1990") (lit "01") (lit "15T00:00:00") (lit "05:00")).
  - now apply absent_char.
  - now apply absent_char.
  - now apply absent_char.
  - reflexivity.
Defined.

(** X3 (format_applicant_for_bot, fill_duplicate_check).  What the formatter
    writes, the duplicate check can read: when the three groups of a date
    [Y-M-D] are numerals, the formatted date parses in
    [fill_duplicate_check] as month [M], day [D] and year [Y]. *)
Theorem formatted_dob_parses_back
  (record : Submission) (y m d : pystr) (vy vm vd : Z) :
  ~ In dash y -> ~ In dash m -> ~ In dash d ->
  ~ In slash y -> ~ In slash m -> ~ In slash d ->
  Py.int y = Ret vy -> Py.int m = Ret vm -> Py.int d = Ret vd ->
  date_of_birth record = Some (y ++ dash :: m ++ dash :: d) ->
  exists a, format_applicant_for_bot record = Ret a
            /\ parse_dob (dob a) = Ret (vm, vd, vy).
Proof.
  intros Hy Hm Hd Sy Sm Sd Iy Im Id E.
  unfold format_applicant_for_bot, format_dob. rewrite E.
  assert (Hc : contains [dash] (y ++ dash :: m ++ dash :: d) = true).
  { apply contains_char. apply in_or_app. right. now left. }
  assert (Ht : truthy (Some (y ++ dash :: m ++ dash :: d)) = true).
  { destruct y; reflexivity. }
  rewrite Ht, Hc. cbn [andb].
  rewrite (split_at_first_separator dash y _ Hy).
  rewrite (split_at_first_separator dash m _ Hm).
  rewrite (split_without_separator dash d Hd).
  cbn [index nth_error]. eexists. split; [reflexivity|].
  cbn [dob]. unfold parse_dob.
  change (m ++ [slash] ++ d ++ [slash] ++ y)
    with (m ++ slash :: (d ++ slash :: y)).
  rewrite (split_at_first_separator slash m _ Sm).
  rewrite (split_at_first_separator slash d _ Sd).
  rewrite (split_without_separator slash y Sy).
  cbn [index nth_error]. now rewrite Im, Id, Iy.
Qed.

Lemma formatted_dob_parses_back_witness :
  exists a, format_applicant_for_bot hire_b = Ret a
            /\ parse_dob (dob a) = Ret (7, 4, 1985)%Z.
Proof.
  apply (formatted_dob_parses_back hire_b (lit "1985") (lit "7") (lit "4"));
    try (now apply absent_char); reflexivity.
Defined.

(** ** The stages before the form *)

Section EarlyStages.

Variable pg : Page.

Lemma navigate_result :
  run_result (navigate_to_application_management pg) = Ret (tile_opened pg).
Proof.
  unfold navigate_to_application_management, tile_opened, do_act.
  destruct (act pg (InNav NWait)) as [[] | x]; [|reflexivity].
  destruct (act pg (InNav NClick)) as [[] | x]; [|reflexivity].
  destruct (act pg (InNav NLoad)) as [[] | x]; reflexivity.
Qed.

Lemma button_body_result (selector : string) :
  returned_true
    (run_result
       (visible <- do_ask pg (InNav (IVisible selector)) ;;
        if (visible : bool) then
          do_act pg (InNav (IClick selector)) ;;
          log "[NAV] Clicked" ;;
          do_act pg (InNav (ILoad selector)) ;;
          ret true
        else ret false))
  = button_opens pg selector.
Proof.
  unfold button_opens, do_ask, do_act.
  destruct (ask pg (InNav (IVisible selector))) as [[|] | x];
    try reflexivity.
  destruct (act pg (InNav (IClick selector))) as [[] | x]; [|reflexivity].
  destruct (act pg (InNav (ILoad selector))) as [[] | x]; reflexivity.
Qed.

Lemma initiate_result :
  run_result (initiate_new_application pg)
  = Ret (existsb (button_opens pg) btn_selectors).
Proof.
  unfold initiate_new_application.
  rewrite bind_result. cbn [run_result log emit fst].
  rewrite bind_result, for_try_result.
  rewrite (existsb_pointwise _ _ _ button_body_result).
  destruct (existsb (button_opens pg) btn_selectors); reflexivity.
Qed.

End EarlyStages.

Lemma login_result_eq (pg : Page) (e : Env) :
  run_result (login pg e) =
  if negb (credentials_present e) then Raise ValueError
  else
    match act pg (InLogin LGoto), act pg (InLogin LSignIn),
          act pg (InLogin LLoad) with
    | Ret _, Ret _, Ret _ => Ret (password_entered pg && dashboard_reached pg)
    | Raise x, _, _ => Raise x
    | Ret _, Raise x, _ => Raise x
    | Ret _, Ret _, Raise x => Raise x
    end.
Proof.
  unfold login, credentials_present, password_entered, dashboard_reached.
  cbv zeta.
  destruct (truthy (PITID_USERNAME e)), (truthy (PITID_PASSWORD e));
    cbn [negb orb andb]; try reflexivity.
  unfold do_act.
  rewrite bind_result. cbn [run_result log emit fst].
  rewrite bind_result. cbn [run_result fst].
  destruct (act pg (InLogin LGoto)) as [[] | x]; [|reflexivity].
  rewrite bind_result. cbn [run_result log emit fst].
  rewrite bind_result. cbn [run_result fst].
  destruct (act pg (InLogin LSignIn)) as [[] | x]; [|reflexivity].
  rewrite bind_result. cbn [run_result log emit fst].
  rewrite bind_result. cbn [run_result fst].
  destruct (act pg (InLogin LLoad)) as [[] | x]; [|reflexivity].
  rewrite bind_result.
  match goal with
  | |- context [run_result (try_ ?m ?h)] =>
      assert (U : run_result (try_ m h) = Ret tt)
  end.
  { rewrite try_result.
    match goal with
    | |- match run_result ?m with _ => _ end = _ =>
        destruct (run_result m) as [[] | x]; reflexivity
    end. }
  rewrite U. clear U.
  rewrite bind_result.
  destruct (act pg (InLogin LPassWait)) as [[] | x]; [|reflexivity].
  destruct (act pg (InLogin LPassFill)) as [[] | x]; [|reflexivity].
  destruct (act pg (InLogin LSubmitClick)) as [[] | x]; [|reflexivity].
  cbn [try_ bind run_result fst returned andb log emit ret].
  destruct (act pg (InLogin LWaitUrl)) as [[] | x]; [reflexivity|].
  cbn [returned orb].
  destruct (contains (lit "AlertSelfService") (url pg)); reflexivity.
Qed.

(** X4 (login).  [login] returns [True] exactly when the password step went
    through and the dashboard counts as reached; what happens in the
    username step (lines 151-162) has no influence on the result.  A missing
    credential raises [ValueError], and an exception of one of the first
    three calls leaves the function. *)
Theorem login_result (pg : Page) (e : Env) :
  run_result (login pg e) =
  if negb (credentials_present e) then Raise ValueError
  else
    match act pg (InLogin LGoto), act pg (InLogin LSignIn),
          act pg (InLogin LLoad) with
    | Ret _, Ret _, Ret _ => Ret (password_entered pg && dashboard_reached pg)
    | Raise x, _, _ => Raise x
    | Ret _, Raise x, _ => Raise x
    | Ret _, Ret _, Raise x => Raise x
    end.
Proof. exact (login_result_eq pg e). Qed.

Lemma modal_body_result (pg : Page) (selector : string) :
  returned_true
    (run_result
       (do_act pg (InDup (DModal selector)) ;;
        log "[FORM] Found modal element" ;;
        ret true))
  = returned (act pg (InDup (DModal selector))).
Proof.
  unfold do_act.
  destruct (act pg (InDup (DModal selector))) as [[] | x]; reflexivity.
Qed.

Lemma duplicate_check_result_eq (pg : Page) (d : pystr) (s : option pystr) :
  run_result (fill_duplicate_check pg d s)
  = Ret (returned (act pg (InDup DLoad))
         && modal_appears pg
         && returned (parse_dob d)
         && returned (ask pg (InDup DScript))
         && returned (act pg (InDup DContinue))
         && returned (act pg (InDup DLoadAfter))).
Proof.
  unfold fill_duplicate_check, modal_appears.
  rewrite bind_result. cbn [run_result log emit fst].
  rewrite try_result, bind_result. unfold do_act at 1. cbn [run_result fst].
  destruct (act pg (InDup DLoad)) as [[] | x]; [|reflexivity].
  cbn [returned andb].
  rewrite bind_result, for_try_result.
  rewrite (existsb_pointwise _ _ _ (modal_body_result pg)).
  destruct (existsb _ modal_selectors); [|reflexivity].
  cbn [negb andb]. cbv zeta. unfold parse_dob, lift.
  rewrite bind_result. cbn [run_result fst].
  destruct (index (split slash d) 0) as [p0 | x]; [|reflexivity].
  rewrite bind_result. cbn [run_result fst].
  destruct (Py.int p0) as [month | x]; [|reflexivity].
  rewrite bind_result. cbn [run_result fst].
  destruct (index (split slash d) 1) as [p1 | x]; [|reflexivity].
  rewrite bind_result. cbn [run_result fst].
  destruct (Py.int p1) as [day | x]; [|reflexivity].
  rewrite bind_result. cbn [run_result fst].
  destruct (index (split slash d) 2) as [p2 | x]; [|reflexivity].
  rewrite bind_result. cbn [run_result fst].
  destruct (Py.int p2) as [year | x]; [|reflexivity].
  cbn [returned andb].
  rewrite !bind_result. cbn [run_result log emit fst]. unfold do_ask at 1.
  cbn [run_result fst].
  destruct (ask pg (InDup DScript)) as [ok | x]; [|reflexivity].
  cbn [returned andb].
  rewrite bind_result.
  assert (L : forall b : bool,
            run_result (if b then log "[FORM] Set DOB"
                        else log "[FORM] WARNING: DOB JavaScript method may have failed")
            = Ret tt) by (intros [|]; reflexivity).
  rewrite L. rewrite bind_result.
  match goal with
  | |- context [run_result (for_try ?xs ?b)] =>
      destruct (returns_for_try xs b) as [r ->]
  end.
  unfold do_act.
  destruct (act pg (InDup DContinue)) as [[] | x]; [|reflexivity].
  destruct (act pg (InDup DLoadAfter)) as [[] | x]; reflexivity.
Qed.

(** X5 (fill_duplicate_check).  [fill_duplicate_check] returns [True]
    exactly when its first wait returns, one of the modal markers shows up,
    the date parses as three numerals separated by slashes, and the script
    call, the Continue click and the last wait return.  It never raises.
    Neither the success flag the script reports nor the SSN field (found or
    not, filled or not) has any influence on the result. *)
Theorem duplicate_check_result (pg : Page) (d : pystr) (s : option pystr) :
  run_result (fill_duplicate_check pg d s)
  = Ret (returned (act pg (InDup DLoad))
         && modal_appears pg
         && returned (parse_dob d)
         && returned (ask pg (InDup DScript))
         && returned (act pg (InDup DContinue))
         && returned (act pg (InDup DLoadAfter))).
Proof. exact (duplicate_check_result_eq pg d s). Qed.

(** ** The form stage *)

Lemma seq_result {E A B : Type} (m : Eff E A) (k : Eff E B) :
  returns m -> run_result (m ;; k) = run_result k.
Proof. intros [a Ha]. now rewrite bind_result, Ha. Qed.

Lemma fill_field_returns (pg : Page) (field : string) (click_first : bool)
  (sels : list string) :
  returns (fill_field pg field click_first sels).
Proof. apply returns_for_try. Qed.

Lemma form_fields_result (pg : Page) (a : Applicant) :
  returned (run_result (fill_form_fields pg a)) = form_scaffold_returned pg.
Proof.
  unfold fill_form_fields, form_scaffold_returned.
  rewrite bind_result. unfold do_act at 1. cbn [run_result fst].
  destruct (act pg (InForm FHeading)) as [[] | x]; [|reflexivity].
  cbn [returned andb].
  rewrite seq_result by apply returns_emit.
  rewrite seq_result by apply fill_field_returns.
  rewrite seq_result by apply returns_emit.
  rewrite seq_result by apply fill_field_returns.
  rewrite seq_result
    by (destruct (truthy _); [apply fill_field_returns | apply returns_ret]).
  rewrite seq_result by apply returns_emit.
  rewrite seq_result by apply fill_field_returns.
  rewrite seq_result by apply returns_emit.
  rewrite seq_result by apply fill_field_returns.
  rewrite bind_result. unfold do_act at 1. cbn [run_result fst].
  destruct (act pg (InForm (FScroll 1))) as [[] | x]; [|reflexivity].
  cbn [returned andb].
  rewrite !seq_result by apply autocomplete_returns.
  rewrite bind_result. unfold do_act at 1. cbn [run_result fst].
  destruct (act pg (InForm (FScroll 2))) as [[] | x]; [|reflexivity].
  cbn [returned andb].
  rewrite seq_result by apply returns_emit.
  rewrite seq_result by (apply returns_try; intros _; apply returns_ret).
  rewrite seq_result by apply returns_emit.
  rewrite bind_result. unfold do_act at 1. cbn [run_result fst].
  destruct (act pg (InForm (FScroll 3))) as [[] | x]; [|reflexivity].
  cbn [returned andb].
  rewrite seq_result by apply returns_emit.
  unfold do_act. cbn [run_result fst].
  destruct (act pg (InForm FShotBefore)) as [[] | x]; reflexivity.
Qed.

(** X6 (fill_application_form).  Without the submit flag,
    [fill_application_form] returns [True] exactly when the form's heading
    shows up and the three scroll scripts and the screenshot before the
    checkbox return: whether any text field, autocomplete field, badge type
    or checkbox could be found or filled has no influence on the result.  It
    never raises. *)
Theorem dry_run_form_result (pg : Page) (a : Applicant) :
  run_result (fill_application_form pg a false)
  = Ret (form_scaffold_returned pg).
Proof.
  rewrite fill_application_form_result, <- (form_fields_result pg a).
  destruct (run_result (fill_form_fields pg a)) as [[] | x]; reflexivity.
Qed.

(** X7 (fill_application_form).  With the submit flag,
    [fill_application_form] returns [True] exactly when the same calls
    return, the Submit click and the wait after it return, no explicit error
    is flagged, and a success signal is seen or the screenshot of the
    uncertain outcome returns.  It never raises. *)
Theorem submit_form_result (pg : Page) (a : Applicant) :
  run_result (fill_application_form pg a true)
  = Ret (form_scaffold_returned pg
         && returned (act pg (InForm FSubmit))
         && returned (act pg (InForm FSubmitLoad))
         && negb (existsb (error_flagged pg) error_selectors)
         && (success_signal pg
             || returned (act pg (InForm FShotUncertain)))).
Proof.
  rewrite fill_application_form_result, <- (form_fields_result pg a).
  destruct (run_result (fill_form_fields pg a)) as [[] | x]; [|reflexivity].
  cbn [returned andb].
  rewrite submit_or_stop_result_submit.
  destruct (act pg (InForm FSubmit)) as [[] | x]; [|reflexivity].
  destruct (act pg (InForm FSubmitLoad)) as [[] | x]; [|reflexivity].
  rewrite classify_outcome_result. cbn [returned andb].
  destruct (existsb (error_flagged pg) error_selectors); [reflexivity|].
  destruct (success_signal pg); [reflexivity|].
  destruct (act pg (InForm FShotUncertain)); reflexivity.
Qed.

(** ** One applicant's run *)

Lemma emits_weaken {E A : Type} (P Q : E -> bool) (m : Eff E A) :
  (forall x, P x = true -> Q x = true) -> emits P m -> emits Q m.
Proof.
  unfold emits. intros HPQ H. rewrite forallb_forall in *.
  intros x Hx. apply HPQ, H, Hx.
Qed.

Section StageCalls.

Variable pg : Page.

Lemma login_only_calls (e : Env) :
  emits (only_calls login_site_only) (login pg e).
Proof. unfold login. emits_go. Qed.

Lemma navigate_only_calls :
  emits (only_calls tile_site_only) (navigate_to_application_management pg).
Proof. unfold navigate_to_application_management. emits_go. Qed.

Lemma initiate_only_calls :
  emits (only_calls button_site_only) (initiate_new_application pg).
Proof. unfold initiate_new_application. emits_go. Qed.

Lemma duplicate_check_only_calls (d : pystr) (s : option pystr) :
  emits (only_calls dup_site_only) (fill_duplicate_check pg d s).
Proof. unfold fill_duplicate_check. emits_go. Qed.

Lemma scan_form_fields_only_calls (f : string) (labels : list pystr)
  (n i : nat) (inp : bool) :
  emits (only_calls form_site_only) (scan_form_fields pg f labels n i inp).
Proof.
  revert i inp. induction n as [|n IH]; intros i inp;
    cbn [scan_form_fields].
  - apply emits_ret.
  - emits_go. apply IH.
Qed.

Lemma click_first_visible_only_calls (f opt_sel : string) (n i : nat) :
  emits (only_calls form_site_only) (click_first_visible pg f opt_sel n i).
Proof.
  revert i. induction n as [|n IH]; intros i; cbn [click_first_visible].
  - apply emits_ret.
  - emits_go. apply IH.
Qed.

Lemma autocomplete_only_calls (f : string) (trigger : pystr) :
  emits (only_calls form_site_only) (fill_autocomplete_field pg f trigger).
Proof.
  unfold fill_autocomplete_field, locate_labelled.
  emits_go;
    first [apply scan_form_fields_only_calls
          | apply click_first_visible_only_calls].
Qed.

Lemma form_fields_only_calls (a : Applicant) :
  emits (only_calls form_site_only) (fill_form_fields pg a).
Proof.
  unfold fill_form_fields, fill_field.
  emits_go; apply autocomplete_only_calls.
Qed.

Lemma click_checkbox_only_calls :
  emits (only_calls form_site_only) (click_checkbox pg).
Proof. unfold click_checkbox. emits_go. Qed.

Lemma verify_checkbox_only_calls :
  emits (only_calls form_site_only) (verify_checkbox pg).
Proof. unfold verify_checkbox. emits_go. Qed.

Lemma classify_outcome_only_calls :
  emits (only_calls form_site_only) (classify_outcome pg).
Proof.
  unfold classify_outcome, error_check, success_check, landing_check,
    submit_gone_check, report_outcome.
  emits_go.
Qed.

Lemma form_only_calls (a : Applicant) (submit : bool) :
  emits (only_calls form_site_only) (fill_application_form pg a submit).
Proof.
  unfold fill_application_form, submit_or_stop.
  emits_go;
    first [apply form_fields_only_calls | apply click_checkbox_only_calls
          | apply verify_checkbox_only_calls
          | apply classify_outcome_only_calls].
Qed.

End StageCalls.

Lemma only_calls_anywhere {A : Type} (allowed : site -> bool) (m : M A) :
  emits (only_calls allowed) m -> emits (only_calls any_site) m.
Proof.
  apply emits_weaken. intros [h | | s | msg]; cbn; auto.
Qed.

(** The stages of [run_application] between launching and closing the
    browser. *)
Lemma pipeline_only_calls (pg : Page) (e : Env) (a : Applicant)
  (submit : bool) (m : M bool) :
  m = try_ (ok <- login pg e ;;
            if negb ok then log "[ERROR] Login failed" ;; ret false
            else
            ok <- navigate_to_application_management pg ;;
            if negb ok then
              log "[ERROR] Could not navigate to Application Management" ;;
              ret false
            else
            ok <- initiate_new_application pg ;;
            if negb ok then
              log "[ERROR] Could not initiate new application" ;; ret false
            else
            ok <- fill_duplicate_check pg (dob a) (ssn4 a) ;;
            if negb ok then log "[ERROR] Duplicate check failed" ;; ret false
            else
            ok <- fill_application_form pg a submit ;;
            if negb ok then log "[ERROR] Form filling failed" ;; ret false
            else
            log "[SUCCESS] Application process completed!" ;;
            ret true)
           (fun _ => log "[ERROR] Unexpected error" ;; ret false) ->
  emits (only_calls any_site) m.
Proof.
  intros ->.
  emits_go;
    first [apply (only_calls_anywhere _ _ (login_only_calls pg e))
          | apply (only_calls_anywhere _ _ (navigate_only_calls pg))
          | apply (only_calls_anywhere _ _ (initiate_only_calls pg))
          | apply (only_calls_anywhere _ _
                     (duplicate_check_only_calls pg (dob a) (ssn4 a)))
          | apply (only_calls_anywhere _ _ (form_only_calls pg a submit))].
Qed.

Lemma run_application_trace_shape
  (pg : Page) (e : Env) (a : Applicant) (headless submit : bool) :
  exists body,
    trace (run_application pg e a headless submit)
    = Log "PIT ID Application Bot" :: Launch headless :: body ++ [Close]
    /\ forallb (only_calls any_site) body = true.
Proof.
  unfold run_application.
  eexists. split.
  - rewrite bind_trace. cbn [trace log emit snd run_result fst app].
    rewrite bind_trace. cbn [trace emit snd run_result fst app].
    rewrite finally_trace. cbn [trace emit snd]. reflexivity.
  - eapply pipeline_only_calls. reflexivity.
Qed.


Lemma run_application_result_eq
  (pg : Page) (e : Env) (a : Applicant) (headless submit : bool) :
  run_result (run_application pg e a headless submit)
  = Ret (returned_true (run_result (login pg e))
         && returned_true (run_result (navigate_to_application_management pg))
         && returned_true (run_result (initiate_new_application pg))
         && returned_true
              (run_result (fill_duplicate_check pg (dob a) (ssn4 a)))
         && returned_true
              (run_result (fill_application_form pg a submit))).
Proof.
  unfold run_application.
  rewrite bind_result. cbn [run_result log emit fst].
  rewrite bind_result. cbn [run_result emit fst].
  rewrite finally_result. cbn [run_result emit fst].
  rewrite try_result, bind_result.
  destruct (run_result (login pg e)) as [[|] | x]; try reflexivity.
  cbn [negb returned_true andb].
  rewrite bind_result, navigate_result.
  destruct (tile_opened pg); [|reflexivity].
  cbn [negb returned_true andb].
  rewrite bind_result, initiate_result.
  destruct (existsb (button_opens pg) btn_selectors); [|reflexivity].
  cbn [negb returned_true andb].
  rewrite bind_result.
  pose proof (duplicate_check_result_eq pg (dob a) (ssn4 a)) as D.
  destruct (run_result (fill_duplicate_check pg (dob a) (ssn4 a)))
    as [[|] | x]; [| reflexivity | discriminate D].
  cbn [negb returned_true andb].
  rewrite bind_result.
  destruct (fill_application_form_returns pg a submit) as [[|] ->];
    reflexivity.
Qed.


Lemma stage_gate (P : event -> bool) (stage fail next : M bool)
  (x : event) :
  emits P stage -> P x = false -> ~ In x (trace fail) ->
  In x (trace (ok <- stage ;; if negb ok then fail else next)) ->
  run_result stage = Ret true /\ In x (trace next).
Proof.
  intros He Hx Hf H. apply in_bind in H as [H | (ok & Hok & H)].
  - apply (emits_in _ _ _ He) in H. congruence.
  - destruct ok; cbn [negb] in H; [now split | contradiction].
Qed.

Lemma stage_order
  (pg : Page) (e : Env) (a : Applicant) (headless submit : bool)
  (s : site) :
  In (Call s) (trace (run_application pg e a headless submit)) ->
  login_site_only s = true
  \/ run_result (login pg e) = Ret true
     /\ (tile_site_only s = true
         \/ run_result (navigate_to_application_management pg) = Ret true
            /\ (button_site_only s = true
                \/ run_result (initiate_new_application pg) = Ret true
                   /\ (dup_site_only s = true
                       \/ run_result
                            (fill_duplicate_check pg (dob a) (ssn4 a))
                          = Ret true
                          /\ form_site_only s = true))).
Proof.
  intros H. unfold run_application in H.
  apply in_bind in H as [[H | []] | (u & _ & H)]; [discriminate H|].
  apply in_bind in H as [[H | []] | (u' & _ & H)]; [discriminate H|].
  rewrite finally_trace in H. apply in_app_iff in H as [H | [H | []]];
    [|discriminate H].
  rewrite try_trace in H. apply in_app_iff in H as [H | H].
  2: { destruct (run_result _); [contradiction|].
       destruct H as [H | []]. discriminate H. }
  destruct (login_site_only s) eqn:S1; [now left | right].
  apply (stage_gate (only_calls login_site_only)) in H as [R1 H];
    [| apply login_only_calls | exact S1
     | intros [F | []]; discriminate F].
  split; [exact R1|].
  destruct (tile_site_only s) eqn:S2; [now left | right].
  apply (stage_gate (only_calls tile_site_only)) in H as [R2 H];
    [| apply navigate_only_calls | exact S2
     | intros [F | []]; discriminate F].
  split; [exact R2|].
  destruct (button_site_only s) eqn:S3; [now left | right].
  apply (stage_gate (only_calls button_site_only)) in H as [R3 H];
    [| apply initiate_only_calls | exact S3
     | intros [F | []]; discriminate F].
  split; [exact R3|].
  destruct (dup_site_only s) eqn:S4; [now left | right].
  apply (stage_gate (only_calls dup_site_only)) in H as [R4 H];
    [| apply duplicate_check_only_calls | exact S4
     | intros [F | []]; discriminate F].
  split; [exact R4|].
  apply in_bind in H as [H | (ok & _ & H)].
  - apply (emits_in _ _ _ (form_only_calls pg a submit)) in H. exact H.
  - destruct ok; cbn [negb] in H.
    + destruct H as [F | []]. discriminate F.
    + destruct H as [F | []]. discriminate F.
Qed.

(** X10 (run_application, navigate_to_application_management).  The pipeline
    is fail-fast: a stage talks to the page only when every stage before it
    has returned [True].  A call of the first navigation step means [login]
    returned [True]; a call of the second one means the first returned
    [True] as well; and so on up to the form. *)
Theorem a_stage_runs_only_after_the_earlier_ones_succeeded
  (pg : Page) (e : Env) (a : Applicant) (headless submit : bool)
  (s : site) :
  In (Call s) (trace (run_application pg e a headless submit)) ->
  login_site_only s = true
  \/ run_result (login pg e) = Ret true
     /\ (tile_site_only s = true
         \/ run_result (navigate_to_application_management pg) = Ret true
            /\ (button_site_only s = true
                \/ run_result (initiate_new_application pg) = Ret true
                   /\ (dup_site_only s = true
                       \/ run_result
                            (fill_duplicate_check pg (dob a) (ssn4 a))
                          = Ret true
                          /\ form_site_only s = true))).
Proof. exact (stage_order pg e a headless submit s). Qed.

Lemma a_stage_runs_only_after_witness :
  run_result (login calm_page good_env) = Ret true
  /\ run_result (navigate_to_application_management calm_page) = Ret true.
Proof.
  destruct (a_stage_runs_only_after_the_earlier_ones_succeeded
              calm_page good_env test_applicant true false
              (InNav (IVisible "text=Initiate a New Badge Application")))
    as [F | (H1 & [F | (H2 & _)])].
  - vm_compute. repeat first [left; reflexivity | right].
  - discriminate F.
  - discriminate F.
  - split; assumption.
Defined.

(** X11 (fill_duplicate_check, run_application, run_apply).  A hire whose
    formatted date of birth does not parse (a null or empty date, a date
    whose groups are not numerals) can never be submitted: whatever the
    portal does, the run of this applicant returns [False], the form is
    never touched, and the repository is not told that the request was sent. *)
Theorem unparseable_date_never_reaches_the_form
  (w : World) (headless submit : bool) (application_id : option pystr)
  (all_pending : bool) (k : nat) (i : pystr) (record : Submission)
  (a : Applicant) :
  applicant_of_run w application_id all_pending k = Some (i, record) ->
  format_applicant_for_bot record = Ret a ->
  returned (parse_dob (dob a)) = false ->
  run_result (run_application (page w k) (env w) a headless submit)
  = Ret false
  /\ (forall f,
        ~ In (Call (InForm f))
            (trace (run_application (page w k) (env w) a headless submit)))
  /\ ~ In (MarkSent k i)
         (trace (run_apply w headless submit application_id all_pending)).
Proof.
  intros Hk Hf Hp.
  assert (D : run_result (fill_duplicate_check (page w k) (dob a) (ssn4 a))
              = Ret false).
  { rewrite duplicate_check_result_eq, Hp.
    now rewrite !andb_false_r. }
  assert (R : run_result
                (run_application (page w k) (env w) a headless submit)
              = Ret false).
  { rewrite run_application_result_eq, D. cbn [returned_true].
    now rewrite !andb_false_r. }
  split; [exact R|]. split.
  - intros f H. apply stage_order in H.
    destruct H as [F | (_ & [F | (_ & [F | (_ & [F | (H & _)])])])];
      try discriminate F.
    congruence.
  - intros H.
    apply mark_sent_characterisation in H
      as (_ & r & Hr & a' & Fa & _ & Ra).
    rewrite Hk in Hr. injection Hr as <-.
    rewrite Hf in Fa. injection Fa as <-. congruence.
Qed.

Lemma unparseable_date_witness :
  run_result (run_application calm_page good_env
                {| a_first_name := Some (lit "Test");
                   a_last_name := Some (lit "User");
                   a_middle_name := [];
                   dob := [];
                   ssn4 := Some (lit "1234");
                   email := Some (lit "test@example.com");
                   phone := [];
                   submission_id := lit "n" |} true true) = Ret false
  /\ ~ In (MarkSent 0 (lit "n"))
         (trace (run_apply batch_without_dob true true None true)).
Proof.
  destruct (unparseable_date_never_reaches_the_form batch_without_dob
              true true None true 0 (lit "n") hire_without_dob _
              eq_refl eq_refl eq_refl) as (H1 & _ & H3).
  split; [exact H1 | exact H3].
Defined.

(** ** Browser sessions of a run *)

Section SessionFacts.

Variable w : World.
Variables headless submit : bool.

Lemma session_events_of_one_run (k : nat) (a : Applicant) :
  filter is_session_event
    (Info "Processing"
     :: List.map (At k)
          (trace (run_application (page w k) (env w) a headless submit)))
  = [At k (Launch headless); At k Close].
Proof.
  destruct (run_application_trace_shape (page w k) (env w) a headless submit)
    as (body & -> & Hb).
  cbn [List.map filter is_session_event is_launch is_close orb].
  f_equal. rewrite map_app, filter_app. cbn [List.map filter].
  cbn [is_session_event is_launch is_close orb].
  replace (filter is_session_event (List.map (At k) body)) with
    (@nil run_event); [reflexivity|].
  symmetry. induction body as [|x body IH]; [reflexivity|].
  cbn [forallb] in Hb. apply andb_true_iff in Hb as [Hx Hb].
  cbn [List.map filter]. rewrite (IH Hb).
  destruct x; try discriminate Hx; reflexivity.
Qed.

Lemma sessions_in_turn_cons (k n : nat) :
  sessions_in_turn headless k (S n)
  = At k (Launch headless) :: At k Close :: sessions_in_turn headless (S k) n.
Proof. reflexivity. Qed.

Lemma process_records_sessions (records : list Submission) :
  forall k0 s f,
  exists n,
    (n <= List.length records)%nat
    /\ filter is_session_event
         (trace (process_records w headless submit k0 records s f))
       = sessions_in_turn headless k0 n
    /\ (returned (run_result
                    (process_records w headless submit k0 records s f))
        = true -> n = List.length records).
Proof.
  induction records as [|r rest IH]; intros k0 s f.
  { exists 0%nat. repeat split. cbn. lia. }
  rewrite process_records_cons.
  destruct (format_applicant_for_bot r) as [a | x].
  2: { exists 0%nat. repeat split; [cbn; lia | discriminate]. }
  cbv zeta.
  destruct (run_application_returns (page w k0) (env w) a headless submit)
    as [success ->].
  pose proof (session_events_of_one_run k0 a) as One.
  destruct (success && submit).
  - destruct (mark_result w k0) as [b | x].
    + destruct (IH (S k0) (S s) f) as (n & Hn & Ht & Hr).
      exists (S n). cbn [trace snd run_result fst List.length].
      split; [lia|]. split.
      * rewrite filter_app, One. cbn [filter is_session_event is_launch
          is_close orb app]. now rewrite Ht.
      * intros H. now rewrite (Hr H).
    + exists 1%nat. cbn [trace snd run_result fst List.length].
      split; [lia|]. split; [|discriminate].
      rewrite filter_app, One. reflexivity.
  - destruct (negb success).
    + destruct (IH (S k0) s (S f)) as (n & Hn & Ht & Hr).
      exists (S n). cbn [trace snd run_result fst List.length].
      split; [lia|]. split.
      * rewrite filter_app, One. cbn [filter is_session_event is_launch
          is_close orb app]. now rewrite Ht.
      * intros H. now rewrite (Hr H).
    + destruct (IH (S k0) s f) as (n & Hn & Ht & Hr).
      exists (S n). cbn [trace snd run_result fst List.length].
      split; [lia|]. split.
      * rewrite filter_app, One. cbn [app]. now rewrite Ht.
      * intros H. now rewrite (Hr H).
Qed.

End SessionFacts.

Lemma run_apply_sessions
  (w : World) (headless submit : bool) (application_id : option pystr)
  (all_pending : bool) :
  exists n,
    filter is_session_event
      (trace (run_apply w headless submit application_id all_pending))
    = sessions_in_turn headless 0 n
    /\ (forall records,
          truthy application_id = false -> all_pending = true ->
          get_pending_airport_applications w = Ret records ->
          (n <= List.length records)%nat
          /\ (run_result (run_apply w headless submit application_id
                            all_pending) = Ret tt ->
              n = List.length records)).
Proof.
  destruct (truthy application_id) eqn:TA.
  - rewrite (run_apply_by_id_trace w headless submit _ all_pending TA).
    destruct (get_application_by_id w (or_empty application_id))
      as [[r |] | x].
    2: { exists 0%nat. split; [reflexivity | discriminate]. }
    2: { exists 0%nat. split; [reflexivity | discriminate]. }
    destruct (format_applicant_for_bot r) as [a | x].
    2: { exists 0%nat. split; [reflexivity | discriminate]. }
    cbv zeta. exists 1%nat. split; [|discriminate].
    destruct (run_application_trace_shape (page w 0) (env w) a headless
                submit) as (body & -> & Hb).
    cbn [filter is_session_event is_launch is_close orb List.map app].
    rewrite !filter_app, map_app, filter_app.
    cbn [filter List.map is_session_event is_launch is_close orb].
    replace (filter is_session_event (List.map (At 0%nat) body)) with
      (@nil run_event).
    2: { symmetry. clear - Hb. induction body as [|x body IH];
           [reflexivity|].
         cbn [forallb] in Hb. apply andb_true_iff in Hb as [Hx Hb].
         cbn [List.map filter]. rewrite (IH Hb).
         destruct x; try discriminate Hx; reflexivity. }
    cbn [app]. do 2 f_equal.
    destruct (returned_true _ && submit).
    + destruct (mark_result w 0); reflexivity.
    + destruct (returned_true _); reflexivity.
  - destruct all_pending.
    2: { exists 0%nat. unfold run_apply. rewrite TA.
         split; [reflexivity | discriminate]. }
    destruct (get_pending_airport_applications w) as [records | x] eqn:G.
    2: { exists 0%nat. unfold run_apply. rewrite TA, G.
         split; [reflexivity | discriminate]. }
    pose proof (run_apply_all_trace w headless submit _ records TA G) as T.
    destruct records as [|r0 rest].
    { exists 0%nat. rewrite T. split; [reflexivity|].
      intros records _ _ E. injection E as <-. cbn. split; [lia | reflexivity]. }
    rewrite T. cbv zeta.
    destruct (process_records_sessions w headless submit (r0 :: rest) 0 0 0)
      as (n & Hn & Ht & Hr).
    exists n. split.
    + cbn [filter is_session_event is_launch is_close orb].
      rewrite filter_app, Ht.
      destruct (run_result _) as [c | x]; cbn [filter is_session_event
        is_launch is_close orb]; now rewrite app_nil_r.
    + intros records _ _ E. injection E as <-. split; [exact Hn|].
      intros R. apply Hr.
      unfold run_apply in R. rewrite TA, G in R.
      rewrite bind_returned in R. cbn [run_result fst] in R.
      unfold info, emit in R. rewrite bind_returned in R.
      cbn [run_result fst] in R. rewrite bind_result in R.
      destruct (run_result (process_records w headless submit 0
                              (r0 :: rest) 0 0)); [reflexivity|].
      discriminate R.
Qed.


(** ** What a run does, and for whom *)

Section BatchFacts.

Variable w : World.
Variables headless submit : bool.

Lemma process_records_sessions_for_records (records : list Submission) :
  forall k0 s f k ev,
    In (At k ev) (trace (process_records w headless submit k0 records s f)) ->
    exists j r a,
      k = (k0 + j)%nat /\ nth_error records j = Some r
      /\ format_applicant_for_bot r = Ret a.
Proof.
  induction records as [|r0 rest IH]; intros k0 s f k ev H; [destruct H|].
  rewrite process_records_cons in H.
  destruct (format_applicant_for_bot r0) as [a0 | x] eqn:F; [|destruct H].
  cbv zeta in H.
  destruct (run_application_returns (page w k0) (env w) a0 headless submit)
    as [success R].
  rewrite R in H.
  assert (Here : exists j r a,
             k0 = (k0 + j)%nat /\ nth_error (r0 :: rest) j = Some r
             /\ format_applicant_for_bot r = Ret a).
  { exists 0%nat, r0, a0. rewrite Nat.add_0_r. now repeat split. }
  assert (Later : forall s' f',
    In (At k ev) (trace (process_records w headless submit (S k0) rest s' f'))
    -> exists j r a,
         k = (k0 + j)%nat /\ nth_error (r0 :: rest) j = Some r
         /\ format_applicant_for_bot r = Ret a).
  { intros s' f' H'. apply IH in H' as (j & r & a & -> & Hn & Fa).
    exists (S j), r, a. rewrite Nat.add_succ_r. now repeat split. }
  destruct (success && submit).
  - destruct (mark_result w k0) as [b | x]; cbn [trace snd] in H;
      apply in_app_iff in H as [H | H].
    + apply in_session_events in H as [-> _]. exact Here.
    + destruct H as [H | [H | H]]; [discriminate H | discriminate H|].
      now apply Later in H.
    + apply in_session_events in H as [-> _]. exact Here.
    + destruct H as [H | []]. discriminate H.
  - destruct (negb success); cbn [trace snd] in H;
      apply in_app_iff in H as [H | H].
    + apply in_session_events in H as [-> _]. exact Here.
    + destruct H as [H | H]; [discriminate H | now apply Later in H].
    + apply in_session_events in H as [-> _]. exact Here.
    + now apply Later in H.
Qed.

Lemma process_records_no_summary (records : list Submission) :
  forall k0 s f s' f',
    ~ In (Summary s' f')
        (trace (process_records w headless submit k0 records s f)).
Proof.
  induction records as [|r0 rest IH]; intros k0 s f s' f' H; [destruct H|].
  rewrite process_records_cons in H.
  destruct (format_applicant_for_bot r0) as [a0 | x]; [|destruct H].
  cbv zeta in H.
  destruct (run_application_returns (page w k0) (env w) a0 headless submit)
    as [success R].
  rewrite R in H.
  assert (Head : ~ In (Summary s' f')
                   (Info "Processing"
                    :: List.map (At k0)
                         (trace (run_application (page w k0) (env w) a0
                                   headless submit)))).
  { intros [F | F]; [discriminate F|].
    apply in_map_iff in F as (x & Fx & _). discriminate Fx. }
  destruct (success && submit).
  - destruct (mark_result w k0) as [b | x]; cbn [trace snd] in H;
      apply in_app_iff in H as [H | H]; try contradiction.
    + destruct H as [H | [H | H]]; [discriminate H | discriminate H|].
      now apply IH in H.
    + destruct H as [H | []]. discriminate H.
  - destruct (negb success); cbn [trace snd] in H;
      apply in_app_iff in H as [H | H]; try contradiction.
    + destruct H as [H | H]; [discriminate H | now apply IH in H].
    + now apply IH in H.
Qed.

End BatchFacts.

(** X13 (run_apply).  A browser session is opened only for an applicant the
    run has fetched and could format: with neither an id nor the all flag,
    with an unknown id, with a failing or empty fetch of the pending list,
    no session is opened at all. *)
Theorem sessions_only_for_fetched_applicants
  (w : World) (headless submit : bool) (application_id : option pystr)
  (all_pending : bool) (k : nat) (ev : event) :
  In (At k ev)
     (trace (run_apply w headless submit application_id all_pending)) ->
  exists i r a,
    applicant_of_run w application_id all_pending k = Some (i, r)
    /\ format_applicant_for_bot r = Ret a.
Proof.
  unfold applicant_of_run.
  destruct (truthy application_id) eqn:TA.
  - rewrite (run_apply_by_id_trace w headless submit _ all_pending TA).
    destruct (get_application_by_id w (or_empty application_id))
      as [[r |] | x].
    2: { intros [H | [H | []]]; discriminate H. }
    2: { intros [H | []]; discriminate H. }
    destruct (format_applicant_for_bot r) as [a | x] eqn:F.
    2: { intros [H | []]; discriminate H. }
    cbv zeta. intros [H | [H | H]]; [discriminate H | discriminate H|].
    apply in_app_iff in H as [H | H].
    + apply in_map_iff in H as (x & Hx & _). injection Hx as <- _.
      exists (or_empty application_id), r, a. now split.
    + exfalso. destruct (returned_true _ && submit).
      * destruct H as [H | H]; [discriminate H|].
        destruct (mark_result w 0); [|contradiction].
        destruct H as [H | []]. discriminate H.
      * destruct (returned_true _); [contradiction|].
        destruct H as [H | []]. discriminate H.
  - destruct all_pending.
    2: { unfold run_apply. rewrite TA. intros []. }
    destruct (get_pending_airport_applications w) as [records | x] eqn:G.
    2: { unfold run_apply. rewrite TA, G. intros [H | []]. discriminate H. }
    rewrite (run_apply_all_trace w headless submit _ records TA G).
    destruct records as [|r0 rest].
    { intros [H | [H | [H | []]]]; discriminate H. }
    cbv zeta. intros H.
    apply session_event_in_batch in H; try discriminate.
    apply process_records_sessions_for_records in H
      as (j & r & a & -> & Hn & Fa).
    cbn [Nat.add]. rewrite Hn. exists (id r), r, a. now split.
Qed.

Lemma sessions_only_for_fetched_witness :
  exists i r a,
    applicant_of_run batch_of_three None true 2 = Some (i, r)
    /\ format_applicant_for_bot r = Ret a.
Proof.
  apply (sessions_only_for_fetched_applicants batch_of_three true false
           None true 2 (Launch true)).
  vm_compute. repeat first [left; reflexivity | right].
Defined.

(** X14 (run_apply).  When a summary is printed, the run was a batch over a
    non-empty list of pending records that ran to its end, the failed count
    is the number of pipelines that did not succeed, and with the submit
    flag the success count is the number of pipelines that succeeded. *)
Theorem printed_summary_counts
  (w : World) (headless submit : bool) (application_id : option pystr)
  (all_pending : bool) (s f : nat) :
  In (Summary s f)
     (trace (run_apply w headless submit application_id all_pending)) ->
  exists records,
    truthy application_id = false /\ all_pending = true
    /\ get_pending_airport_applications w = Ret records
    /\ records <> []
    /\ run_result (run_apply w headless submit application_id all_pending)
       = Ret tt
    /\ (f + successes w headless submit 0 records
        = List.length records)%nat
    /\ (submit = true -> s = successes w headless submit 0 records).
Proof.
  destruct (truthy application_id) eqn:TA.
  - rewrite (run_apply_by_id_trace w headless submit _ all_pending TA).
    destruct (get_application_by_id w (or_empty application_id))
      as [[r |] | x].
    2: { intros [H | [H | []]]; discriminate H. }
    2: { intros [H | []]; discriminate H. }
    destruct (format_applicant_for_bot r) as [a | x].
    2: { intros [H | []]; discriminate H. }
    cbv zeta. intros [H | [H | H]]; [discriminate H | discriminate H|].
    exfalso. apply in_app_iff in H as [H | H].
    + apply in_map_iff in H as (x & Hx & _). discriminate Hx.
    + destruct (returned_true _ && submit).
      * destruct H as [H | H]; [discriminate H|].
        destruct (mark_result w 0); [|contradiction].
        destruct H as [H | []]. discriminate H.
      * destruct (returned_true _); [contradiction|].
        destruct H as [H | []]. discriminate H.
  - destruct all_pending.
    2: { unfold run_apply. rewrite TA. intros []. }
    destruct (get_pending_airport_applications w) as [records | x] eqn:G.
    2: { unfold run_apply. rewrite TA, G. intros [H | []]. discriminate H. }
    rewrite (run_apply_all_trace w headless submit _ records TA G).
    destruct records as [|r0 rest].
    { intros [H | [H | [H | []]]]; discriminate H. }
    cbv zeta. intros [H | [H | H]]; [discriminate H | discriminate H|].
    apply in_app_iff in H as [H | H].
    { now apply process_records_no_summary in H. }
    destruct (run_result (process_records w headless submit 0 (r0 :: rest)
                            0 0)) as [[s' f'] | x] eqn:R; [|destruct H].
    destruct H as [H | []]. injection H as <- <-.
    destruct (batch_counts _ _ _ _ _ _ _ _ _ R) as [Rs Rf].
    exists (r0 :: rest). repeat split; try discriminate.
    + unfold run_apply. rewrite TA, G.
      rewrite bind_returned. cbn [run_result fst].
      unfold info, emit. rewrite bind_returned. cbn [run_result fst].
      now rewrite bind_result, R.
    + exact Rf.
    + intros ->. cbn [fst] in Rs. exact Rs.
Qed.

Lemma printed_summary_witness :
  exists records,
    truthy None = false /\ true = true
    /\ get_pending_airport_applications batch_of_three = Ret records
    /\ records <> []
    /\ run_result (run_apply batch_of_three true true None true) = Ret tt
    /\ (1 + successes batch_of_three true true 0 records
        = List.length records)%nat
    /\ (true = true -> 2%nat = successes batch_of_three true true 0 records).
Proof.
  apply (printed_summary_counts batch_of_three true true None true 2 1).
  vm_compute. repeat first [left; reflexivity | right].
Defined.

(** X15 (fill_application_form, run_apply).  An explicit error that is
    flagged (its pattern matches with more than five characters and its
    screenshot is taken) is never reported as a submission: the form stage
    and the applicant's run return [False] whatever the success heuristics
    would show, and the repository is not told that the request was sent. *)
Theorem flagged_error_is_never_marked_sent
  (w : World) (headless : bool) (application_id : option pystr)
  (all_pending : bool) (k : nat) (sel : string) :
  In sel error_selectors ->
  error_flagged (page w k) sel = true ->
  (forall a,
      run_result (fill_application_form (page w k) a true) = Ret false
      /\ run_result (run_application (page w k) (env w) a headless true)
         = Ret false)
  /\ forall i,
       ~ In (MarkSent k i)
           (trace (run_apply w headless true application_id all_pending)).
Proof.
  intros Hin Hf.
  assert (F : forall a,
             run_result (fill_application_form (page w k) a true)
             = Ret false).
  { apply flagged_error_overrides_success. now exists sel. }
  assert (R : forall a,
             run_result (run_application (page w k) (env w) a headless true)
             = Ret false).
  { intros a. rewrite run_application_result_eq, (F a).
    cbn [returned_true]. now rewrite andb_false_r. }
  split; [intros a; split; [apply F | apply R]|].
  intros i H.
  apply mark_sent_characterisation in H as (_ & r & _ & a & _ & _ & Ra).
  rewrite R in Ra. discriminate Ra.
Qed.

Lemma flagged_error_witness :
  run_result (fill_application_form rejected_page test_applicant true)
  = Ret false
  /\ ~ In (MarkSent 0 (lit "a"))
         (trace (run_apply (world_of good_env [hire_a] (fun _ => rejected_page))
                   true true None true)).
Proof.
  destruct (flagged_error_is_never_marked_sent
              (world_of good_env [hire_a] (fun _ => rejected_page))
              true None true 0 "text=already exists") as [H1 H2].
  - left. reflexivity.
  - reflexivity.
  - split; [apply (H1 test_applicant) | apply H2].
Defined.

(** ** Loops over candidate selectors *)

Section LoopFacts.

Context {E X : Type}.
Variable body : X -> Eff E bool.

(** The loop is left at the first candidate whose body returns [True]:
    the candidates after it play no role. *)
Lemma for_try_stops_at_first_hit (before after : list X) (x : X) :
  run_result (body x) = Ret true ->
  for_try (before ++ x :: after) body = for_try (before ++ [x]) body.
Proof.
  intros Hx. induction before as [|b before IH]; cbn [app for_try].
  - destruct (body x) as [r t]. cbn [run_result fst] in Hx. subst r.
    reflexivity.
  - now rewrite IH.
Qed.

Lemma in_for_try (xs : list X) (e : E) :
  In e (trace (for_try xs body)) ->
  exists y, In y xs /\ In e (trace (body y)).
Proof.
  induction xs as [|x xs IH]; cbn [for_try]; [intros []|].
  intros H. apply in_bind in H as [H | (r & _ & H)].
  - rewrite try_trace in H. apply in_app_iff in H as [H | H].
    + exists x. split; [now left | exact H].
    + destruct (run_result (body x)); destruct H.
  - destruct r; [destruct H|].
    apply IH in H as (y & Hy & H). exists y. split; [now right | exact H].
Qed.

Lemma emits_for_try_in (P : E -> bool) (xs : list X) :
  (forall x, In x xs -> emits P (body x)) -> emits P (for_try xs body).
Proof.
  intros H. unfold emits. apply forallb_forall. intros e He.
  apply in_for_try in He as (y & Hy & He).
  exact (emits_in _ _ _ (H y Hy) He).
Qed.

End LoopFacts.

(** X16 (initiate_new_application).  [initiate_new_application] returns
    [True] exactly when one of the four candidate buttons is visible and its
    click and the wait after it return; it never raises.  A button is
    clicked only when it was reported visible, and once a candidate has
    succeeded the candidates listed after it are not touched. *)
Theorem initiate_clicks_the_first_button_that_works (pg : Page) :
  run_result (initiate_new_application pg)
  = Ret (existsb (button_opens pg) btn_selectors)
  /\ (forall sel,
        In (Call (InNav (IClick sel))) (trace (initiate_new_application pg))
        -> ask pg (InNav (IVisible sel)) = Ret true)
  /\ (forall before win after sel,
        btn_selectors = (before ++ win :: after)%list ->
        button_opens pg win = true ->
        ~ In sel (before ++ [win])%list ->
        forall e, In e (trace (initiate_new_application pg)) ->
                  not_on_button sel e = true).
Proof.
  split; [apply initiate_result|]. split.
  - intros sel H. unfold initiate_new_application in H.
    apply in_bind in H as [[H | []] | (u & _ & H)]; [discriminate H|].
    apply in_bind in H as [H | (c & _ & H)].
    2: { destruct c; [destruct H|]. destruct H as [H | []]. discriminate H. }
    apply in_for_try in H as (y & _ & H).
    unfold do_ask, do_act in H.
    destruct (ask pg (InNav (IVisible y))) as [[|] | x] eqn:V;
      cbn in H.
    + destruct (act pg (InNav (IClick y))) as [[] | x]; cbn in H.
      * destruct (act pg (InNav (ILoad y))) as [[] | x]; cbn in H;
          repeat (destruct H as [H | H];
                  [try discriminate H; injection H as <-; exact V|]);
          destruct H.
      * repeat (destruct H as [H | H];
                [try discriminate H; injection H as <-; exact V|]);
          destruct H.
    + destruct H as [H | []]. discriminate H.
    + destruct H as [H | []]. discriminate H.
  - intros before win after sel Hs Hw Hn.
    assert (Em : emits (not_on_button sel) (initiate_new_application pg)).
    { unfold initiate_new_application.
      apply emits_bind; [apply emits_emit; reflexivity | intros _].
      apply emits_bind.
      - rewrite Hs, for_try_stops_at_first_hit.
        2: { pose proof (button_body_result pg win) as B.
             rewrite Hw in B.
             match type of B with
             | returned_true ?r = true => destruct r as [[|] | x]
             end; [reflexivity | discriminate B | discriminate B]. }
        apply emits_for_try_in. intros y Hy.
        assert (Ny : String.eqb y sel = false).
        { apply String.eqb_neq. intros ->. contradiction. }
        unfold emits, do_ask, do_act.
        destruct (ask pg (InNav (IVisible y))) as [[|] | x]; cbn;
          rewrite ?Ny; try reflexivity.
        destruct (act pg (InNav (IClick y))) as [[] | x]; cbn;
          rewrite ?Ny; try reflexivity.
        destruct (act pg (InNav (ILoad y))) as [[] | x]; cbn;
          rewrite ?Ny; reflexivity.
      - intros [|]; [apply emits_ret|].
        apply emits_bind; [apply emits_emit; reflexivity | intros _].
        apply emits_ret. }
    intros e He. exact (emits_in _ _ _ Em He).
Qed.

Lemma initiate_witness :
  not_on_button "text=Initiate"
    (Call (InNav (IClick "text=Initiate a New Badge Application"))) = true
  /\ ask calm_page (InNav (IVisible "text=Initiate a New Badge Application"))
     = Ret true.
Proof.
  destruct (initiate_clicks_the_first_button_that_works calm_page)
    as (_ & H2 & H3).
  split.
  - apply (H3 [] "text=Initiate a New Badge Application"
              ["text=Initiate a New Badge";
               "a:has-text('Initiate a New Badge')"; "text=Initiate"]
              "text=Initiate" eq_refl eq_refl).
    + intros [F | []]. discriminate F.
    + vm_compute. repeat first [left; reflexivity | right].
  - apply H2. vm_compute. repeat first [left; reflexivity | right].
Defined.

(** ** The checkbox methods *)

Section CheckboxMethodFacts.

Variable pg : Page.

Lemma click_checkbox_methods :
  click_checkbox pg =
  (c <- checkbox_method_1 pg ;;
   c <- (if negb c then checkbox_method_2 pg else ret true) ;;
   c <- (if negb c then checkbox_method_3 pg else ret true) ;;
   c <- (if negb c then checkbox_method_4 pg else ret true) ;;
   if negb c then checkbox_method_5 pg else ret true).
Proof. reflexivity. Qed.

Lemma checkbox_method_result (k : nat) :
  run_result (checkbox_method pg k) = Ret (method_succeeded pg k).
Proof.
  destruct k as [|[|[|[|[|[|k]]]]]]; try reflexivity;
    cbn [checkbox_method method_succeeded];
    unfold checkbox_method_1, checkbox_method_2, checkbox_method_3,
      checkbox_method_4, checkbox_method_5, do_ask, do_act, do_attr.
  - destruct (ask pg (InForm Cb1Visible)) as [[|] | x]; try reflexivity.
    destruct (act pg (InForm Cb1Scroll)) as [[] | x]; [|reflexivity].
    destruct (act pg (InForm Cb1Click)) as [[] | x]; reflexivity.
  - destruct (ask pg (InForm Cb2Visible)) as [[|] | x]; try reflexivity.
    destruct (act pg (InForm Cb2Scroll)) as [[] | x]; [|reflexivity].
    destruct (attr pg (InForm Cb2Class)) as [c | x]; [|reflexivity].
    rewrite try_result, !bind_returned. cbn [run_result fst].
    destruct (contains checked_marker (or_empty c)); [reflexivity|].
    destruct (act pg (InForm Cb2Click)) as [[] | x]; reflexivity.
  - destruct (ask pg (InForm Cb3Visible)) as [[|] | x]; try reflexivity.
    destruct (act pg (InForm Cb3Scroll)) as [[] | x]; [|reflexivity].
    destruct (act pg (InForm Cb3Click)) as [[] | x]; reflexivity.
  - destruct (act pg (InForm Cb4Script)) as [[] | x]; reflexivity.
  - destruct (ask pg (InForm Cb5Box)) as [[|] | x]; try reflexivity.
    destruct (act pg (InForm Cb5Mouse)) as [[] | x]; reflexivity.
Qed.

Lemma checkbox_method_calls (k : nat) :
  emits (in_method k) (checkbox_method pg k).
Proof.
  destruct k as [|[|[|[|[|[|k]]]]]]; try apply emits_ret;
    cbn [checkbox_method];
    unfold checkbox_method_1, checkbox_method_2, checkbox_method_3,
      checkbox_method_4, checkbox_method_5;
    emits_go.
Qed.

(** The container is clicked in method 2 only after its class attribute
    was read and did not carry the checked marker. *)
Lemma container_click_after_unchecked_read :
  In (Call (InForm Cb2Click)) (trace (checkbox_method_2 pg)) ->
  exists c, attr pg (InForm Cb2Class) = Ret c
            /\ contains checked_marker (or_empty c) = false.
Proof.
  unfold checkbox_method_2, do_ask, do_act, do_attr.
  destruct (ask pg (InForm Cb2Visible)) as [[|] | x].
  - destruct (act pg (InForm Cb2Scroll)) as [[] | x].
    + destruct (attr pg (InForm Cb2Class)) as [c | x].
      * rewrite try_trace, !bind_returned.
        cbn [run_result trace fst snd].
        destruct (contains checked_marker (or_empty c)) eqn:C.
        -- cbn. intros H.
           repeat (destruct H as [H | H]; [discriminate H|]). destruct H.
        -- intros _. now exists c.
      * cbn. intros H.
        repeat (destruct H as [H | H]; [discriminate H|]). destruct H.
    + cbn. intros H.
      repeat (destruct H as [H | H]; [discriminate H|]). destruct H.
  - cbn. intros H.
    repeat (destruct H as [H | H]; [discriminate H|]). destruct H.
  - cbn. intros H.
    repeat (destruct H as [H | H]; [discriminate H|]). destruct H.
Qed.

(** How the methods follow one another: the trace of [click_checkbox] is
    that of method 1, then, as long as no method has succeeded, those of
    the next ones. *)
Lemma click_checkbox_shape :
  click_checkbox pg =
  (Ret (existsb (method_succeeded pg) [1; 2; 3; 4; 5]%nat),
   trace (checkbox_method pg 1) ++
   if method_succeeded pg 1 then [] else
   trace (checkbox_method pg 2) ++
   if method_succeeded pg 2 then [] else
   trace (checkbox_method pg 3) ++
   if method_succeeded pg 3 then [] else
   trace (checkbox_method pg 4) ++
   if method_succeeded pg 4 then [] else
   trace (checkbox_method pg 5)).
Proof.
  rewrite click_checkbox_methods.
  pose proof (checkbox_method_result 1) as R1.
  pose proof (checkbox_method_result 2) as R2.
  pose proof (checkbox_method_result 3) as R3.
  pose proof (checkbox_method_result 4) as R4.
  pose proof (checkbox_method_result 5) as R5.
  cbn [checkbox_method] in *. cbn [existsb].
  destruct (checkbox_method_1 pg) as [r1 t1].
  destruct (checkbox_method_2 pg) as [r2 t2].
  destruct (checkbox_method_3 pg) as [r3 t3].
  destruct (checkbox_method_4 pg) as [r4 t4].
  destruct (checkbox_method_5 pg) as [r5 t5].
  cbn [run_result fst] in *. subst r1 r2 r3 r4 r5.
  cbn [trace snd].
  destruct (method_succeeded pg 1); cbn [bind ret negb orb app];
    [now rewrite ?app_nil_r|].
  destruct (method_succeeded pg 2); cbn [bind ret negb orb app];
    [now rewrite ?app_nil_r|].
  destruct (method_succeeded pg 3); cbn [bind ret negb orb app];
    [now rewrite ?app_nil_r|].
  destruct (method_succeeded pg 4); cbn [bind ret negb orb app];
    [now rewrite ?app_nil_r|].
  destruct (method_succeeded pg 5); cbn [bind ret negb orb app];
    now rewrite ?app_nil_r.
Qed.

End CheckboxMethodFacts.

Lemma checkbox_call_in_its_method (pg : Page) (k : nat) (s : site) :
  In (Call s) (trace (checkbox_method pg k)) -> checkbox_method_of s = k.
Proof.
  intros H. pose proof (checkbox_method_calls pg k) as E.
  unfold emits in E. rewrite forallb_forall in E.
  apply E in H. now apply Nat.eqb_eq.
Qed.

(** X17 (fill_application_form).  The five ways of ticking the certification
    checkbox are tried in order and only until one of them works: the result
    is the disjunction of the methods' successes, a call of method [k] is
    made only when every earlier method failed, and the container of method
    2 is clicked only after its class attribute was read without the checked
    marker. *)
Theorem a_checkbox_method_runs_only_after_the_earlier_ones_failed
  (pg : Page) :
  run_result (click_checkbox pg)
  = Ret (existsb (method_succeeded pg) [1; 2; 3; 4; 5]%nat)
  /\ (forall s j,
        In (Call s) (trace (click_checkbox pg)) ->
        (1 <= j < checkbox_method_of s)%nat ->
        method_succeeded pg j = false)
  /\ (In (Call (InForm Cb2Click)) (trace (click_checkbox pg)) ->
      exists c, attr pg (InForm Cb2Class) = Ret c
                /\ contains checked_marker (or_empty c) = false).
Proof.
  rewrite click_checkbox_shape. cbn [run_result trace fst snd].
  split; [reflexivity|]. split.
  - intros s j H J.
    apply in_app_or in H. destruct H as [H | H];
      [apply checkbox_call_in_its_method in H; lia|].
    destruct (method_succeeded pg 1) eqn:M1; [destruct H|].
    apply in_app_or in H. destruct H as [H | H];
      [apply checkbox_call_in_its_method in H;
       assert (j = 1)%nat as -> by lia; exact M1|].
    destruct (method_succeeded pg 2) eqn:M2; [destruct H|].
    apply in_app_or in H. destruct H as [H | H];
      [apply checkbox_call_in_its_method in H;
       assert (j = 1 \/ j = 2)%nat as [-> | ->] by lia; assumption|].
    destruct (method_succeeded pg 3) eqn:M3; [destruct H|].
    apply in_app_or in H. destruct H as [H | H];
      [apply checkbox_call_in_its_method in H;
       assert (j = 1 \/ j = 2 \/ j = 3)%nat as [-> | [-> | ->]] by lia;
       assumption|].
    destruct (method_succeeded pg 4) eqn:M4; [destruct H|].
    apply checkbox_call_in_its_method in H.
    assert (j = 1 \/ j = 2 \/ j = 3 \/ j = 4)%nat
      as [-> | [-> | [-> | ->]]] by lia; assumption.
  - intros H.
    assert (forall k, k <> 2%nat ->
              ~ In (Call (InForm Cb2Click)) (trace (checkbox_method pg k)))
      as Other.
    { intros k K I. apply checkbox_call_in_its_method in I.
      cbn in I. congruence. }
    apply in_app_or in H. destruct H as [H | H];
      [now apply Other in H|].
    destruct (method_succeeded pg 1); [destruct H|].
    apply in_app_or in H. destruct H as [H | H];
      [now apply container_click_after_unchecked_read|].
    destruct (method_succeeded pg 2); [destruct H|].
    apply in_app_or in H. destruct H as [H | H];
      [now apply Other in H|].
    destruct (method_succeeded pg 3); [destruct H|].
    apply in_app_or in H. destruct H as [H | H];
      [now apply Other in H|].
    destruct (method_succeeded pg 4); [destruct H|].
    now apply Other in H.
Qed.

(** ** The order of the outcome probes *)

Section ProbeFacts.

Variable pg : Page.

Lemma error_loop_probe :
  emits (in_probe 1) (for_try error_selectors (error_check pg)).
Proof. unfold error_check. emits_go. Qed.

Lemma success_loop_probe :
  emits (in_probe 2) (for_try success_selectors (success_check pg)).
Proof. unfold success_check. emits_go. Qed.

Lemma landing_check_probe : emits (in_probe 3) (landing_check pg).
Proof. unfold landing_check. emits_go. Qed.

Lemma submit_gone_check_probe : emits (in_probe 4) (submit_gone_check pg).
Proof. unfold submit_gone_check. emits_go. Qed.

Lemma report_outcome_probe (b : bool) (s : site) :
  In (Call s) (trace (report_outcome pg b)) ->
  b = false /\ outcome_probe_of s = 5%nat.
Proof.
  unfold report_outcome, do_act. destruct b.
  - cbn. intros [H | []]. discriminate H.
  - destruct (act pg (InForm FShotUncertain)) as [[] | e]; cbn;
      intros H;
      repeat (destruct H as [H | H];
              [first [discriminate H | injection H as <-; now split]|]);
      destruct H.
Qed.

Lemma probe_of_call (k : nat) (s : site) {A : Type} (m : M A) :
  emits (in_probe k) m -> In (Call s) (trace m) -> outcome_probe_of s = k.
Proof.
  unfold emits. rewrite forallb_forall. intros E H.
  apply E in H. now apply Nat.eqb_eq.
Qed.

(** The trace of the classifier, probe by probe. *)
Lemma classify_outcome_trace :
  trace (classify_outcome pg) =
  trace (for_try error_selectors (error_check pg)) ++
  if probe_decided pg 1 then [] else
  trace (for_try success_selectors (success_check pg)) ++
  (if probe_decided pg 2 then [] else
   trace (landing_check pg) ++
   if probe_decided pg 3 then [] else trace (submit_gone_check pg)) ++
  trace (report_outcome pg
           (probe_decided pg 2 || probe_decided pg 3 || probe_decided pg 4)).
Proof.
  unfold classify_outcome. cbn [probe_decided].
  pose proof (for_try_result error_selectors (error_check pg)) as E.
  rewrite (existsb_pointwise _ _ _ (error_check_result pg)) in E.
  pose proof (for_try_result success_selectors (success_check pg)) as S.
  rewrite (existsb_pointwise _ _ _ (success_check_result pg)) in S.
  pose proof (landing_check_result pg) as L.
  pose proof (submit_gone_check_result pg) as G.
  destruct (for_try error_selectors (error_check pg)) as [re te].
  destruct (for_try success_selectors (success_check pg)) as [rs ts].
  destruct (landing_check pg) as [rl tl].
  destruct (submit_gone_check pg) as [rg tg].
  cbn [run_result fst] in *. subst re rs rl rg. cbn [trace snd].
  destruct (existsb (error_flagged pg) error_selectors);
    cbn [bind ret negb orb app snd]; [reflexivity|].
  f_equal.
  destruct (existsb (success_text_signal pg) success_selectors);
    cbn [bind ret negb orb app snd].
  - destruct (report_outcome pg true) as [r t]. cbn.
    now rewrite ?app_nil_r.
  - destruct (landing_marker pg); cbn [bind ret negb orb app snd].
    + destruct (report_outcome pg true) as [r t]. cbn.
      now rewrite ?app_nil_r, ?app_assoc.
    + destruct (report_outcome pg (submit_control_gone pg)) as [r t]. cbn.
      now rewrite ?app_nil_r, ?app_assoc.
Qed.

End ProbeFacts.

(** X18 (fill_application_form).  After the submit click the page is probed
    in a fixed order: error patterns, success patterns, page content, submit
    button, and last the screenshot of the unconfirmed case.  A probe is
    consulted only when no earlier one has decided the outcome; in
    particular no success pattern is looked for once an error is flagged. *)
Theorem an_outcome_probe_runs_only_when_the_earlier_ones_were_silent
  (pg : Page) (s : site) (j : nat) :
  In (Call s) (trace (classify_outcome pg)) ->
  (1 <= j < outcome_probe_of s)%nat ->
  probe_decided pg j = false.
Proof.
  rewrite classify_outcome_trace. intros H J.
  apply in_app_or in H. destruct H as [H | H];
    [apply (probe_of_call 1 s _ (error_loop_probe pg)) in H; lia|].
  destruct (probe_decided pg 1) eqn:P1; [destruct H|].
  apply in_app_or in H. destruct H as [H | H];
    [apply (probe_of_call 2 s _ (success_loop_probe pg)) in H;
     assert (j = 1)%nat as -> by lia; exact P1|].
  apply in_app_or in H. destruct H as [H | H].
  - destruct (probe_decided pg 2) eqn:P2; [destruct H|].
    apply in_app_or in H. destruct H as [H | H];
      [apply (probe_of_call 3 s _ (landing_check_probe pg)) in H;
       assert (j = 1 \/ j = 2)%nat as [-> | ->] by lia; assumption|].
    destruct (probe_decided pg 3) eqn:P3; [destruct H|].
    apply (probe_of_call 4 s _ (submit_gone_check_probe pg)) in H.
    assert (j = 1 \/ j = 2 \/ j = 3)%nat as [-> | [-> | ->]] by lia;
      assumption.
  - apply report_outcome_probe in H. destruct H as [B S].
    apply orb_false_iff in B. destruct B as [B P4].
    apply orb_false_iff in B. destruct B as [P2 P3].
    assert (j = 1 \/ j = 2 \/ j = 3 \/ j = 4)%nat
      as [-> | [-> | [-> | ->]]] by lia; assumption.
Qed.

Lemma an_outcome_probe_witness :
  In (Call (InForm FShotUncertain)) (trace (classify_outcome calm_page))
  /\ (1 <= 4 < outcome_probe_of (InForm FShotUncertain))%nat
  /\ probe_decided calm_page 4 = false.
Proof.
  assert (In (Call (InForm FShotUncertain))
            (trace (classify_outcome calm_page))) as H
    by (vm_compute; tauto).
  assert (1 <= 4 < outcome_probe_of (InForm FShotUncertain))%nat as J
    by (cbn; lia).
  split; [exact H|]. split; [exact J|].
  exact (an_outcome_probe_runs_only_when_the_earlier_ones_were_silent
           calm_page (InForm FShotUncertain) 4 H J).
Defined.

(** ** Autocomplete fields *)

Section AutocompleteFacts.

Variable pg : Page.
Variable f : string.

Lemma fill_autocomplete_field_parts (trigger : pystr) :
  fill_autocomplete_field pg f trigger =
  (log "[FORM] === Filling autocomplete field ===" ;;
   try_ (inp <- locate_input pg f ;;
         if negb inp then
           log "[FORM] ERROR: Could not find field" ;; ret false
         else
           do_act pg (auto f AScroll) ;;
           do_act pg (auto f AClick) ;;
           do_act pg (auto f AClear) ;;
           do_act pg (auto f AType) ;;
           choose_option pg f)
        (fun _ => log "[FORM] Autocomplete error" ;; ret false)).
Proof. reflexivity. Qed.

Ltac field_step :=
  lazymatch goal with
  | |- emits (own_field _) (do_act _ _) =>
      apply emits_one; apply String.eqb_refl
  | |- emits (own_field _) (do_ask _ _) =>
      apply emits_one; apply String.eqb_refl
  | |- emits (own_field _) (do_txt _ _) =>
      apply emits_one; apply String.eqb_refl
  | |- emits (own_field _) (do_count _ _) =>
      apply emits_one; apply String.eqb_refl
  | _ => emits_step
  end.

Ltac field_go := repeat (cbv zeta; field_step).

Lemma scan_form_fields_own (labels : list pystr) (n i : nat) (inp : bool) :
  emits (own_field f) (scan_form_fields pg f labels n i inp).
Proof.
  revert i inp. induction n as [|n IH]; intros i inp;
    cbn [scan_form_fields].
  - apply emits_ret.
  - field_go; apply IH.
Qed.

Lemma scan_form_fields_before_choice (labels : list pystr) (n i : nat)
  (inp : bool) :
  emits before_choice (scan_form_fields pg f labels n i inp).
Proof.
  revert i inp. induction n as [|n IH]; intros i inp;
    cbn [scan_form_fields].
  - apply emits_ret.
  - emits_go; apply IH.
Qed.

Lemma click_first_visible_own (opt_sel : string) (n i : nat) :
  emits (own_field f) (click_first_visible pg f opt_sel n i).
Proof.
  revert i. induction n as [|n IH]; intros i; cbn [click_first_visible].
  - apply emits_ret.
  - field_go. apply IH.
Qed.

Lemma click_first_visible_no_key (opt_sel : string) (n i : nat) :
  emits not_arrow_down (click_first_visible pg f opt_sel n i).
Proof.
  revert i. induction n as [|n IH]; intros i; cbn [click_first_visible].
  - apply emits_ret.
  - emits_go. apply IH.
Qed.

Lemma locate_input_own : emits (own_field f) (locate_input pg f).
Proof.
  unfold locate_input, locate_labelled.
  field_go; apply scan_form_fields_own.
Qed.

Lemma locate_input_before_choice : emits before_choice (locate_input pg f).
Proof.
  unfold locate_input, locate_labelled.
  emits_go; apply scan_form_fields_before_choice.
Qed.

Lemma choose_option_own : emits (own_field f) (choose_option pg f).
Proof. unfold choose_option. field_go. apply click_first_visible_own. Qed.

Lemma autocomplete_own (trigger : pystr) :
  emits (own_field f) (fill_autocomplete_field pg f trigger).
Proof.
  rewrite fill_autocomplete_field_parts.
  field_go; first [apply locate_input_own | apply choose_option_own].
Qed.

(** A click on an option that returns ends the loop over the options. *)
Lemma click_first_visible_clicked (opt_sel sel : string) (n i0 i : nat) :
  In (Call (auto f (AOptClick sel i)))
     (trace (click_first_visible pg f opt_sel n i0)) ->
  act pg (auto f (AOptClick sel i)) = Ret tt ->
  run_result (click_first_visible pg f opt_sel n i0) = Ret true.
Proof.
  revert i0. induction n as [|n IH]; intros i0 H C;
    cbn [click_first_visible] in *; [destruct H|].
  unfold do_ask, do_act in *.
  destruct (ask pg (auto f (AOptVisible opt_sel i0))) as [[|] | x].
  - destruct (act pg (auto f (AOptClick opt_sel i0))) as [[] | x] eqn:K;
      [reflexivity|].
    cbn in H.
    repeat (destruct H as [H | H];
            [first [discriminate H
                   | injection H as <- <-; rewrite K in C; discriminate C]|]).
    destruct H.
  - rewrite bind_result. cbn [run_result fst].
    rewrite bind_trace in H. cbn [trace snd run_result fst app] in H.
    destruct H as [H | H]; [discriminate H|].
    now apply IH.
  - cbn in H. destruct H as [H | []]. discriminate H.
Qed.

(** The keyboard is used only when the loop over the options was not
    left by a click. *)
Lemma choose_option_key :
  In (Call (auto f AArrowDown)) (trace (choose_option pg f)) ->
  forall opt_sel, In opt_sel option_selectors ->
    returned_true
      (run_result (n <- do_count pg (auto f (AOptions opt_sel)) ;;
                   click_first_visible pg f opt_sel n 0)) = false.
Proof.
  unfold choose_option. intros H.
  apply in_bind in H as [H | (r & R & H)].
  - exfalso.
    assert (emits not_arrow_down
              (for_try option_selectors (fun opt_sel =>
                 n <- do_count pg (auto f (AOptions opt_sel)) ;;
                 click_first_visible pg f opt_sel n 0))) as E
      by (emits_go; apply click_first_visible_no_key).
    apply (emits_in _ _ _ E) in H. discriminate H.
  - destruct r; [destruct H|].
    rewrite for_try_result in R.
    intros opt_sel I. apply Bool.not_true_iff_false. intros B.
    match type of R with
    | Ret (existsb ?F ?l) = _ =>
        assert (existsb F l = true) as X
          by (apply existsb_exists; exists opt_sel; split; assumption)
    end.
    rewrite X in R. discriminate R.
Qed.

Lemma choose_option_click (sel : string) (i : nat) :
  In (Call (auto f (AOptClick sel i))) (trace (choose_option pg f)) ->
  exists opt_sel n,
    In opt_sel option_selectors
    /\ count pg (auto f (AOptions opt_sel)) = Ret n
    /\ In (Call (auto f (AOptClick sel i)))
          (trace (click_first_visible pg f opt_sel n 0)).
Proof.
  unfold choose_option. intros H.
  apply in_bind in H as [H | (r & R & H)].
  - apply in_for_try in H as (opt_sel & I & H).
    apply in_bind in H as [H | (n & N & H)].
    + destruct H as [H | []]. discriminate H.
    + exists opt_sel, n. now repeat split.
  - destruct r; [destruct H|]. unfold do_act in H.
    destruct (act pg (auto f AArrowDown)) as [[] | x];
      [destruct (act pg (auto f AEnter)) as [[] | x]|];
      cbn in H;
      repeat (destruct H as [H | H]; [discriminate H|]); destruct H.
Qed.

(** Events of the choice of an option are events of [choose_option]. *)
Lemma autocomplete_choice (trigger : pystr) (e : event) :
  before_choice e = false ->
  In e (trace (fill_autocomplete_field pg f trigger)) ->
  In e (trace (choose_option pg f)).
Proof.
  intros B H. rewrite fill_autocomplete_field_parts in H.
  apply in_bind in H as [H | (u & _ & H)].
  { destruct H as [<- | []]. discriminate B. }
  rewrite try_trace in H. apply in_app_iff in H as [H | H].
  2: { destruct (run_result _); [destruct H|].
       destruct H as [<- | []]. discriminate B. }
  apply in_bind in H as [H | (inp & _ & H)].
  { apply (emits_in _ _ _ locate_input_before_choice) in H. congruence. }
  destruct inp; cbn [negb] in H.
  2: { destruct H as [<- | []]. discriminate B. }
  repeat (apply in_bind in H as [H | (? & _ & H)];
          [destruct H as [<- | []]; discriminate B|]).
  exact H.
Qed.

End AutocompleteFacts.

(** X19 (fill_autocomplete_field).  The function never raises and talks to
    the page about its own field only; for a field name other than the three
    it knows it returns [False] without any page call; and the keyboard
    fallback is used only when no click on an option went through. *)
Theorem autocomplete_falls_back_to_the_keyboard_only_without_a_click
  (pg : Page) (f : string) (trigger : pystr) :
  (exists b, run_result (fill_autocomplete_field pg f trigger) = Ret b)
  /\ (forall s,
        In (Call s) (trace (fill_autocomplete_field pg f trigger)) ->
        exists a, s = auto f a)
  /\ (f <> "sponsor"%string -> f <> "access"%string ->
      f <> "employer"%string ->
      run_result (fill_autocomplete_field pg f trigger) = Ret false
      /\ forall s,
           ~ In (Call s) (trace (fill_autocomplete_field pg f trigger)))
  /\ (forall sel i,
        In (Call (auto f (AOptClick sel i)))
           (trace (fill_autocomplete_field pg f trigger)) ->
        act pg (auto f (AOptClick sel i)) = Ret tt ->
        ~ In (Call (auto f AArrowDown))
             (trace (fill_autocomplete_field pg f trigger))).
Proof.
  split; [apply autocomplete_returns|]. split; [|split].
  - intros s H.
    apply (emits_in _ _ _ (autocomplete_own pg f trigger)) in H.
    destruct s as [l | n | d | fs]; try discriminate H.
    destruct fs; try discriminate H.
    cbn in H. apply String.eqb_eq in H. subst. eexists. reflexivity.
  - intros S A E.
    apply String.eqb_neq in S, A, E.
    unfold fill_autocomplete_field. rewrite S, A, E.
    split; [reflexivity|].
    intros s H. cbn in H.
    repeat (destruct H as [H | H]; [discriminate H|]). destruct H.
  - intros sel i C K D.
    apply autocomplete_choice in C; [|reflexivity].
    apply autocomplete_choice in D; [|reflexivity].
    apply choose_option_click in C as (opt_sel & n & I & N & C).
    pose proof (choose_option_key pg f D opt_sel I) as B.
    unfold do_count in B. rewrite bind_result in B.
    cbn [run_result fst] in B. rewrite N in B.
    now rewrite (click_first_visible_clicked pg f _ _ _ _ _ C K) in B.
Qed.

(** ** The commands *)

Lemma process_records_no_fetch (w : World) (headless submit : bool)
  (records : list Submission) :
  forall k0 s f j,
    ~ In (FetchById j)
        (trace (process_records w headless submit k0 records s f)).
Proof.
  induction records as [|r0 rest IH]; intros k0 s f j H; [destruct H|].
  rewrite process_records_cons in H.
  destruct (format_applicant_for_bot r0) as [a0 | x]; [|destruct H].
  cbv zeta in H.
  destruct (run_application_returns (page w k0) (env w) a0 headless submit)
    as [success R].
  rewrite R in H.
  assert (Head : ~ In (FetchById j)
                   (Info "Processing"
                    :: List.map (At k0)
                         (trace (run_application (page w k0) (env w) a0
                                   headless submit)))).
  { intros [F | F]; [discriminate F|].
    apply in_map_iff in F as (x & Fx & _). discriminate Fx. }
  destruct (success && submit).
  - destruct (mark_result w k0) as [b | x]; cbn [trace snd] in H;
      apply in_app_iff in H as [H | H]; try contradiction.
    + destruct H as [H | [H | H]]; [discriminate H | discriminate H|].
      now apply IH in H.
    + destruct H as [H | []]. discriminate H.
  - destruct (negb success); cbn [trace snd] in H;
      apply in_app_iff in H as [H | H]; try contradiction.
    + destruct H as [H | H]; [discriminate H | now apply IH in H].
    + now apply IH in H.
Qed.

Lemma sessions_in_turn_launch (headless h : bool) (k0 n k : nat) :
  In (At k (Launch h)) (sessions_in_turn headless k0 n) -> h = headless.
Proof.
  unfold sessions_in_turn. intros H.
  apply in_flat_map in H as (j & _ & [H | [H | []]]);
    [now injection H as _ <- | discriminate H].
Qed.

Lemma run_apply_launch_mode (w : World) (headless submit : bool)
  (application_id : option pystr) (all_pending : bool) (k : nat) (h : bool) :
  In (At k (Launch h))
     (trace (run_apply w headless submit application_id all_pending)) ->
  h = headless.
Proof.
  intros H.
  destruct (run_apply_sessions w headless submit application_id all_pending)
    as (n & S & _).
  apply (sessions_in_turn_launch headless h 0 n k).
  rewrite <- S. apply filter_In. split; [exact H | reflexivity].
Qed.

Lemma run_test_trace (w : World) (headless : bool) :
  trace (run_test w headless) =
  Info "[TEST] Running with test data (submit disabled)"
  :: List.map (At 0%nat)
       (trace (run_application (page w 0) (env w) test_applicant headless
                 false)).
Proof.
  unfold run_test, info, emit, within.
  rewrite bind_returned. cbn [trace snd app]. f_equal.
  destruct (run_application_returns (page w 0) (env w) test_applicant
              headless false) as [b R].
  destruct (run_application (page w 0) (env w) test_applicant headless false)
    as [r t].
  cbn [run_result fst] in R. subst r. cbn. now rewrite app_nil_r.
Qed.


(** X21 (main, run_apply).  Which command does what: every browser of a run
    is launched headless exactly when [--visible] is absent; the pending
    list is fetched only by [apply --all] without a usable [--id], a single
    record only by [apply] with a non-empty [--id], which so takes
    precedence over [--all]; the repository is written only by [apply
    --submit]; and [apply] with neither a non-empty [--id] nor [--all] does
    nothing at all. *)
Theorem what_each_command_does (w : World) (args : Args) :
  (forall k h, In (At k (Launch h)) (trace (main w args)) ->
               h = negb (visible_of args))
  /\ (In FetchPending (trace (main w args)) <->
      exists id submit visible,
        args = ApplyArgs id true submit visible /\ truthy id = false)
  /\ (forall i, In (FetchById i) (trace (main w args)) <->
      exists all submit visible,
        args = ApplyArgs (Some i) all submit visible /\ i <> [])
  /\ (forall k i, In (MarkSent k i) (trace (main w args)) ->
      exists id all visible, args = ApplyArgs id all true visible)
  /\ (forall id submit visible,
        truthy id = false ->
        main w (ApplyArgs id false submit visible) = (Ret tt, [])).
Proof.
  split; [|split; [|split; [|split]]].
  - intros k h H. destruct args as [id all submit visible | visible |];
      cbn [main visible_of] in *.
    + exact (run_apply_launch_mode _ _ _ _ _ _ _ H).
    + assert (In (At k (Launch h))
                (filter is_session_event (trace (run_test w (negb visible)))))
        as F by (apply filter_In; split; [exact H | reflexivity]).
      change (run_test w (negb visible)) with (main w (TestArgs visible)) in F.
      clear H. revert F.
      generalize (run_test_trace w (negb visible)). intros T F.
      cbn [main] in F. rewrite T in F.
      destruct (run_application_trace_shape (page w 0) (env w) test_applicant
                  (negb visible) false) as (body & E & Hb).
      rewrite E in F. cbn [List.map filter is_session_event is_launch
        is_close orb] in F.
      destruct F as [F | F]; [now injection F as _ <-|].
      rewrite map_app, filter_app in F. apply in_app_iff in F as [F | F].
      * apply filter_In in F as [F _].
        apply in_map_iff in F as (x & Ex & Hx). injection Ex as _ ->.
        rewrite forallb_forall in Hb. apply Hb in Hx. discriminate Hx.
      * cbn in F. destruct F as [F | []]. discriminate F.
    + destruct H as [H | []]. discriminate H.
  - destruct args as [id all submit visible | visible |]; cbn [main].
    + destruct (truthy id) eqn:TA.
      * rewrite (run_apply_by_id_trace w _ submit _ all TA). split.
        -- intros [H | H]; [discriminate H|]. exfalso.
           destruct (get_application_by_id w (or_empty id)) as [[r |] | x];
             [| destruct H as [H | []]; discriminate H | destruct H].
           destruct (format_applicant_for_bot r) as [a | x]; [|destruct H].
           cbv zeta in H. destruct H as [H | H]; [discriminate H|].
           apply in_app_iff in H as [H | H].
           ++ apply in_map_iff in H as (x & Ex & _). discriminate Ex.
           ++ destruct (returned_true _ && submit).
              ** destruct H as [H | H]; [discriminate H|].
                 destruct (mark_result w 0);
                   [destruct H as [H | []]; discriminate H | destruct H].
              ** destruct (returned_true _); [destruct H|].
                 destruct H as [H | []]. discriminate H.
        -- intros (id' & s' & v' & E & T). injection E as <- _ _ _.
           congruence.
      * destruct all.
        -- split.
           ++ intros _. now exists id, submit, visible.
           ++ intros _. unfold run_apply. rewrite TA.
              apply in_bind. left. now left.
        -- unfold run_apply. rewrite TA. split; [intros []|].
           intros (id' & s' & v' & E & _). discriminate E.
    + rewrite run_test_trace. split.
      * intros [H | H]; [discriminate H|].
        apply in_map_iff in H as (x & Ex & _). discriminate Ex.
      * intros (id' & s' & v' & E & _). discriminate E.
    + split.
      * intros [H | []]. discriminate H.
      * intros (id' & s' & v' & E & _). discriminate E.
  - intros i. destruct args as [id all submit visible | visible |];
      cbn [main].
    + destruct (truthy id) eqn:TA.
      * rewrite (run_apply_by_id_trace w _ submit _ all TA).
        destruct id as [[|c s] |]; try discriminate TA.
        cbn [or_empty]. split.
        -- intros [H | H].
           ++ injection H as <-. exists all, submit, visible.
              split; [reflexivity | discriminate].
           ++ exfalso.
              destruct (get_application_by_id w (c :: s)) as [[r |] | x];
                [| destruct H as [H | []]; discriminate H | destruct H].
              destruct (format_applicant_for_bot r) as [a | x];
                [|destruct H].
              cbv zeta in H. destruct H as [H | H]; [discriminate H|].
              apply in_app_iff in H as [H | H].
              ** apply in_map_iff in H as (x & Ex & _). discriminate Ex.
              ** destruct (returned_true _ && submit).
                 --- destruct H as [H | H]; [discriminate H|].
                     destruct (mark_result w 0);
                       [destruct H as [H | []]; discriminate H | destruct H].
                 --- destruct (returned_true _); [destruct H|].
                     destruct H as [H | []]. discriminate H.
        -- intros (a' & s' & v' & E & _). injection E as <- _ _ _.
           now left.
      * split.
        -- intros H. exfalso.
           assert (forall T : list run_event,
                     (forall e, In e T -> forall j, e <> FetchById j) ->
                     ~ In (FetchById i) T) as No
             by (intros T HT HI; exact (HT _ HI i eq_refl)).
           revert H. apply No. intros e He j ->.
           unfold run_apply in He. rewrite TA in He.
           destruct all; [|destruct He].
           apply in_bind in He as [He | (records & _ & He)];
             [destruct He as [He | []]; discriminate He|].
           apply in_bind in He as [He | (u & _ & He)];
             [destruct He as [He | []]; discriminate He|].
           destruct records as [|r0 rest];
             [destruct He as [He | []]; discriminate He|].
           apply in_bind in He as [He | (c & _ & He)];
             [|destruct He as [He | []]; discriminate He].
           exact (process_records_no_fetch w (negb visible) submit
                    (r0 :: rest) 0%nat 0%nat 0%nat j He).
        -- intros (a' & s' & v' & E & NE). injection E as -> _ _ _.
           destruct i; [now elim NE | discriminate TA].
    + rewrite run_test_trace. split.
      * intros [H | H]; [discriminate H|].
        apply in_map_iff in H as (x & Ex & _). discriminate Ex.
      * intros (a' & s' & v' & E & _). discriminate E.
    + split.
      * intros [H | []]. discriminate H.
      * intros (a' & s' & v' & E & _). discriminate E.
  - intros k i H. destruct args as [id all submit visible | visible |];
      cbn [main] in H.
    + destruct (mark_sent_characterisation w (negb visible) submit id all k i)
        as [[M _] _].
      apply M in H as [-> _]. now exists id, all, visible.
    + rewrite run_test_trace in H. destruct H as [H | H]; [discriminate H|].
      apply in_map_iff in H as (x & Ex & _). discriminate Ex.
    + destruct H as [H | []]. discriminate H.
  - intros id submit visible TA. cbn [main]. unfold run_apply.
    now rewrite TA.
Qed.

(** ** The applicant repository *)

Section RepoFacts.

Variable b : Repo.Backend.

Lemma client_without_credentials :
  Repo.credentials b = false ->
  Repo.get_supabase_client b = (Raise ValueError, []).
Proof.
  unfold Repo.credentials, Repo.get_supabase_client.
  destruct (truthy (Repo.SUPABASE_URL b)), (truthy (Repo.SUPABASE_KEY b));
    now intros.
Qed.

Lemma client_with_credentials :
  Repo.credentials b = true ->
  Repo.get_supabase_client b = (Repo.create_client b, []).
Proof.
  unfold Repo.credentials, Repo.get_supabase_client.
  destruct (truthy (Repo.SUPABASE_URL b)), (truthy (Repo.SUPABASE_KEY b));
    now intros.
Qed.

Lemma keep_pending_filter (data pending : list Repo.Row) :
  fold_left Repo.keep_pending data pending
  = pending ++ filter Repo.is_pending data.
Proof.
  revert pending. induction data as [|record data IH]; intros pending;
    cbn [fold_left filter]; [now rewrite app_nil_r|].
  rewrite IH. unfold Repo.keep_pending, Repo.is_pending.
  destruct (Repo.new_hire_setup_tasks record) as [| [|first tasks] | task];
    cbn [hd_error]; try (now rewrite <- app_assoc).
  - destruct (Repo.sent first); cbn [negb];
      [reflexivity | now rewrite <- app_assoc].
  - destruct (Repo.sent task); cbn [negb];
      [reflexivity | now rewrite <- app_assoc].
Qed.

Lemma functions_without_credentials :
  Repo.credentials b = false ->
  Repo.get_pending_airport_applications b = (Raise ValueError, [])
  /\ (forall i, Repo.get_application_by_id b i = (Raise ValueError, []))
  /\ (forall i, Repo.mark_badge_request_sent b i = (Raise ValueError, [])).
Proof.
  intros C. apply client_without_credentials in C.
  unfold Repo.get_pending_airport_applications, Repo.get_application_by_id,
    Repo.mark_badge_request_sent.
  rewrite C. repeat split.
Qed.

End RepoFacts.

(** X22 (get_pending_airport_applications).  With both credentials set and a
    client, the function sends one query and no write, and returns the
    records of the answer that are pending, in the order of the answer.  A
    record is pending when it has no setup task or an empty list of them, or
    when the first task of its list (the task itself for a dictionary) does
    not carry the sent flag; the tasks after the first are never looked at. *)
Theorem pending_records_are_filtered_in_order
  (b : Repo.Backend) (data : list Repo.Row) :
  Repo.credentials b = true ->
  Repo.create_client b = Ret tt ->
  Repo.select_airport b = Ret data ->
  Repo.get_pending_airport_applications b
  = (Ret (filter Repo.is_pending data), [Repo.Execute Repo.SelectAirport])
  /\ (forall s t rest rest',
        Repo.is_pending (Repo.mkRow s (Repo.TaskList (t :: rest)))
        = Repo.is_pending (Repo.mkRow s (Repo.TaskList (t :: rest')))).
Proof.
  intros C K D. split; [|reflexivity].
  unfold Repo.get_pending_airport_applications, Repo.execute.
  rewrite (client_with_credentials b C), K, D.
  cbn. now rewrite keep_pending_filter.
Qed.

Lemma pending_records_witness :
  Repo.credentials answering_backend = true
  /\ run_result (Repo.get_pending_airport_applications answering_backend)
     = Ret (List.tl airport_rows).
Proof.
  assert (Repo.credentials answering_backend = true) as C by reflexivity.
  split; [exact C|].
  destruct (pending_records_are_filtered_in_order answering_backend
              airport_rows C eq_refl eq_refl) as [E _].
  rewrite E. reflexivity.
Defined.

(** X23 (mark_badge_request_sent).  The function sends at most one update,
    and only to the first task row the select returned; without a task row
    it warns, returns [False] and writes nothing; it returns [True] exactly
    when the update of that first row returned at least one row. *)
Theorem mark_updates_the_first_task_row_only
  (b : Repo.Backend) (submission_id : pystr) :
  (List.length
     (filter Repo.is_update
        (trace (Repo.mark_badge_request_sent b submission_id))) <= 1)%nat
  /\ (forall t,
        In (Repo.Execute (Repo.UpdateTask t))
           (trace (Repo.mark_badge_request_sent b submission_id)) ->
        exists rest, Repo.select_task_ids b submission_id = Ret (t :: rest))
  /\ (In Repo.Warn (trace (Repo.mark_badge_request_sent b submission_id))
      <-> Repo.credentials b = true
          /\ Repo.create_client b = Ret tt
          /\ Repo.select_task_ids b submission_id = Ret [])
  /\ (run_result (Repo.mark_badge_request_sent b submission_id) = Ret true
      <-> exists t rest n,
            Repo.credentials b = true
            /\ Repo.create_client b = Ret tt
            /\ Repo.select_task_ids b submission_id = Ret (t :: rest)
            /\ Repo.update_task b t = Ret n /\ (0 < n)%nat).
Proof.
  destruct (Repo.credentials b) eqn:C.
  2: { destruct (functions_without_credentials b C) as (_ & _ & ->).
       cbn. split; [lia|]. split; [intros t []|]. split.
       - split; [intros [] | intros (F & _); discriminate F].
       - split; [discriminate|].
         intros (t & rest & n & F & _). discriminate F. }
  unfold Repo.mark_badge_request_sent, Repo.execute.
  rewrite (client_with_credentials b C).
  destruct (Repo.create_client b) as [[] | x].
  2: { cbn. split; [lia|]. split; [intros t []|]. split.
       - split; [intros [] | intros (_ & F & _); discriminate F].
       - split; [discriminate|].
         intros (t & rest & n & _ & F & _). discriminate F. }
  destruct (Repo.select_task_ids b submission_id) as [[|t0 rest0] | x].
  - cbn. split; [lia|]. split.
    { intros t [H | [H | []]]; discriminate H. }
    split.
    + split; [now intros _ | intros _; right; now left].
    + split; [discriminate|].
      intros (t & rest & n & _ & _ & F & _). discriminate F.
  - cbn. destruct (Repo.update_task b t0) as [n | x] eqn:U; cbn.
    + split; [lia|]. split.
      { intros t [H | [H | []]]; [discriminate H|].
        injection H as <-. now exists rest0. }
      split.
      * split; [intros [H | [H | []]]; discriminate H|].
        intros (_ & _ & F). discriminate F.
      * split.
        -- intros H. injection H as H.
           exists t0, rest0, n. repeat split; try assumption.
           destruct n; [discriminate H | lia].
        -- intros (t & rest & n' & _ & _ & E & U' & Hn).
           injection E as <- _. rewrite U in U'. injection U' as <-.
           destruct n; [lia | reflexivity].
    + split; [lia|]. split.
      { intros t [H | [H | []]]; [discriminate H|].
        injection H as <-. now exists rest0. }
      split.
      * split; [intros [H | [H | []]]; discriminate H|].
        intros (_ & _ & F). discriminate F.
      * split; [discriminate|].
        intros (t & rest & n' & _ & _ & E & U' & _).
        injection E as <- _. rewrite U in U'. discriminate U'.
  - cbn. split; [lia|]. split.
    { intros t [H | []]. discriminate H. }
    split.
    + split; [intros [H | []]; discriminate H|].
      intros (_ & _ & F). discriminate F.
    + split; [discriminate|].
      intros (t & rest & n & _ & _ & F & _). discriminate F.
Qed.

(** X24 (get_supabase_client, get_pending_airport_applications,
    get_application_by_id, mark_badge_request_sent, run_apply).  When
    SUPABASE_URL or SUPABASE_KEY is unset or empty, every repository
    function raises ValueError before it sends any query, and a run of
    [run_apply] that has something to fetch ends with that error before any
    browser session is opened. *)
Theorem missing_repository_credentials_end_the_run_before_any_session
  (b : Repo.Backend) (e : Env) (pages : nat -> Page) (ids : nat -> pystr)
  (headless submit : bool) (application_id : option pystr)
  (all_pending : bool) :
  Repo.credentials b = false ->
  truthy application_id || all_pending = true ->
  Repo.get_pending_airport_applications b = (Raise ValueError, [])
  /\ (forall i, Repo.get_application_by_id b i = (Raise ValueError, []))
  /\ (forall i, Repo.mark_badge_request_sent b i = (Raise ValueError, []))
  /\ run_result (run_apply (world_over b e pages ids) headless submit
                   application_id all_pending) = Raise ValueError
  /\ (forall k x,
        ~ In (At k x)
             (trace (run_apply (world_over b e pages ids) headless submit
                       application_id all_pending))).
Proof.
  intros C F.
  destruct (functions_without_credentials b C) as (P & G & M).
  split; [exact P|]. split; [exact G|]. split; [exact M|].
  unfold run_apply, world_over.
  cbn [get_pending_airport_applications get_application_by_id].
  destruct (truthy application_id); cbv zeta.
  - rewrite G. cbn. split; [reflexivity|].
    intros k x [H | []]. discriminate H.
  - cbn [orb] in F. subst all_pending. rewrite P. cbn.
    split; [reflexivity|].
    intros k x [H | []]. discriminate H.
Qed.

Lemma missing_repository_credentials_witness :
  run_result (run_apply (world_over backend_without_key good_env
                           (fun _ => calm_page) (fun _ => []))
                true true None true) = Raise ValueError.
Proof.
  exact (proj1 (proj2 (proj2 (proj2
    (missing_repository_credentials_end_the_run_before_any_session
       backend_without_key good_env (fun _ => calm_page) (fun _ => [])
       true true None true eq_refl eq_refl))))).
Defined.
